(** * Verification model of the Mozza spectrometer backend

    Shallow embedding of [hardware/spectro.py] (the abstract [Spectro]
    interface with its [make_acquisition] driver), of
    [hardware/Mozza.py] (the [MozzaSpectro] backend) and of the viewer
    of [daq_viewer_plugins/plugins_0D/daq_0Dviewer_MozzaSpectro.py]
    that drives the backend, followed by the properties of the
    specification that concern them.

    Python objects become records, methods become computations in a
    state-and-exception monad, the vendor SDK (libmozza, not part of the
    repository) is an interface of opaque operations, and float64 numbers
    are Rocq's primitive binary64 floats. *)

From Stdlib Require Import ZArith List String Ascii Bool Lia Floats.
From Stdlib Require Import DecimalString DecimalPos.
Import ListNotations.

Set Implicit Arguments.
Local Open Scope Z_scope.

(* ================================================================== *)
(** * Python runtime: exceptions, outcomes, the monad of method bodies *)
(* ================================================================== *)

Module Py.

(** Text carried by an exception; the constructors follow the format
    strings of the sources, with the formatted arguments kept as data. *)
Inductive message : Type :=
| StopIndexNotInRange (stop npixels : Z)
    (* 'stop index %d is not in range 1..%d' *)
| StartIndexNotBelowStop (start stop : Z)
    (* 'start index %d should be >=0 and < stop index %d' *)
| BadDeviceString (serial : string)
    (* 'Bad Mozza device string format: %r' *)
| FromSdk (code : Z)
    (* SpectroError(e), f"... {e}" built from a MozzaError *)
| ErrorLoadingTable
    (* "Error in loading spectral table {e}" *)
| InvalidLiteral (s : string)
    (* int(): invalid literal for int() with base 10 *)
| ShapeMismatch
    (* numpy: operands or input array could not be broadcast *)
| NegativeDimensions
    (* numpy: negative dimensions are not allowed *)
| BadSampleCount
    (* numpy.linspace: number of samples must be non-negative *)
| BadUnpack
    (* too many / not enough values to unpack *)
| BadTable
    (* numpy.loadtxt could not convert the file's text *)
| EmptySamplePoints
    (* numpy.interp: array of sample points is empty *)
| NotANumber.
    (* cannot convert float NaN to integer *)

Inductive exn : Type :=
| MozzaError (code : Z)
| SpectroError (m : message)
| TriggerTimeoutError
| ValueError (m : message)
| OSError
| TypeError
| IndexError
| OverflowError
| ZeroDivisionError
| RuntimeError
| RecursionError.

Definition is_MozzaError (e : exn) : bool :=
  match e with MozzaError _ => true | _ => false end.

Definition is_OSError (e : exn) : bool :=
  match e with OSError => true | _ => false end.

(** [except (IndexError, TypeError)] *)
Definition is_Index_or_Type (e : exn) : bool :=
  match e with IndexError | TypeError => true | _ => false end.

(** Why a call does not come back: a blocking [acquire] on a lock that
    another thread holds, or a [while] loop that outlives the bound on
    its iterations given to the model. *)
Inductive hang : Type := BlockedOnLock | LoopBound.

Inductive outcome (A : Type) : Type :=
| Ret (a : A)
| Raise (e : exn)
| Hang (h : hang).

Arguments Raise {A} e.
Arguments Hang {A} h.

(** A method body over the object state [S]. *)
Definition M (S A : Type) : Type := S -> outcome A * S.

Section Monad.
Context {S : Type}.

Definition ret {A} (a : A) : M S A := fun s => (Ret a, s).

Definition bind {A B} (m : M S A) (k : A -> M S B) : M S B :=
  fun s =>
    match m s with
    | (Ret a, s') => k a s'
    | (Raise e, s') => (Raise e, s')
    | (Hang h, s') => (Hang h, s')
    end.

Definition raise {A} (e : exn) : M S A := fun s => (Raise e, s).

Definition hang_on {A} (h : hang) : M S A := fun s => (Hang h, s).

Definition gets {A} (f : S -> A) : M S A := fun s => (Ret (f s), s).

Definition modify (f : S -> S) : M S unit := fun s => (Ret tt, f s).

(** A pure step that may raise: [inl e] raises [e]. *)
Definition lift {A} (r : exn + A) : M S A :=
  match r with inl e => raise e | inr a => ret a end.

(** [try: body / except <handles>: handler / else: orelse]. Exceptions
    of [orelse] are not seen by the handler, as in Python. *)
Definition try_except_else {A B} (body : M S A) (handles : exn -> bool)
    (handler : exn -> M S B) (orelse : A -> M S B) : M S B :=
  fun s =>
    match body s with
    | (Ret a, s') => orelse a s'
    | (Raise e, s') => if handles e then handler e s' else (Raise e, s')
    | (Hang h, s') => (Hang h, s')
    end.

Definition try_except {A} (body : M S A) (handles : exn -> bool)
    (handler : exn -> M S A) : M S A :=
  try_except_else body handles handler ret.

(** [try: body / finally: final]. The final block runs after a return
    and after an exception; an exception of its own replaces the
    pending one. A thread that hangs in the body never reaches it. *)
Definition try_finally {A} (body : M S A) (final : M S unit) : M S A :=
  fun s =>
    match body s with
    | (Hang h, s') => (Hang h, s')
    | (o, s') =>
        match final s' with
        | (Ret _, s'') => (o, s'')
        | (Raise e, s'') => (Raise e, s'')
        | (Hang h, s'') => (Hang h, s'')
        end
    end.
End Monad.

Declare Scope py_scope.
Delimit Scope py_scope with py.
Notation "x <- m ;; k" := (bind m (fun x => k))
  (at level 61, m at next level, right associativity) : py_scope.
Notation "m ;;; k" := (bind m (fun _ => k))
  (at level 61, right associativity) : py_scope.

(** ** Numbers *)

(** The values found in the numeric attributes of the backend: [None],
    an [int] (unbounded) or a [float] (binary64). *)
Inductive pyval : Type :=
| PNone
| PInt (z : Z)
| PFloat (f : float).

(** [float(z)] for an int: round to nearest even. *)
Definition float_of_Z (z : Z) : float :=
  SF2Prim (binary_normalize prec emax z 0 false).

(** Exact value of a finite float as a fraction [n / 2^k]. *)
Definition float_fraction (f : float) : option (Z * Z) :=
  match Prim2SF f with
  | S754_zero _ => Some (0, 0)
  | S754_finite s m e =>
      let n := if s then Z.neg m else Z.pos m in
      if 0 <=? e then Some (n * 2 ^ e, 0) else Some (n, - e)
  | S754_infinity _ | S754_nan => None
  end.

(** Python compares an int with a float by exact value. *)
Definition int_eq_float (z : Z) (f : float) : bool :=
  match float_fraction f with
  | Some (n, k) => n =? z * 2 ^ k
  | None => false
  end.

(** [a == b] on these values. *)
Definition py_eqb (a b : pyval) : bool :=
  match a, b with
  | PNone, PNone => true
  | PInt x, PInt y => x =? y
  | PFloat x, PFloat y => PrimFloat.eqb x y
  | PInt x, PFloat y => int_eq_float x y
  | PFloat x, PInt y => int_eq_float y x
  | _, _ => false
  end.

Definition py_neb (a b : pyval) : bool := negb (py_eqb a b).

Definition float_error (f : float) : exn :=
  if PrimFloat.is_nan f then ValueError NotANumber else OverflowError.

(** [int(f)]: truncation towards zero. *)
Definition trunc_float (f : float) : exn + Z :=
  match float_fraction f with
  | Some (n, k) => inr (Z.quot n (2 ^ k))
  | None => inl (float_error f)
  end.

(** [round(f)] with one argument: nearest int, ties to even. *)
Definition round_float (f : float) : exn + Z :=
  match float_fraction f with
  | Some (n, k) =>
      let d := 2 ^ k in
      let q := n / d in
      let r := 2 * (n mod d) in
      inr (if r <? d then q
           else if d <? r then q + 1
           else if Z.even q then q else q + 1)
  | None => inl (float_error f)
  end.

(** [math.ceil]-style rounding up, used by [numpy.arange]. *)
Definition ceil_float (f : float) : exn + Z :=
  match float_fraction f with
  | Some (n, k) => inr (- ((- n) / 2 ^ k))
  | None => inl (float_error f)
  end.

(** [int(x)] *)
Definition py_int (x : pyval) : exn + Z :=
  match x with
  | PNone => inl TypeError
  | PInt z => inr z
  | PFloat f => trunc_float f
  end.

(** [float(x)] *)
Definition py_float (x : pyval) : exn + float :=
  match x with
  | PNone => inl TypeError
  | PInt z =>
      let f := float_of_Z z in
      if PrimFloat.is_infinity f then inl OverflowError else inr f
  | PFloat f => inr f
  end.

(** [a / b] on Python floats. *)
Definition py_truediv (a b : float) : exn + float :=
  if PrimFloat.eqb b 0%float then inl ZeroDivisionError
  else inr (PrimFloat.div a b).

(** ** Strings *)

(** [s.split(sep)] for a one-character separator. *)
Fixpoint split (sep : ascii) (s : string) : list string :=
  match s with
  | EmptyString => [EmptyString]
  | String c rest =>
      if Ascii.eqb c sep then EmptyString :: split sep rest
      else match split sep rest with
           | [] => [String c EmptyString]
           | w :: ws => String c w :: ws
           end
  end.

(** [sep in s] *)
Fixpoint contains (sep : ascii) (s : string) : bool :=
  match s with
  | EmptyString => false
  | String c rest => Ascii.eqb c sep || contains sep rest
  end.

(** A [str] is the list of its characters, each a code point below
    256. The blanks that [int] skips at both ends of such a string: tab
    to carriage return, the space, and the two blanks above 127, U+0085
    and U+00A0. *)
Definition is_space (c : ascii) : bool :=
  let n := nat_of_ascii c in
  (((9 <=? n) && (n <=? 13)) || (n =? 32) || (n =? 133) || (n =? 160))%nat.

Fixpoint lstrip (s : string) : string :=
  match s with
  | String c rest => if is_space c then lstrip rest else s
  | EmptyString => EmptyString
  end.

Fixpoint rstrip (s : string) : string :=
  match s with
  | EmptyString => EmptyString
  | String c rest =>
      match rstrip rest with
      | EmptyString => if is_space c then EmptyString else String c EmptyString
      | r => String c r
      end
  end.

Definition digit_of (c : ascii) : option Z :=
  let n := nat_of_ascii c in
  if ((48 <=? n) && (n <=? 57))%nat then Some (Z.of_nat n - 48) else None.

(** Digits of a decimal literal; a single underscore may separate two
    digits. [prev] tells whether the previous character was a digit. *)
Fixpoint parse_digits (s : string) (acc : Z) (prev : bool) : option Z :=
  match s with
  | EmptyString => if prev then Some acc else None
  | String c rest =>
      match digit_of c with
      | Some d => parse_digits rest (10 * acc + d) true
      | None =>
          if (Ascii.eqb c "_" && prev)%bool then parse_digits rest acc false
          else None
      end
  end.

(** [int(s)] for a [str] in base 10: among the characters below 256
    the decimal digits are the ASCII ones. *)
Definition int_of_str (s : string) : exn + Z :=
  let body := rstrip (lstrip s) in
  let parsed :=
    match body with
    | String "-" rest => option_map Z.opp (parse_digits rest 0 false)
    | String "+" rest => parse_digits rest 0 false
    | _ => parse_digits body 0 false
    end in
  match parsed with
  | Some z => inr z
  | None => inl (ValueError (InvalidLiteral s))
  end.

(** ['%d' % z] *)
Definition format_d (z : Z) : string := NilZero.string_of_int (Z.to_int z).

Fixpoint zeros (n : nat) : string :=
  match n with O => EmptyString | S k => String "0" (zeros k) end.

(** ['%04d' % z] *)
Definition format_04d (z : Z) : string :=
  let digits := NilZero.string_of_uint (N.to_uint (Z.to_N (Z.abs z))) in
  let sign := if z <? 0 then "-"%string else EmptyString in
  let width := (String.length sign + String.length digits)%nat in
  (sign ++ zeros (4 - width) ++ digits)%string.

End Py.

(* ================================================================== *)
(** * The numpy functions the backend calls *)
(* ================================================================== *)

Module Np.
Import Py.
Local Open Scope float_scope.

(** [1e7 / x]: wavelength in nm to wavenumber in cm^-1 and back. *)
Definition inv_1e7 (x : float) : float := 1e7 / x.

(** [np.zeros(n, dtype=np.uint8)] *)
Definition zeros_uint8 (n : Z) : exn + list Byte.byte :=
  if (n <? 0)%Z then inl (ValueError NegativeDimensions)
  else inr (repeat Byte.x00 (Z.to_nat n)).

(** [a[i]] for an int: negative indices count from the end. *)
Definition item (a : list float) (i : Z) : exn + float :=
  let n := Z.of_nat (List.length a) in
  let j := if (i <? 0)%Z then (i + n)%Z else i in
  if ((0 <=? j) && (j <? n))%Z then
    match nth_error a (Z.to_nat j) with
    | Some x => inr x
    | None => inl IndexError
    end
  else inl IndexError.

(** [a[i]] for the values an index attribute can hold. [None] is
    [np.newaxis]: the result is an array again, here [inr None]; a
    float is not a valid index. *)
Definition getitem (a : list float) (i : pyval) : exn + option float :=
  match i with
  | PInt z => match item a z with inl e => inl e | inr x => inr (Some x) end
  | PNone => inr None
  | PFloat _ => inl IndexError
  end.

Definition of_nat (i : nat) : float := float_of_Z (Z.of_nat i).

(** [np.arange(start, stop, step)] on floats: [ceil((stop-start)/step)]
    elements [start + i*delta] with [delta = (start+step) - start]. *)
Definition arange (start stop step : float) : exn + list float :=
  match ceil_float ((stop - start) / step) with
  | inl e => inl e
  | inr len =>
      let delta := (start + step) - start in
      inr (map (fun i => start + of_nat i * delta) (seq 0 (Z.to_nat len)))
  end.

(** [np.linspace(a, b, num)] with the end point included. *)
Definition linspace (a b : float) (num : Z) : exn + list float :=
  if (num <? 0)%Z then inl (ValueError BadSampleCount)
  else
    let n := Z.to_nat num in
    let div := float_of_Z (num - 1) in
    let delta := b - a in
    let step := delta / div in
    let at_ (i : nat) : float :=
      if (num <=? 1)%Z then of_nat i * delta + a
      else if ((Z.of_nat i) =? num - 1)%Z then b
      else if (step =? 0) then (of_nat i / div) * delta + a
      else of_nat i * step + a in
    inr (map at_ (seq 0 n)).

(** ** [np.interp]

    [np.interp(x, xp, fp)] with [left], [right] and [period] left at
    [None], as numpy computes it: the search of the interval and the
    loop over the points of [x] follow [binary_search_with_guess] and
    [arr_interp] of numpy, sample points that are not increasing
    included. *)

(** [arr[i]] *)
Definition elt (arr : list float) (i : Z) : float :=
  nth (Z.to_nat i) arr nan.

(** [for (i = i0; i < len && key >= arr[i]; i++); return i - 1;] *)
Fixpoint linear_search (fuel : nat) (key : float) (arr : list float)
    (len i : Z) : Z :=
  match fuel with
  | O => (i - 1)%Z
  | S fuel' =>
      if ((i <? len)%Z && (elt arr i <=? key))%bool
      then linear_search fuel' key arr len (i + 1)%Z
      else (i - 1)%Z
  end.

(** [while (imin < imax)]: the bisection, which halves the interval at
    every round; [return imin - 1;] *)
Fixpoint bisect (fuel : nat) (key : float) (arr : list float)
    (imin imax : Z) : Z :=
  match fuel with
  | O => (imin - 1)%Z
  | S fuel' =>
      if (imin <? imax)%Z then
        let imid := (imin + Z.shiftr (imax - imin) 1)%Z in
        if elt arr imid <=? key
        then bisect fuel' key arr (imid + 1)%Z imax
        else bisect fuel' key arr imin imid
      else (imin - 1)%Z
  end.

(** [binary_search_with_guess(key, arr, len, guess)]: [len] above the
    last sample point, [-1] below the first, a linear search up to four
    sample points, and otherwise the three intervals around [guess]
    before the bisection ([LIKELY_IN_CACHE_SIZE] is 8). *)
Definition binary_search_with_guess (key : float) (arr : list float)
    (guess : Z) : Z :=
  let len := Z.of_nat (List.length arr) in
  let fuel := S (List.length arr) in
  if elt arr (len - 1) <? key then len
  else if key <? elt arr 0 then (-1)%Z
  else if (len <=? 4)%Z then linear_search fuel key arr len 1
  else
    let guess := if (len - 3 <? guess)%Z then (len - 3)%Z else guess in
    let guess := if (guess <? 1)%Z then 1%Z else guess in
    if key <? elt arr guess then
      if key <? elt arr (guess - 1) then
        let imax := (guess - 1)%Z in
        let imin :=
          if ((8 <? guess)%Z && (elt arr (guess - 8) <=? key))%bool
          then (guess - 8)%Z else 0%Z in
        bisect fuel key arr imin imax
      else (guess - 1)%Z
    else if key <? elt arr (guess + 1) then guess
    else if key <? elt arr (guess + 2) then (guess + 1)%Z
    else
      let imin := (guess + 2)%Z in
      let imax :=
        if ((guess <? len - 8 - 1)%Z && (key <? elt arr (guess + 8)))%bool
        then (guess + 8)%Z else len in
      bisect fuel key arr imin imax.

(** The value at [x], for the interval [j] that the search has found:
    [fp[0]] on the left, [fp[-1]] on the right, and the chord between,
    computed from the other end when it is not a number. *)
Definition interp_at (x : float) (xp fp : list float) (j : Z) : float :=
  let len := Z.of_nat (List.length xp) in
  if (j =? -1)%Z then elt fp 0
  else if (j =? len)%Z then elt fp (len - 1)
  else if (j =? len - 1)%Z then elt fp j
  else if elt xp j =? x then elt fp j
  else
    let slope := (elt fp (j + 1) - elt fp j) / (elt xp (j + 1) - elt xp j) in
    let r := slope * (x - elt xp j) + elt fp j in
    if is_nan r then
      let r' := slope * (x - elt xp (j + 1)) + elt fp (j + 1) in
      if (is_nan r' && (elt fp j =? elt fp (j + 1)))%bool
      then elt fp j else r'
    else r.

(** The loop over [x] for two sample points or more: a point that is
    not a number is copied, and the interval found for a point is the
    guess for the next. *)
Fixpoint interp_loop (j : Z) (x xp fp : list float) : list float :=
  match x with
  | [] => []
  | x_val :: rest =>
      if is_nan x_val then x_val :: interp_loop j rest xp fp
      else
        let j' := binary_search_with_guess x_val xp j in
        interp_at x_val xp fp j' :: interp_loop j' rest xp fp
  end.

(** The loop over [x] for one sample point:
    [(x < xp[0]) ? left : ((x > xp[0]) ? right : fp[0])]. *)
Definition interp_single (x xp0 fp0 : float) : float :=
  if x <? xp0 then fp0 else if xp0 <? x then fp0 else fp0.

(** [np.interp(x, xp, fp)]: piecewise linear, constant outside the
    sample points. *)
Definition interp (x xp fp : list float) : exn + list float :=
  match xp with
  | [] => inl (ValueError EmptySamplePoints)
  | _ =>
      if (List.length fp =? List.length xp)%nat
      then inr (match xp with
                | [xp0] => map (fun v => interp_single v xp0 (elt fp 0)) x
                | _ => interp_loop 0 x xp fp
                end)
      else inl (ValueError ShapeMismatch)
  end.

Fixpoint map2 (f : float -> float -> float) (a b : list float) : list float :=
  match a, b with
  | x :: a', y :: b' => f x y :: map2 f a' b'
  | _, _ => []
  end.

(** [a * b] on two one-dimensional float arrays, with broadcasting of
    a one-element operand. *)
Definition multiply (a b : list float) : exn + list float :=
  if (List.length a =? List.length b)%nat then inr (map2 PrimFloat.mul a b)
  else match a, b with
       | [x], _ => inr (map (fun y => x * y) b)
       | _, [y] => inr (map (fun x => x * y) a)
       | _, _ => inl (ValueError ShapeMismatch)
       end.

(** [spec * amp] where either operand may be [None]. [None * None] is
    a [TypeError] of the interpreter; with one array operand numpy
    multiplies element by element as objects, which raises [TypeError]
    at the first element and yields an empty array when there is none. *)
Definition mul (spec amp : option (list float)) : exn + option (list float) :=
  match spec, amp with
  | Some a, Some b =>
      match multiply a b with inl e => inl e | inr r => inr (Some r) end
  | Some a, None | None, Some a =>
      match a with
      | [] => inr (Some [])
      | _ :: _ => inl TypeError
      end
  | None, None => inl TypeError
  end.

(** What [np.loadtxt(path, unpack=True)] produces: a 0-, 1- or
    2-dimensional array (the last one as the list of its rows, i.e. of
    the file's columns), or an exception: [OSError] for a file that
    cannot be opened, [ValueError] for text that is not a table of
    numbers. *)
Inductive array_value : Type :=
| Arr0 (x : float)
| Arr1 (v : list float)
| Arr2 (rows : list (list float)).

Inductive loaded : Type :=
| LoadRaises (e : exn)
| LoadReturns (a : array_value).

(** An item of an array: a float64 scalar or a one-dimensional array. *)
Inductive npvalue : Type :=
| Scalar (x : float)
| Vec (v : list float).

(** [x, y = a]: iteration along the first axis, exactly two items. *)
Definition unpack2 (a : array_value) : exn + (npvalue * npvalue) :=
  match a with
  | Arr0 _ => inl TypeError
  | Arr1 [x; y] => inr (Scalar x, Scalar y)
  | Arr2 [r1; r2] => inr (Vec r1, Vec r2)
  | _ => inl (ValueError BadUnpack)
  end.

(** [np.any(a < 0)] *)
Definition any_negative (a : npvalue) : bool :=
  match a with
  | Scalar x => (x <? 0)
  | Vec v => existsb (fun x => x <? 0) v
  end.

(** [len(a)] *)
Definition len (a : npvalue) : exn + nat :=
  match a with
  | Scalar _ => inl TypeError
  | Vec v => inr (List.length v)
  end.

End Np.

(* ================================================================== *)
(** * The vendor SDK (libmozza), seen from the backend *)
(* ================================================================== *)

Module Sdk.

(** [MD.INTERNAL] and [MD.EXTERNAL], the two trigger sources the backend
    writes and tests. *)
Inductive trigger : Type := INTERNAL | EXTERNAL.

(** The fields of [device.acquisition_params] and
    [device.process_params] that the backend reads or writes. The
    structures are declared by the SDK; the trigger delay is an integer
    number of microseconds (the backend writes [0] and [int(...)] to it). *)
Record AcquisitionParams : Type := {
  trigger_source : trigger;
  trigger_delay_us : Z;
  signal_high_gain : bool;
  reference_high_gain : bool;
  point_repetition : Z
}.

Record ProcessParams : Type := {
  signal_offset : float;
  reference_offset : float
}.

(** A [MozzaUSB] object: its public attributes and the state [HW] of the
    instrument behind it, which only SDK calls can see. *)
Record Device (HW : Type) : Type := {
  acquisition_params : AcquisitionParams;
  process_params : ProcessParams;
  rf_attenuation : Z;
  hw : HW
}.

Arguments Build_Device {HW}.

Definition set_trigger_source (t : trigger) (p : AcquisitionParams) :=
  {| trigger_source := t;
     trigger_delay_us := trigger_delay_us p;
     signal_high_gain := signal_high_gain p;
     reference_high_gain := reference_high_gain p;
     point_repetition := point_repetition p |}.

Definition set_trigger_delay_us (d : Z) (p : AcquisitionParams) :=
  {| trigger_source := trigger_source p;
     trigger_delay_us := d;
     signal_high_gain := signal_high_gain p;
     reference_high_gain := reference_high_gain p;
     point_repetition := point_repetition p |}.

Definition set_acquisition_params {HW} (p : AcquisitionParams) (d : Device HW) :=
  {| acquisition_params := p;
     process_params := process_params d;
     rf_attenuation := rf_attenuation d;
     hw := hw d |}.

Definition set_process_params {HW} (p : ProcessParams) (d : Device HW) :=
  {| acquisition_params := acquisition_params d;
     process_params := p;
     rf_attenuation := rf_attenuation d;
     hw := hw d |}.

(** An SDK call either returns or raises [MozzaError]; both may change
    the device. *)
Inductive result (A : Type) : Type :=
| Ok (a : A)
| Failed (code : Z).

Arguments Failed {A} code.

Definition op (HW A : Type) : Type := Device HW -> result A * Device HW.

(** The methods of [MozzaUSB] used by the backend. Nothing is assumed
    about what they do. *)
Record MozzaUSB (HW : Type) : Type := {
  get_serials : op HW (list Z);
  connect : Z -> op HW unit;
  disconnect : op HW unit;
  get_sensors : op HW unit;
  reset_all : op HW unit;
  set_default_params : op HW unit;
  set_wavenumber_array : list float -> op HW unit;
  table_length : Device HW -> Z;
  get_raw_data_size : Z -> op HW Z;
  begin_acquisition : op HW Z;
  end_acquisition : op HW unit;
  read_raw : option Z -> op HW (list Byte.byte);
  process_spectrum : list Byte.byte -> op HW (list float);
  separate_sig_ref : list Byte.byte -> op HW (list float * list float);
  measure_offsets : bool -> bool -> op HW (float * float);
  set_rf_attenuation : option Z -> op HW unit;
  send_acquisition_params : op HW unit;   (* set_acquisition_params() *)
  send_process_params : op HW unit;       (* set_process_params() *)
  setup_gains : bool -> bool -> op HW unit;
  set_auto_params : Z -> float -> bool -> bool -> Z -> Z -> op HW unit;
  get_trigger_frequency : op HW Py.pyval
}.

(** The SDK calls, as they appear in the trace kept with the state. *)
Inductive call : Type :=
| Call_get_serials
| Call_connect (serial_num : Z)
| Call_disconnect
| Call_get_sensors
| Call_reset_all
| Call_set_default_params
| Call_set_wavenumber_array (wnums : list float)
| Call_get_raw_data_size (npoints : Z)
| Call_begin_acquisition
| Call_end_acquisition
| Call_read_raw (npoints : option Z)
| Call_process_spectrum (raw : list Byte.byte)
| Call_separate_sig_ref (raw : list Byte.byte)
| Call_measure_offsets
| Call_set_rf_attenuation (value : option Z)
| Call_set_acquisition_params
| Call_set_process_params
| Call_setup_gains
| Call_set_auto_params
| Call_get_trigger_frequency.

(** An entry of the trace: the call, and whether it returned ([true])
    or raised [MozzaError] ([false]). *)
Definition event : Type := (call * bool)%type.

(** The method a call is a call of. *)
Definition name (c : call) : string :=
  match c with
  | Call_get_serials => "get_serials"
  | Call_connect _ => "connect"
  | Call_disconnect => "disconnect"
  | Call_get_sensors => "get_sensors"
  | Call_reset_all => "reset_all"
  | Call_set_default_params => "set_default_params"
  | Call_set_wavenumber_array _ => "set_wavenumber_array"
  | Call_get_raw_data_size _ => "get_raw_data_size"
  | Call_begin_acquisition => "begin_acquisition"
  | Call_end_acquisition => "end_acquisition"
  | Call_read_raw _ => "read_raw"
  | Call_process_spectrum _ => "process_spectrum"
  | Call_separate_sig_ref _ => "separate_sig_ref"
  | Call_measure_offsets => "measure_offsets"
  | Call_set_rf_attenuation _ => "set_rf_attenuation"
  | Call_set_acquisition_params => "set_acquisition_params"
  | Call_set_process_params => "set_process_params"
  | Call_setup_gains => "setup_gains"
  | Call_set_auto_params => "set_auto_params"
  | Call_get_trigger_frequency => "get_trigger_frequency"
  end.

(** A trace with the arguments of the calls left out. *)
Definition names (trace : list event) : list (string * bool) :=
  map (fun ev => (name (fst ev), snd ev)) trace.

(** The wavenumber table the instrument holds: the argument of the last
    [set_wavenumber_array] that returned. *)
Fixpoint programmed_table (trace : list event) : option (list float) :=
  match trace with
  | [] => None
  | (c, ok) :: rest =>
      match programmed_table rest, c, ok with
      | Some t, _, _ => Some t
      | None, Call_set_wavenumber_array wnums, true => Some wnums
      | None, _, _ => None
      end
  end.

End Sdk.

(* ================================================================== *)
(** * threading.RLock, from the calling thread's side *)
(* ================================================================== *)

Module Lock.
Import Py.

(** [HeldBySelf n]: the calling thread owns the lock and has acquired it
    [n + 1] times. [HeldByOther]: another thread owns it, and keeps it
    for the duration of the call under study. *)
Inductive RLock : Type :=
| Unlocked
| HeldBySelf (n : nat)
| HeldByOther.

(** [lock.acquire()] *)
Definition acquire (l : RLock) : outcome unit * RLock :=
  match l with
  | Unlocked => (Ret tt, HeldBySelf 0)
  | HeldBySelf n => (Ret tt, HeldBySelf (S n))
  | HeldByOther => (Hang BlockedOnLock, HeldByOther)
  end.

(** [lock.acquire(False)] *)
Definition try_acquire (l : RLock) : bool * RLock :=
  match l with
  | Unlocked => (true, HeldBySelf 0)
  | HeldBySelf n => (true, HeldBySelf (S n))
  | HeldByOther => (false, HeldByOther)
  end.

(** [lock.release()] *)
Definition release (l : RLock) : outcome unit * RLock :=
  match l with
  | HeldBySelf 0 => (Ret tt, Unlocked)
  | HeldBySelf (S n) => (Ret tt, HeldBySelf n)
  | _ => (Raise RuntimeError, l)
  end.

End Lock.

(* ================================================================== *)
(** * spectro.py: the [Spectro] interface *)
(* ================================================================== *)

Module Spectro.
Import Py.
Local Open Scope py_scope.

(** [Acquisition = namedtuple('Acquisition', 'start stop')] *)
Record Acquisition : Type := { start : pyval; stop : pyval }.

Inductive SpectralUnits : Type := nm | inv_cm.

Definition units_dict (u : SpectralUnits) : string :=
  match u with nm => "nm" | inv_cm => "cm^-1" end.

Definition quantity_dict (u : SpectralUnits) : string :=
  match u with nm => "Wavelength" | inv_cm => "Wavenumber" end.

(** The attributes set by [Spectro.__init__]. *)
Record State : Type := {
  _npixels : option Z;
  _lambdas : option (list float);
  _spectrum : option (list float);
  _connected : bool;
  _serial : string;
  native_units : SpectralUnits;
  acquisition : Acquisition
}.

(** [Spectro.__init__] *)
Definition init : State :=
  {| _npixels := None;
     _lambdas := None;
     _spectrum := None;
     _connected := false;
     _serial := EmptyString;
     native_units := nm;
     acquisition := {| start := PNone; stop := PNone |} |}.

Definition set_npixels (v : option Z) (s : State) : State :=
  {| _npixels := v; _lambdas := _lambdas s; _spectrum := _spectrum s;
     _connected := _connected s; _serial := _serial s;
     native_units := native_units s; acquisition := acquisition s |}.

Definition set_lambdas (v : option (list float)) (s : State) : State :=
  {| _npixels := _npixels s; _lambdas := v; _spectrum := _spectrum s;
     _connected := _connected s; _serial := _serial s;
     native_units := native_units s; acquisition := acquisition s |}.

Definition set_spectrum (v : option (list float)) (s : State) : State :=
  {| _npixels := _npixels s; _lambdas := _lambdas s; _spectrum := v;
     _connected := _connected s; _serial := _serial s;
     native_units := native_units s; acquisition := acquisition s |}.

Definition set_connected (v : bool) (s : State) : State :=
  {| _npixels := _npixels s; _lambdas := _lambdas s; _spectrum := _spectrum s;
     _connected := v; _serial := _serial s;
     native_units := native_units s; acquisition := acquisition s |}.

Definition set_serial (v : string) (s : State) : State :=
  {| _npixels := _npixels s; _lambdas := _lambdas s; _spectrum := _spectrum s;
     _connected := _connected s; _serial := v;
     native_units := native_units s; acquisition := acquisition s |}.

Definition set_native_units (v : SpectralUnits) (s : State) : State :=
  {| _npixels := _npixels s; _lambdas := _lambdas s; _spectrum := _spectrum s;
     _connected := _connected s; _serial := _serial s;
     native_units := v; acquisition := acquisition s |}.

Definition set_acquisition (v : Acquisition) (s : State) : State :=
  {| _npixels := _npixels s; _lambdas := _lambdas s; _spectrum := _spectrum s;
     _connected := _connected s; _serial := _serial s;
     native_units := native_units s; acquisition := v |}.

(** A device class: an object state that extends [State], and the
    abstract method that [make_acquisition] calls. *)
Class Backend (S : Type) : Type := {
  base : S -> State;
  with_base : State -> S -> S;
  _acquire_spectrum : bool -> M S (option (list float))
}.

Section Interface.
Context {S : Type} {B : Backend S}.

Definition update (f : State -> State) : M S unit :=
  modify (fun s => with_base (f (base s)) s).

(** [Spectro.make_acquisition(start, stop, background_mode)]. With
    [_npixels] still [None] every path below the connection test ends
    in a [TypeError] ([stop += None], ['%d' % None], [stop >= None]). *)
Definition make_acquisition (start stop : Z) (background_mode : bool)
  : M S unit :=
  connected <- gets (fun s => _connected (base s)) ;;
  if negb connected then ret tt
  else
    npixels <- gets (fun s => _npixels (base s)) ;;
    match npixels with
    | None => raise TypeError
    | Some n =>
        let stop := if stop <? 0 then stop + n else stop in
        if (stop <? 1) || (stop >=? n) then
          raise (ValueError (StopIndexNotInRange stop n))
        else
          let start := if start <? 0 then start + n else start in
          if (start <? 0) || (start >=? stop) then
            raise (ValueError (StartIndexNotBelowStop start stop))
          else
            update (set_acquisition {| start := PInt start; stop := PInt stop |}) ;;;
            spec <- _acquire_spectrum background_mode ;;
            update (set_spectrum spec)
    end.

(** The properties [spectrum], [lambdas], [connected], [serial]. *)
Definition spectrum : M S (option (list float)) :=
  gets (fun s => _spectrum (base s)).
Definition lambdas : M S (option (list float)) :=
  gets (fun s => _lambdas (base s)).
Definition connected : M S bool := gets (fun s => _connected (base s)).
Definition serial : M S string := gets (fun s => _serial (base s)).

(** [Spectro.reset] *)
Definition reset : M S unit := ret tt.
End Interface.

End Spectro.

(* ================================================================== *)
(** * Mozza.py: the [MozzaSpectro] backend *)
(* ================================================================== *)

Module Mozza.
Import Py.
Local Open Scope py_scope.

(** The function object stored in [correct_amplitude]: the lambda of
    [load_amp_correction], with the two arrays it closes over. *)
Record Correction : Type := {
  wavelength : Np.npvalue;
  amplitude : Np.npvalue
}.

(** [lambda x: np.interp(x, 1e7/wavelength[::-1], amplitude[::-1])] *)
Definition apply_correction (f : Correction) (x : list float)
  : exn + list float :=
  match wavelength f, amplitude f with
  | Np.Vec wl, Np.Vec am => Np.interp x (map Np.inv_1e7 (rev wl)) (rev am)
  | _, _ => inl IndexError
  end.

Section Backend.
Context {HW : Type}.
Variable sdk : Sdk.MozzaUSB HW.

(** The attributes of a [MozzaSpectro] object, then what the object
    can observe of its surroundings: the correction files in the
    working directory, as [np.loadtxt] reads them, and the trace of
    the SDK calls made so far (oldest first). *)
Record World : Type := {
  spectro : Spectro.State;
  device : Sdk.Device HW;
  resolution_cm : float;
  _trigger_delay_us : pyval;
  _acquisition : Spectro.Acquisition;
  _lock : Lock.RLock;
  buffer : list Byte.byte;
  correct_amplitude : option Correction;
  apply_amp_correction : bool;
  amp_correction : option (list float);
  files : string -> Np.loaded;
  calls : list Sdk.event
}.

Definition set_spectro (v : Spectro.State) (w : World) : World :=
  {| spectro := v; device := device w; resolution_cm := resolution_cm w;
     _trigger_delay_us := _trigger_delay_us w; _acquisition := _acquisition w;
     _lock := _lock w; buffer := buffer w;
     correct_amplitude := correct_amplitude w;
     apply_amp_correction := apply_amp_correction w;
     amp_correction := amp_correction w; files := files w; calls := calls w |}.

Definition set_device (v : Sdk.Device HW) (w : World) : World :=
  {| spectro := spectro w; device := v; resolution_cm := resolution_cm w;
     _trigger_delay_us := _trigger_delay_us w; _acquisition := _acquisition w;
     _lock := _lock w; buffer := buffer w;
     correct_amplitude := correct_amplitude w;
     apply_amp_correction := apply_amp_correction w;
     amp_correction := amp_correction w; files := files w; calls := calls w |}.

Definition set_trigger_delay (v : pyval) (w : World) : World :=
  {| spectro := spectro w; device := device w; resolution_cm := resolution_cm w;
     _trigger_delay_us := v; _acquisition := _acquisition w;
     _lock := _lock w; buffer := buffer w;
     correct_amplitude := correct_amplitude w;
     apply_amp_correction := apply_amp_correction w;
     amp_correction := amp_correction w; files := files w; calls := calls w |}.

Definition set_table_window (v : Spectro.Acquisition) (w : World) : World :=
  {| spectro := spectro w; device := device w; resolution_cm := resolution_cm w;
     _trigger_delay_us := _trigger_delay_us w; _acquisition := v;
     _lock := _lock w; buffer := buffer w;
     correct_amplitude := correct_amplitude w;
     apply_amp_correction := apply_amp_correction w;
     amp_correction := amp_correction w; files := files w; calls := calls w |}.

Definition set_lock (v : Lock.RLock) (w : World) : World :=
  {| spectro := spectro w; device := device w; resolution_cm := resolution_cm w;
     _trigger_delay_us := _trigger_delay_us w; _acquisition := _acquisition w;
     _lock := v; buffer := buffer w;
     correct_amplitude := correct_amplitude w;
     apply_amp_correction := apply_amp_correction w;
     amp_correction := amp_correction w; files := files w; calls := calls w |}.

Definition set_buffer (v : list Byte.byte) (w : World) : World :=
  {| spectro := spectro w; device := device w; resolution_cm := resolution_cm w;
     _trigger_delay_us := _trigger_delay_us w; _acquisition := _acquisition w;
     _lock := _lock w; buffer := v;
     correct_amplitude := correct_amplitude w;
     apply_amp_correction := apply_amp_correction w;
     amp_correction := amp_correction w; files := files w; calls := calls w |}.

Definition set_correct_amplitude (v : option Correction) (w : World) : World :=
  {| spectro := spectro w; device := device w; resolution_cm := resolution_cm w;
     _trigger_delay_us := _trigger_delay_us w; _acquisition := _acquisition w;
     _lock := _lock w; buffer := buffer w;
     correct_amplitude := v;
     apply_amp_correction := apply_amp_correction w;
     amp_correction := amp_correction w; files := files w; calls := calls w |}.

Definition set_apply_amp_correction (v : bool) (w : World) : World :=
  {| spectro := spectro w; device := device w; resolution_cm := resolution_cm w;
     _trigger_delay_us := _trigger_delay_us w; _acquisition := _acquisition w;
     _lock := _lock w; buffer := buffer w;
     correct_amplitude := correct_amplitude w;
     apply_amp_correction := v;
     amp_correction := amp_correction w; files := files w; calls := calls w |}.

Definition set_amp_correction (v : option (list float)) (w : World) : World :=
  {| spectro := spectro w; device := device w; resolution_cm := resolution_cm w;
     _trigger_delay_us := _trigger_delay_us w; _acquisition := _acquisition w;
     _lock := _lock w; buffer := buffer w;
     correct_amplitude := correct_amplitude w;
     apply_amp_correction := apply_amp_correction w;
     amp_correction := v; files := files w; calls := calls w |}.

Definition set_calls (v : list Sdk.event) (w : World) : World :=
  {| spectro := spectro w; device := device w; resolution_cm := resolution_cm w;
     _trigger_delay_us := _trigger_delay_us w; _acquisition := _acquisition w;
     _lock := _lock w; buffer := buffer w;
     correct_amplitude := correct_amplitude w;
     apply_amp_correction := apply_amp_correction w;
     amp_correction := amp_correction w; files := files w; calls := v |}.

(** An assignment to an attribute of the [Spectro] base class. *)
Definition update (f : Spectro.State -> Spectro.State) : M World unit :=
  modify (fun w => set_spectro (f (spectro w)) w).

(** An assignment to a field of [self.device.acquisition_params]. *)
Definition update_acquisition_params
    (f : Sdk.AcquisitionParams -> Sdk.AcquisitionParams) : M World unit :=
  modify (fun w =>
    set_device
      (Sdk.set_acquisition_params (f (Sdk.acquisition_params (device w)))
         (device w)) w).

Definition update_process_params
    (f : Sdk.ProcessParams -> Sdk.ProcessParams) : M World unit :=
  modify (fun w =>
    set_device
      (Sdk.set_process_params (f (Sdk.process_params (device w)))
         (device w)) w).

(** [self.device.<method>(...)]: the device takes its new state, the
    call is recorded with its success, a failure is raised as
    [MozzaError]. *)
Definition call {A} (c : Sdk.call) (f : Sdk.op HW A) : M World A :=
  fun w =>
    let (r, d) := f (device w) in
    match r with
    | Sdk.Ok a =>
        (Ret a, set_calls (calls w ++ [(c, true)]) (set_device d w))
    | Sdk.Failed code =>
        (Raise (MozzaError code),
         set_calls (calls w ++ [(c, false)]) (set_device d w))
    end.

(** [except MozzaError as e: raise SpectroError(... e ...)] *)
Definition as_SpectroError {A} (e : exn) : M World A :=
  match e with
  | MozzaError code => raise (SpectroError (FromSdk code))
  | _ => raise e
  end.

Definition lock_acquire : M World unit :=
  fun w => let (o, l) := Lock.acquire (_lock w) in (o, set_lock l w).

Definition lock_try_acquire : M World bool :=
  fun w => let (b, l) := Lock.try_acquire (_lock w) in (Ret b, set_lock l w).

Definition lock_release : M World unit :=
  fun w => let (o, l) := Lock.release (_lock w) in (o, set_lock l w).

(** [with self._lock: body] *)
Definition with_lock {A} (body : M World A) : M World A :=
  lock_acquire ;;; try_finally body lock_release.

(** [MozzaSpectro.__init__], for a fresh [MozzaUSB()] object [d] and a
    working directory [fs]. *)
Definition init (d : Sdk.Device HW) (fs : string -> Np.loaded) : World :=
  {| spectro := Spectro.set_native_units Spectro.inv_cm Spectro.init;
     device := d;
     resolution_cm := 3%float;
     _trigger_delay_us := PFloat 0%float;
     _acquisition := {| Spectro.start := PInt 0; Spectro.stop := PInt 0 |};
     _lock := Lock.Unlocked;
     buffer := [];
     correct_amplitude := None;
     apply_amp_correction := false;
     amp_correction := None;
     files := fs;
     calls := [] |}.

(** [calibration_limits = (2000, 12500)] *)
Definition calibration_limits : Z * Z := (2000, 12500).

(** [MozzaSpectro.load_amp_correction(serial_num)] *)
Definition load_amp_correction (serial_num : Z) : M World bool :=
  modify (set_correct_amplitude None) ;;;
  let amp_correction_path :=
    (format_04d serial_num ++ "_AmplitudeCorrection.txt")%string in
  try_except_else
    (loaded <- gets (fun w => files w amp_correction_path) ;;
     match loaded with
     | Np.LoadRaises e => raise e
     | Np.LoadReturns a => lift (Np.unpack2 a)
     end)
    is_OSError
    (fun _ =>
       modify (set_apply_amp_correction false) ;;;
       ret false)
    (fun columns =>
       let (wavelength, amplitude) := columns in
       if Np.any_negative amplitude then
         modify (set_apply_amp_correction false) ;;;
         ret false
       else
         n_amp <- lift (Np.len amplitude) ;;
         n_wl <- lift (Np.len wavelength) ;;
         if negb (n_amp =? n_wl)%nat then
           modify (set_apply_amp_correction false) ;;;
           ret false
         else
           modify (set_correct_amplitude
                     (Some {| wavelength := wavelength;
                              amplitude := amplitude |})) ;;;
           ret true).

(** The table of [load_table] when no array is given:
    [np.linspace(1e7/self._lambdas[start], 1e7/self._lambdas[stop],
    stop-start+1)], the three arguments evaluated in this order. *)
Definition window_wavenumbers (lambdas : option (list float))
    (start stop : pyval) : exn + list float :=
  match lambdas with
  | None => inl TypeError
  | Some arr =>
      match Np.getitem arr start with
      | inl e => inl e
      | inr first =>
          match Np.getitem arr stop with
          | inl e => inl e
          | inr last =>
              match first, last, start, stop with
              | Some x, Some y, PInt s, PInt t =>
                  Np.linspace (Np.inv_1e7 x) (Np.inv_1e7 y) (t - s + 1)
              | _, _, _, _ => inl TypeError
              end
          end
      end
  end.

(** The three parts of [load_table], in the order of the source. First
    the table to write, with the assignment to [self._acquisition]: *)
Definition requested_table (start stop : pyval)
    (wnums : option (list float)) : M World (list float) :=
  match wnums with
  | None =>
      modify (set_table_window
                {| Spectro.start := start; Spectro.stop := stop |}) ;;;
      lambdas <- gets (fun w => Spectro._lambdas (spectro w)) ;;
      lift (window_wavenumbers lambdas start stop)
  | Some wnums =>
      first <- lift (Np.item wnums 0) ;;
      last <- lift (Np.item wnums (-1)) ;;
      modify (set_table_window
                {| Spectro.start := PFloat (Np.inv_1e7 first);
                   Spectro.stop := PFloat (Np.inv_1e7 last) |}) ;;;
      ret wnums
  end.

(** last, what follows the [with] block: the buffer and the cached
    correction array. *)
Definition reallocate (wnums : list float) : M World unit :=
  npoints <- gets (fun w => Sdk.table_length sdk (device w)) ;;
  size <- call (Sdk.Call_get_raw_data_size npoints)
               (Sdk.get_raw_data_size sdk npoints) ;;
  buf <- lift (Np.zeros_uint8 size) ;;
  modify (set_buffer buf) ;;;
  f <- gets correct_amplitude ;;
  match f with
  | Some f =>
      amp <- lift (apply_correction f wnums) ;;
      modify (set_amp_correction (Some amp))
  | None => ret tt
  end.

(** [MozzaSpectro.load_table(start, stop, wnums)], with the [with]
    block in between. The method calls itself; [depth] is the number of
    frames the interpreter still allows, and the call that finds none
    raises [RecursionError]. The [with] block yields [true] where the
    source returns from inside it. *)
Fixpoint load_table (depth : nat) (start stop : pyval)
    (wnums : option (list float)) : M World unit :=
  match depth with
  | O => raise RecursionError
  | S depth' =>
      wnums <- requested_table start stop wnums ;;
      returned <-
        with_lock
          (try_except_else
             (call (Sdk.Call_set_wavenumber_array wnums)
                   (Sdk.set_wavenumber_array sdk wnums))
             is_MozzaError
             (fun e =>
                try_except_else
                  (call Sdk.Call_end_acquisition (Sdk.end_acquisition sdk) ;;;
                   load_table depth' start stop (Some wnums))
                  is_MozzaError
                  (fun _ => raise (SpectroError ErrorLoadingTable))
                  (fun _ => ret true))
             (fun _ => ret false)) ;;
      if returned : bool then ret tt else reallocate wnums
  end.

(** [self.buffer[last:last+len(raw)] = raw[0:len(raw)]]: numpy clips
    the slice at the end of the buffer and refuses a value longer than
    the slice. *)
Definition assign_slice (buf : list Byte.byte) (last : nat)
    (raw : list Byte.byte) : exn + list Byte.byte :=
  if (last + List.length raw <=? List.length buf)%nat then
    inr (firstn last buf ++ raw ++ skipn (last + List.length raw) buf)
  else inl (ValueError ShapeMismatch).

(** The [while last < self.buffer.size] loop of [read_raw]; [bound]
    limits the number of iterations the model follows. *)
Fixpoint read_chunks (bound : nat) (npts lp : Z) (last : nat)
  : M World unit :=
  size <- gets (fun w => List.length (buffer w)) ;;
  if (last <? size)%nat then
    match bound with
    | O => hang_on LoopBound
    | S bound' =>
        let N := Z.min npts lp in
        raw <- call (Sdk.Call_read_raw (Some N)) (Sdk.read_raw sdk (Some N)) ;;
        buf <- gets buffer ;;
        buf' <- lift (assign_slice buf last raw) ;;
        modify (set_buffer buf') ;;;
        read_chunks bound' npts (lp - npts) (last + List.length raw)
    end
  else ret tt.

(** [trigger_freq/self.buffer.size*self.device.table_length*64 -1] *)
Definition chunk_estimate (trigger_freq : float) (size table_length : Z)
  : exn + float :=
  match py_float (PInt size) with
  | inl e => inl e
  | inr fsize =>
      match py_truediv trigger_freq fsize with
      | inl e => inl e
      | inr q =>
          match py_float (PInt table_length) with
          | inl e => inl e
          | inr flen => inr (q * flen * 64 - 1)%float
          end
      end
  end.

(** [self.buffer.size/trigger_freq/64] *)
Definition acquisition_time (size : Z) (trigger_freq : float)
  : exn + float :=
  match py_float (PInt size) with
  | inl e => inl e
  | inr fsize =>
      match py_truediv fsize trigger_freq with
      | inl e => inl e
      | inr q => py_truediv q 64%float
      end
  end.

(** [MozzaSpectro.read_raw()] *)
Definition read_raw (bound : nat) : M World (list Byte.byte) :=
  source <- gets (fun w => Sdk.trigger_source (Sdk.acquisition_params (device w))) ;;
  match source with
  | Sdk.EXTERNAL =>
      freq <- call Sdk.Call_get_trigger_frequency (Sdk.get_trigger_frequency sdk) ;;
      trigger_freq <- lift (py_float freq) ;;
      if (trigger_freq =? 0)%float then raise TriggerTimeoutError
      else
        size <- gets (fun w => Z.of_nat (List.length (buffer w))) ;;
        acq_time <- lift (acquisition_time size trigger_freq) ;;
        if (1 <? acq_time)%float then
          lp <- gets (fun w => Sdk.table_length sdk (device w)) ;;
          estimate <- lift (chunk_estimate trigger_freq size lp) ;;
          npts <- lift (round_float estimate) ;;
          read_chunks bound npts lp 0 ;;;
          gets buffer
        else
          call (Sdk.Call_read_raw None) (Sdk.read_raw sdk None)
  | Sdk.INTERNAL =>
      call (Sdk.Call_read_raw None) (Sdk.read_raw sdk None)
  end.

(** [MozzaSpectro.set_ext_trigger(flag, apply, update_delay)] *)
Definition set_ext_trigger (flag apply update_delay : bool) : M World unit :=
  update_acquisition_params
    (Sdk.set_trigger_source (if flag then Sdk.EXTERNAL else Sdk.INTERNAL)) ;;;
  (if update_delay then
     source <- gets (fun w => Sdk.trigger_source (Sdk.acquisition_params (device w))) ;;
     match source with
     | Sdk.INTERNAL =>
         delay <- gets (fun w => Sdk.trigger_delay_us (Sdk.acquisition_params (device w))) ;;
         modify (set_trigger_delay (PInt delay)) ;;;
         update_acquisition_params (Sdk.set_trigger_delay_us 0)
     | Sdk.EXTERNAL =>
         cached <- gets _trigger_delay_us ;;
         delay <- lift (py_int cached) ;;
         update_acquisition_params (Sdk.set_trigger_delay_us delay)
     end
   else ret tt) ;;;
  if apply then
    with_lock
      (try_except
         (call Sdk.Call_set_acquisition_params (Sdk.send_acquisition_params sdk))
         is_MozzaError as_SpectroError)
  else ret tt.

(** [MozzaSpectro.get_ext_trigger()] *)
Definition get_ext_trigger : M World bool :=
  source <- gets (fun w => Sdk.trigger_source (Sdk.acquisition_params (device w))) ;;
  ret (match source with Sdk.EXTERNAL => true | Sdk.INTERNAL => false end).

(** The three parts of [_acquire_spectrum], in the order of the source.
    First the test on the window and the call of [load_table]: *)
Definition reprogram_if_needed (depth : nat) : M World unit :=
  table <- gets _acquisition ;;
  wanted <- gets (fun w => Spectro.acquisition (spectro w)) ;;
  if py_neb (Spectro.start table) (Spectro.start wanted)
     || py_neb (Spectro.stop table) (Spectro.stop wanted)
  then load_table depth (Spectro.start wanted) (Spectro.stop wanted) None
  else ret tt.

(** then, with the lock taken, the [try / except MozzaError / else /
    finally] block, whose value is [spec]; its [try], [except] and
    [else] clauses first, its [finally] clause (with the release of the
    lock that ends it) next: *)
Definition acquire_try (bound : nat) : M World (option (list float)) :=
  try_except_else
    (call Sdk.Call_begin_acquisition (Sdk.begin_acquisition sdk) ;;;
     read_raw bound)
    is_MozzaError
    (fun _ => ret None)
    (fun raw =>
       spec <- call (Sdk.Call_process_spectrum raw)
                    (Sdk.process_spectrum sdk raw) ;;
       ret (Some spec)).

Definition acquire_finally : M World unit :=
  try_except
    (call Sdk.Call_end_acquisition (Sdk.end_acquisition sdk))
    is_MozzaError
    (fun _ => ret tt) ;;;
  lock_release.

Definition acquire_locked (bound : nat) : M World (option (list float)) :=
  try_finally (acquire_try bound) acquire_finally.

(** and [return spec*self.amp_correction if self.apply_amp_correction
    else spec]. *)
Definition corrected (spec : option (list float))
  : M World (option (list float)) :=
  apply <- gets apply_amp_correction ;;
  if apply then
    amp <- gets amp_correction ;;
    lift (Np.mul spec amp)
  else ret spec.

(** [MozzaSpectro._acquire_spectrum(background_mode)] *)
Definition _acquire_spectrum (depth bound : nat) (background_mode : bool)
  : M World (option (list float)) :=
  reprogram_if_needed depth ;;;
  locked <- lock_try_acquire ;;
  if locked then
    spec <- acquire_locked bound ;;
    corrected spec
  else ret None.

(** [MozzaSpectro.connect_device(serial)] *)
Definition connect_device (serial : string) : M World unit :=
  serial_num <-
    try_except
      (match nth_error (split "#" serial) 1 with
       | Some field => lift (int_of_str field)
       | None => raise IndexError
       end)
      is_Index_or_Type
      (fun _ => raise (SpectroError (BadDeviceString serial))) ;;
  try_except (call (Sdk.Call_connect serial_num) (Sdk.connect sdk serial_num))
    is_MozzaError as_SpectroError ;;;
  try_except (call Sdk.Call_get_sensors (Sdk.get_sensors sdk))
    is_MozzaError
    (fun _ =>
       try_except (call Sdk.Call_reset_all (Sdk.reset_all sdk))
         is_MozzaError as_SpectroError) ;;;
  let (min_wn, max_wn) := calibration_limits in
  resolution <- gets resolution_cm ;;
  wavenumbers <- lift (Np.arange (float_of_Z max_wn) (float_of_Z min_wn)
                                 (- resolution)%float) ;;
  update (Spectro.set_lambdas (Some (map Np.inv_1e7 wavenumbers))) ;;;
  lambdas <- gets (fun w => Spectro._lambdas (spectro w)) ;;
  update (Spectro.set_npixels
            (option_map (fun l => Z.of_nat (List.length l)) lambdas)) ;;;
  update (Spectro.set_spectrum
            (option_map (map (fun _ => 0%float)) lambdas)) ;;;
  update (Spectro.set_connected true) ;;;
  update (Spectro.set_serial serial) ;;;
  call Sdk.Call_set_default_params (Sdk.set_default_params sdk) ;;;
  load_amp_correction serial_num ;;;
  ret tt.

(** [MozzaSpectro.disconnect_device()] *)
Definition disconnect_device : M World unit :=
  call Sdk.Call_disconnect (Sdk.disconnect sdk).

(** [set_exposure] and [get_exposure] both return [0.] *)
Definition set_exposure (exposure : float) : M World float := ret 0%float.
Definition get_exposure : M World float := ret 0%float.

(** [MozzaSpectro.get_serials()], a class method: it works on a
    [MozzaUSB()] object of its own, here [d]. *)
Definition get_serials (d : Sdk.Device HW) : exn + list string :=
  match fst (Sdk.get_serials sdk d) with
  | Sdk.Ok serials => inr (map (fun num => ("Mozza#" ++ format_d num)%string) serials)
  | Sdk.Failed code => inl (SpectroError (FromSdk code))
  end.

(** [MozzaSpectro.measure_offsets()] *)
Definition measure_offsets : M World (float * float) :=
  offsets <-
    with_lock
      (params <- gets (fun w => Sdk.acquisition_params (device w)) ;;
       call Sdk.Call_measure_offsets
            (Sdk.measure_offsets sdk (Sdk.signal_high_gain params)
                                     (Sdk.reference_high_gain params))) ;;
  let (signal_offset, reference_offset) := offsets : float * float in
  update_process_params
    (fun p => {| Sdk.signal_offset := signal_offset;
                 Sdk.reference_offset := Sdk.reference_offset p |}) ;;;
  update_process_params
    (fun p => {| Sdk.signal_offset := Sdk.signal_offset p;
                 Sdk.reference_offset := reference_offset |}) ;;;
  call (Sdk.Call_set_rf_attenuation None) (Sdk.set_rf_attenuation sdk None) ;;;
  call Sdk.Call_set_acquisition_params (Sdk.send_acquisition_params sdk) ;;;
  call Sdk.Call_set_process_params (Sdk.send_process_params sdk) ;;;
  ret (signal_offset, reference_offset).

(** [MozzaSpectro.reset()] *)
Definition reset : M World unit := ret tt.

(** [MozzaSpectro.set_rf_attenuation(value)] *)
Definition set_rf_attenuation (value : Z) : M World unit :=
  with_lock
    (try_except
       (call (Sdk.Call_set_rf_attenuation (Some value))
             (Sdk.set_rf_attenuation sdk (Some value)))
       is_MozzaError as_SpectroError).

(** The properties [rf_attenuation], [acquisition_params] and
    [process_params], with the setters of the last two. *)
Definition rf_attenuation : M World Z :=
  gets (fun w => Sdk.rf_attenuation (device w)).

Definition acquisition_params : M World Sdk.AcquisitionParams :=
  gets (fun w => Sdk.acquisition_params (device w)).

Definition acquisition_params_setter (params : Sdk.AcquisitionParams)
  : M World unit :=
  update_acquisition_params (fun _ => params).

Definition process_params : M World Sdk.ProcessParams :=
  gets (fun w => Sdk.process_params (device w)).

Definition process_params_setter (params : Sdk.ProcessParams)
  : M World unit :=
  update_process_params (fun _ => params).

(** [MozzaSpectro.setup_gains()] *)
Definition setup_gains : M World unit :=
  params <- acquisition_params ;;
  call Sdk.Call_setup_gains
       (Sdk.setup_gains sdk (Sdk.signal_high_gain params)
                            (Sdk.reference_high_gain params)).

(** [MozzaSpectro.set_all_device_params()] *)
Definition set_all_device_params : M World unit :=
  with_lock
    (call Sdk.Call_set_acquisition_params (Sdk.send_acquisition_params sdk) ;;;
     call Sdk.Call_set_process_params (Sdk.send_process_params sdk) ;;;
     call (Sdk.Call_set_rf_attenuation None) (Sdk.set_rf_attenuation sdk None) ;;;
     setup_gains).

(** [MozzaSpectro.set_acquisition_params()] *)
Definition set_acquisition_params : M World unit :=
  try_except
    (call Sdk.Call_set_acquisition_params (Sdk.send_acquisition_params sdk))
    is_MozzaError as_SpectroError.

(** [MozzaSpectro.set_process_params()] *)
Definition set_process_params : M World unit :=
  try_except
    (call Sdk.Call_set_process_params (Sdk.send_process_params sdk))
    is_MozzaError as_SpectroError.

(** The property [ext_trigger_freq] *)
Definition ext_trigger_freq : M World pyval :=
  with_lock
    (call Sdk.Call_get_trigger_frequency (Sdk.get_trigger_frequency sdk)).

(** [MozzaSpectro.acquire_raw()]; the [sleep(0.05)] between the start
    of the acquisition and the read has no counterpart here. *)
Definition acquire_raw (bound : nat)
  : M World (option (list float) * option (list float)) :=
  with_lock
    (try_finally
       (try_except_else
          (call Sdk.Call_begin_acquisition (Sdk.begin_acquisition sdk) ;;;
           read_raw bound)
          is_MozzaError
          (fun _ => ret (None, None))
          (fun raw =>
             pair <- call (Sdk.Call_separate_sig_ref raw)
                          (Sdk.separate_sig_ref sdk raw) ;;
             ret (Some (fst pair), Some (snd pair))))
       (try_except
          (call Sdk.Call_end_acquisition (Sdk.end_acquisition sdk))
          is_MozzaError
          (fun _ => ret tt))).

(** [MozzaSpectro.set_auto_params(trigger_to_laser_us, acquisition_time_us)] *)
Definition set_auto_params (trigger_to_laser_us acquisition_time_us : Z)
  : M World (Sdk.AcquisitionParams * Sdk.ProcessParams) :=
  try_except
    (a <- acquisition_params ;;
     p <- process_params ;;
     call Sdk.Call_set_auto_params
          (Sdk.set_auto_params sdk (Sdk.point_repetition a)
             (Sdk.reference_offset p) (Sdk.signal_high_gain a)
             (Sdk.reference_high_gain a)
             trigger_to_laser_us acquisition_time_us))
    is_MozzaError as_SpectroError ;;;
  a <- acquisition_params ;;
  p <- process_params ;;
  ret (a, p).

(** [MozzaSpectro] as a device class; the two bounds are those of
    [load_table] and [read_raw]. *)
Definition backend (depth bound : nat) : Spectro.Backend World :=
  {| Spectro.base := spectro;
     Spectro.with_base := set_spectro;
     Spectro._acquire_spectrum := _acquire_spectrum depth bound |}.

(** [make_acquisition], inherited from [Spectro]. *)
Definition make_acquisition (depth bound : nat) (start stop : Z)
    (background_mode : bool) : M World unit :=
  @Spectro.make_acquisition World (backend depth bound)
    start stop background_mode.

(** The public operations of a [MozzaSpectro] object, with their
    arguments. *)
Inductive operation : Type :=
| Connect_device (serial : string)
| Disconnect_device
| Set_exposure (exposure : float)
| Get_exposure
| Set_ext_trigger (flag apply update_delay : bool)
| Get_ext_trigger
| Load_table (start stop : pyval) (wnums : option (list float))
| Read_raw
| Measure_offsets
| Acquire_spectrum (background_mode : bool)
| Reset
| Set_rf_attenuation (value : Z)
| Rf_attenuation
| Acquisition_params
| Acquisition_params_setter (params : Sdk.AcquisitionParams)
| Process_params
| Process_params_setter (params : Sdk.ProcessParams)
| Setup_gains
| Set_all_device_params
| Set_acquisition_params
| Set_process_params
| Ext_trigger_freq
| Acquire_raw
| Set_auto_params (trigger_to_laser_us acquisition_time_us : Z)
| Load_amp_correction (serial_num : Z)
| Make_acquisition (start stop : Z) (background_mode : bool)
| Spectrum
| Lambdas
| Connected
| Serial.

Definition discard {A} (m : M World A) : M World unit := m ;;; ret tt.

(** One operation, its result dropped. *)
Definition perform (depth bound : nat) (o : operation) : M World unit :=
  match o with
  | Connect_device serial => connect_device serial
  | Disconnect_device => disconnect_device
  | Set_exposure exposure => discard (set_exposure exposure)
  | Get_exposure => discard get_exposure
  | Set_ext_trigger flag apply update_delay =>
      set_ext_trigger flag apply update_delay
  | Get_ext_trigger => discard get_ext_trigger
  | Load_table start stop wnums => load_table depth start stop wnums
  | Read_raw => discard (read_raw bound)
  | Measure_offsets => discard measure_offsets
  | Acquire_spectrum background_mode =>
      discard (_acquire_spectrum depth bound background_mode)
  | Reset => reset
  | Set_rf_attenuation value => set_rf_attenuation value
  | Rf_attenuation => discard rf_attenuation
  | Acquisition_params => discard acquisition_params
  | Acquisition_params_setter params => acquisition_params_setter params
  | Process_params => discard process_params
  | Process_params_setter params => process_params_setter params
  | Setup_gains => setup_gains
  | Set_all_device_params => set_all_device_params
  | Set_acquisition_params => set_acquisition_params
  | Set_process_params => set_process_params
  | Ext_trigger_freq => discard ext_trigger_freq
  | Acquire_raw => discard (acquire_raw bound)
  | Set_auto_params t a => discard (set_auto_params t a)
  | Load_amp_correction serial_num => discard (load_amp_correction serial_num)
  | Make_acquisition start stop background_mode =>
      make_acquisition depth bound start stop background_mode
  | Spectrum => discard (@Spectro.spectrum World (backend depth bound))
  | Lambdas => discard (@Spectro.lambdas World (backend depth bound))
  | Connected => discard (@Spectro.connected World (backend depth bound))
  | Serial => discard (@Spectro.serial World (backend depth bound))
  end.

(** The state after a sequence of operations; an operation that
    raises leaves the object as it is at that point, and the caller
    goes on. *)
Definition perform_all (depth bound : nat) (ops : list operation)
    (w : World) : World :=
  fold_left (fun w o => snd (perform depth bound o w)) ops w.

End Backend.

Arguments World : clear implicits.

End Mozza.

(* ================================================================== *)
(** * A simulated instrument, for closed examples *)
(* ================================================================== *)

Module Sim.
Import Py.

(** The instrument answers every call, except where it is told to fail:
    the next [write_failures] table writes, and [begin_acquisition] and
    [end_acquisition] when their flag is set. A point of the table is
    four bytes of raw data and one sample, of value one, of the
    processed spectrum; a read of [k] points returns the data of [k]
    points, and of one point when [k] is not positive. *)
Record Instrument : Type := {
  write_failures : nat;
  begin_fails : bool;
  end_fails : bool;
  table : list float;
  frequency : pyval
}.

Definition Device : Type := Sdk.Device Instrument.

Definition with_hw (h : Instrument) (d : Device) : Device :=
  {| Sdk.acquisition_params := Sdk.acquisition_params d;
     Sdk.process_params := Sdk.process_params d;
     Sdk.rf_attenuation := Sdk.rf_attenuation d;
     Sdk.hw := h |}.

Definition succeed {A} (a : A) : Sdk.op Instrument A := fun d => (Sdk.Ok a, d).

Definition write_table (wnums : list float) : Sdk.op Instrument unit :=
  fun d =>
    let h := Sdk.hw d in
    match write_failures h with
    | S k =>
        (Sdk.Failed 1,
         with_hw {| write_failures := k; begin_fails := begin_fails h;
                    end_fails := end_fails h; table := table h;
                    frequency := frequency h |} d)
    | O =>
        (Sdk.Ok tt,
         with_hw {| write_failures := O; begin_fails := begin_fails h;
                    end_fails := end_fails h; table := wnums;
                    frequency := frequency h |} d)
    end.

Definition points (d : Device) : Z := Z.of_nat (List.length (table (Sdk.hw d))).

Definition raw_bytes (npoints : Z) : list Byte.byte :=
  repeat Byte.x01 (Z.to_nat (4 * npoints)).

Definition ones (d : Device) : list float :=
  map (fun _ => 1%float) (table (Sdk.hw d)).

Definition sdk : Sdk.MozzaUSB Instrument :=
  {| Sdk.get_serials := succeed [12];
     Sdk.connect := fun _ => succeed tt;
     Sdk.disconnect := succeed tt;
     Sdk.get_sensors := succeed tt;
     Sdk.reset_all := succeed tt;
     Sdk.set_default_params := succeed tt;
     Sdk.set_wavenumber_array := write_table;
     Sdk.table_length := points;
     Sdk.get_raw_data_size := fun n => succeed (4 * n);
     Sdk.begin_acquisition := fun d =>
       if begin_fails (Sdk.hw d) then (Sdk.Failed 2, d)
       else (Sdk.Ok (4 * points d), d);
     Sdk.end_acquisition := fun d =>
       if end_fails (Sdk.hw d) then (Sdk.Failed 3, d) else (Sdk.Ok tt, d);
     Sdk.read_raw := fun n d =>
       match n with
       | None => (Sdk.Ok (raw_bytes (points d)), d)
       | Some k => (Sdk.Ok (raw_bytes (Z.max 1 k)), d)
       end;
     Sdk.process_spectrum := fun _ d => (Sdk.Ok (ones d), d);
     Sdk.separate_sig_ref := fun _ d => (Sdk.Ok (ones d, ones d), d);
     Sdk.measure_offsets := fun _ _ => succeed (0%float, 0%float);
     Sdk.set_rf_attenuation := fun _ => succeed tt;
     Sdk.send_acquisition_params := succeed tt;
     Sdk.send_process_params := succeed tt;
     Sdk.setup_gains := fun _ _ => succeed tt;
     Sdk.set_auto_params := fun _ _ _ _ _ _ => succeed tt;
     Sdk.get_trigger_frequency := fun d => (Sdk.Ok (frequency (Sdk.hw d)), d) |}.

(** A [MozzaUSB()] object before any call. *)
Definition fresh (h : Instrument) : Device :=
  {| Sdk.acquisition_params :=
       {| Sdk.trigger_source := Sdk.INTERNAL;
          Sdk.trigger_delay_us := 0;
          Sdk.signal_high_gain := false;
          Sdk.reference_high_gain := false;
          Sdk.point_repetition := 1 |};
     Sdk.process_params :=
       {| Sdk.signal_offset := 0%float; Sdk.reference_offset := 0%float |};
     Sdk.rf_attenuation := 0;
     Sdk.hw := h |}.

Definition healthy : Instrument :=
  {| write_failures := O; begin_fails := false; end_fails := false;
     table := []; frequency := PFloat 10000%float |}.

(** An instrument that refuses the next [n] table writes. *)
Definition refusing (n : nat) : Instrument :=
  {| write_failures := n; begin_fails := false; end_fails := false;
     table := []; frequency := PFloat 10000%float |}.

(** An instrument that refuses to begin an acquisition. *)
Definition not_starting : Instrument :=
  {| write_failures := O; begin_fails := true; end_fails := false;
     table := []; frequency := PFloat 10000%float |}.


(** A working directory without any correction file. *)
Definition no_files : string -> Np.loaded := fun _ => Np.LoadRaises OSError.

(** The correction files of the instruments 12 and 13: the same
    wavelengths, 800 nm and 1000 nm, with the amplitude 2 at both for
    the one and 3 at both for the other. *)
Definition two_files : string -> Np.loaded :=
  fun p =>
    if String.eqb p "0012_AmplitudeCorrection.txt" then
      Np.LoadReturns (Np.Arr2 [[800; 1000]; [2; 2]]%float)
    else if String.eqb p "0013_AmplitudeCorrection.txt" then
      Np.LoadReturns (Np.Arr2 [[800; 1000]; [3; 3]]%float)
    else Np.LoadRaises OSError.

(** A working directory with one file of the given content. *)
Definition one_file (path : string) (content : Np.loaded)
  : string -> Np.loaded :=
  fun p => if String.eqb p path then content else Np.LoadRaises OSError.

(** A new [MozzaSpectro] object on the instrument [h], in the working
    directory [fs], and the same object after
    [connect_device("Mozza#12")]. *)
Definition new (h : Instrument) (fs : string -> Np.loaded)
  : Mozza.World Instrument :=
  Mozza.init (fresh h) fs.

Definition connected (h : Instrument) (fs : string -> Np.loaded)
  : Mozza.World Instrument :=
  snd (Mozza.connect_device sdk "Mozza#12" (new h fs)).

(** The caller switches the correction on:
    [spectro.apply_amp_correction = True]. *)
Definition switch_on (w : Mozza.World Instrument) : Mozza.World Instrument :=
  Mozza.set_apply_amp_correction true w.

(** The instrument 12 is connected with its correction file, the caller
    switches the correction on and acquires the window [(0, 2)]. *)
Definition acquired_on_12 : Mozza.World Instrument :=
  snd (Mozza.make_acquisition sdk 8 8 0 2 false
         (switch_on (connected healthy two_files))).

(** Then the caller changes the serial, as the viewer does:
    [disconnect_device()] and [connect_device("Mozza#13")]. *)
Definition reconnected_to_13 : Mozza.World Instrument :=
  snd (Mozza.connect_device sdk "Mozza#13"
         (snd (Mozza.disconnect_device sdk acquired_on_12))).

(** Or the caller connects to an instrument that has no correction
    file, ["Mozza#99"], and switches the correction on again. *)
Definition switched_on_without_file : Mozza.World Instrument :=
  switch_on
    (snd (Mozza.connect_device sdk "Mozza#99"
            (snd (Mozza.disconnect_device sdk acquired_on_12)))).


End Sim.

(* ================================================================== *)
(** * Vocabulary of the properties *)
(* ================================================================== *)

Module Props.
Import Py.
Local Open Scope py_scope.

(** [frames R m]: every run of [m] ends in a state related by [R] to
    the one it started in, however it ends. *)
Definition frames {S A : Type} (R : S -> S -> Prop) (m : M S A) : Prop :=
  forall s, R s (snd (m s)).

(** [raises_only E m]: an exception raised by [m] satisfies [E]. *)
Definition raises_only {S A : Type} (E : exn -> Prop) (m : M S A) : Prop :=
  forall s e, fst (m s) = Raise e -> E e.

Section Vocabulary.
Context {HW : Type}.
Variable sdk : Sdk.MozzaUSB HW.

(** The flag after is the flag before, or [False]. *)
Definition keeps_or_clears (w w' : Mozza.World HW) : Prop :=
  Mozza.apply_amp_correction w' = Mozza.apply_amp_correction w
  \/ Mozza.apply_amp_correction w' = false.

(** The window asked for is the same before and after. *)
Definition same_request (w w' : Mozza.World HW) : Prop :=
  Spectro.acquisition (Mozza.spectro w')
  = Spectro.acquisition (Mozza.spectro w).

(** What is left of [make_acquisition] once the window is accepted. *)
Definition acquire_and_store (depth bound : nat) (background_mode : bool)
  : M (Mozza.World HW) unit :=
  spec <- Mozza._acquire_spectrum sdk depth bound background_mode ;;
  Mozza.update (Spectro.set_spectrum spec).

Definition request (start stop : Z) (w : Mozza.World HW) : Mozza.World HW :=
  Mozza.set_spectro
    (Spectro.set_acquisition
       {| Spectro.start := PInt start; Spectro.stop := PInt stop |}
       (Mozza.spectro w)) w.

(** The test at the head of [_acquire_spectrum]: the window asked for
    is not the one of the table in place. *)
Definition window_changed (w : Mozza.World HW) : bool :=
  py_neb (Spectro.start (Mozza._acquisition w))
         (Spectro.start (Spectro.acquisition (Mozza.spectro w)))
  || py_neb (Spectro.stop (Mozza._acquisition w))
            (Spectro.stop (Spectro.acquisition (Mozza.spectro w))).

(** The trace after continues the trace before. *)
Definition trace_extends (w w' : Mozza.World HW) : Prop :=
  exists tr, Mozza.calls w' = Mozza.calls w ++ tr.

(** The lock is in the same state before and after. *)
Definition same_lock (w w' : Mozza.World HW) : Prop :=
  Mozza._lock w' = Mozza._lock w.

(** [lock.release()] seen from the owner of the lock. *)
Definition released (l : Lock.RLock) : Lock.RLock :=
  match l with
  | Lock.HeldBySelf (S n) => Lock.HeldBySelf n
  | _ => Lock.Unlocked
  end.




(** The cached array [amp_correction] is the correction function in
    place, evaluated at the wavenumber table the instrument holds. *)
Definition correction_is_current (w : Mozza.World HW) : Prop :=
  forall f t,
    Mozza.correct_amplitude w = Some f ->
    Sdk.programmed_table (Mozza.calls w) = Some t ->
    exists amp,
      Mozza.amp_correction w = Some amp
      /\ Mozza.apply_correction f t = inr amp.

(** The table held, the correction function and the cached array are
    the same before and after. *)
Definition same_correction (w w' : Mozza.World HW) : Prop :=
  Sdk.programmed_table (Mozza.calls w') = Sdk.programmed_table (Mozza.calls w)
  /\ Mozza.correct_amplitude w' = Mozza.correct_amplitude w
  /\ Mozza.amp_correction w' = Mozza.amp_correction w.

(** The flag [apply_amp_correction] is the same before and after. *)
Definition same_flag (w w' : Mozza.World HW) : Prop :=
  Mozza.apply_amp_correction w' = Mozza.apply_amp_correction w.

(** The object as another thread finds it while an acquisition holds
    the lock. *)
Definition held_by_other (w : Mozza.World HW) : Mozza.World HW :=
  Mozza.set_lock Lock.HeldByOther w.

End Vocabulary.

(** The two [ValueError]s that [make_acquisition] raises itself. *)
Definition is_range_error (e : exn) : bool :=
  match e with
  | ValueError (StopIndexNotInRange _ _) => true
  | ValueError (StartIndexNotBelowStop _ _) => true
  | _ => false
  end.

Definition raised_range_error {A} (o : outcome A) : bool :=
  match o with
  | Raise e => is_range_error e
  | _ => false
  end.

Definition not_range_error (e : exn) : Prop := is_range_error e = false.

End Props.

(* ================================================================== *)
(** * daq_0Dviewer_MozzaSpectro.py: the viewer that drives the backend *)
(* ================================================================== *)

Module Viewer.
Import Py.
Local Open Scope py_scope.

(** The local [data_tot] of [grab_data]: the int [0] it starts as, the
    float that [0 / Naverage] gives, or the array that the first
    [data_tot += data] makes of it. *)
Inductive total : Type :=
| Zero
| Float (f : float)
| Arr (a : list float).

(** [data_tot += data]. On the int [0], [0 + data] is a new array; on
    an array the sum is stored in place, so [data] must have its shape
    or a single element. [None] is no operand of either. *)
Definition iadd (data_tot : total) (data : option (list float))
  : exn + total :=
  match data with
  | None => inl TypeError
  | Some d =>
      match data_tot with
      | Zero => inr (Arr (map (fun x => 0 + x)%float d))
      | Float f => inr (Arr (map (fun x => f + x)%float d))
      | Arr a =>
          if (List.length d =? List.length a)%nat
          then inr (Arr (Np.map2 PrimFloat.add a d))
          else match d with
               | [y] => inr (Arr (map (fun x => x + y)%float a))
               | _ => inl (ValueError ShapeMismatch)
               end
      end
  end.

(** [data_tot /= Naverage] *)
Definition idiv (data_tot : total) (Naverage : Z) : exn + total :=
  match data_tot with
  | Zero =>
      if Naverage =? 0 then inl ZeroDivisionError
      else inr (Float (if Naverage <? 0 then (-0)%float else 0%float))
  | Float f =>
      if Naverage =? 0 then inl ZeroDivisionError
      else inr (Float (f / float_of_Z Naverage)%float)
  | Arr a => inr (Arr (map (fun x => x / float_of_Z Naverage)%float a))
  end.

(** The texts of the class: [str(e)] for an exception caught, or a
    literal. *)
Inductive text : Type :=
| Exception_text (e : exn)
| Text (s : string).

Section Viewer.
Context {HW : Type}.
Variable sdk : Sdk.MozzaUSB HW.

(** [DataFromPlugins(name='Spectra', data=data_tot, dim='Data0D', ...)],
    a constructor of PyMoDAQ: what it makes of the data, or the
    exception it raises. *)
Variable Data : Type.
Variable DataFromPlugins : total -> exn + Data.

(** [self.status], as far as the class writes it: [initialized],
    [info], and whether [controller] is the controller of the object
    or [None] ([x_axis] and [y_axis] are set to [None] and not used
    again). *)
Record Status : Type := {
  initialized : bool;
  info : text;
  has_controller : bool
}.

(** A [DAQ_0DViewer_MozzaSpectrometer] object: its controller (the
    class [DAQ_0DViewer_MozzaSpectro] of the same file repeats
    [MozzaSpectro] line by line), the values of its settings [serial]
    and [exposure], its [status], and what its methods have handed to
    PyMoDAQ so far: the data emitted by [data_grabed_signal] and the
    messages they have given to [emit_status]. *)
Record State : Type := {
  controller : Mozza.World HW;
  serial : string;
  exposure : float;
  status : Status;
  emitted : list Data;
  statuses : list text
}.

Definition set_controller (v : Mozza.World HW) (s : State) : State :=
  {| controller := v; serial := serial s; exposure := exposure s;
     status := status s; emitted := emitted s; statuses := statuses s |}.

Definition set_exposure_setting (v : float) (s : State) : State :=
  {| controller := controller s; serial := serial s; exposure := v;
     status := status s; emitted := emitted s; statuses := statuses s |}.

Definition set_status (v : Status) (s : State) : State :=
  {| controller := controller s; serial := serial s; exposure := exposure s;
     status := v; emitted := emitted s; statuses := statuses s |}.

Definition emit (v : Data) (s : State) : State :=
  {| controller := controller s; serial := serial s; exposure := exposure s;
     status := status s; emitted := emitted s ++ [v];
     statuses := statuses s |}.

Definition emit_status (v : text) (s : State) : State :=
  {| controller := controller s; serial := serial s; exposure := exposure s;
     status := status s; emitted := emitted s;
     statuses := statuses s ++ [v] |}.

(** [self.controller.<method>(...)] *)
Definition on_controller {A} (m : M (Mozza.World HW) A) : M State A :=
  fun s =>
    let (o, w) := m (controller s) in (o, set_controller w s).

(** The [for _ in range(Naverage)] loop of [grab_data], with [n]
    rounds to go. *)
Fixpoint acquire_rounds (depth bound : nat) (n : nat) (data_tot : total)
  : M State total :=
  match n with
  | O => ret data_tot
  | S n' =>
      data <- on_controller (Mozza._acquire_spectrum sdk depth bound false) ;;
      data_tot <- lift (iadd data_tot data) ;;
      acquire_rounds depth bound n' data_tot
  end.

(** [except Exception] *)
Definition is_Exception (e : exn) : bool := true.

(** [DAQ_0DViewer_MozzaSpectrometer.grab_data(Naverage)] *)
Definition grab_data (depth bound : nat) (Naverage : Z) : M State unit :=
  try_except
    (data_tot <- acquire_rounds depth bound (Z.to_nat Naverage) Zero ;;
     data_tot <- lift (idiv data_tot Naverage) ;;
     data <- lift (DataFromPlugins data_tot) ;;
     modify (emit data))
    is_Exception
    (fun e =>
       modify (emit_status (Exception_text e)) ;;;
       modify (emit_status (Text "Error while acquiring data"))).

(** [DAQ_0DViewer_MozzaSpectrometer.set_exposure()] *)
Definition set_exposure : M State unit :=
  exposure <- gets exposure ;;
  on_controller (Mozza.set_exposure exposure) ;;;
  value <- on_controller Mozza.get_exposure ;;
  modify (set_exposure_setting value).

(** The parameter handed to [commit_settings]: its name and value. *)
Inductive param : Type :=
| Exposure (value : float)
| Serial (value : string)
| Other (name : string).

(** [DAQ_0DViewer_MozzaSpectrometer.commit_settings(param)] *)
Definition commit_settings (p : param) : M State unit :=
  match p with
  | Exposure _ => set_exposure
  | Serial value =>
      on_controller (Mozza.disconnect_device sdk) ;;;
      on_controller (Mozza.connect_device sdk value)
  | Other _ => ret tt
  end.

(** [DAQ_0DViewer_MozzaSpectrometer.ini_detector()], for the
    [MozzaUSB()] object [d] that the constructor of the controller
    makes and the working directory [fs]. It returns [self.status]. *)
Definition ini_detector (d : Sdk.Device HW) (fs : string -> Np.loaded)
  : M State Status :=
  modify (set_status {| initialized := false; info := Text "";
                        has_controller := false |}) ;;;
  try_except
    (modify (set_controller (Mozza.init d fs)) ;;;
     serial <- gets serial ;;
     on_controller (Mozza.connect_device sdk serial) ;;;
     value <- on_controller Mozza.get_exposure ;;
     modify (set_exposure_setting value) ;;;
     modify (fun s =>
               set_status
                 {| initialized := initialized (status s);
                    info := Text "Connected to Mozza Spectrometer";
                    has_controller := has_controller (status s) |} s) ;;;
     modify (fun s =>
               set_status
                 {| initialized := true;
                    info := info (status s);
                    has_controller := has_controller (status s) |} s) ;;;
     modify (fun s =>
               set_status
                 {| initialized := initialized (status s);
                    info := info (status s);
                    has_controller := true |} s) ;;;
     gets status)
    is_Exception
    (fun e =>
       modify (emit_status (Exception_text e)) ;;;
       modify (fun s =>
                 set_status
                   {| initialized := initialized (status s);
                      info := Exception_text e;
                      has_controller := has_controller (status s) |} s) ;;;
       gets status).

(** [DAQ_0DViewer_MozzaSpectrometer.close()] *)
Definition close : M State unit :=
  on_controller (Mozza.disconnect_device sdk).

End Viewer.

Arguments State : clear implicits.

End Viewer.

(* ================================================================== *)
(** * Further vocabulary *)
(* ================================================================== *)

Module Facts.
Import Py.
Local Open Scope py_scope.

(** The characters of a decimal numeral are digits. *)
Fixpoint all_digits (s : string) : bool :=
  match s with
  | EmptyString => true
  | String c rest =>
      match digit_of c with Some _ => all_digits rest | None => false end
  end.

(** The attributes of the base class as a [connect_device] that has
    gone past its SDK checks sets them, for the resolution it has found
    in [resolution_cm]. *)
Definition connected_as (serial : string) (resolution : float)
    {HW} (w : Mozza.World HW) : Prop :=
  Spectro._connected (Mozza.spectro w) = true
  /\ Spectro._serial (Mozza.spectro w) = serial
  /\ exists wavenumbers,
       Np.arange (float_of_Z (snd Mozza.calibration_limits))
                 (float_of_Z (fst Mozza.calibration_limits))
                 (- resolution)%float = inr wavenumbers
       /\ Spectro._lambdas (Mozza.spectro w)
          = Some (map Np.inv_1e7 wavenumbers)
       /\ Spectro._npixels (Mozza.spectro w)
          = Some (Z.of_nat (List.length wavenumbers))
       /\ Spectro._spectrum (Mozza.spectro w)
          = Some (map (fun _ => 0%float) wavenumbers).

(** An object that is marked connected before is marked connected
    after. *)
Definition stays_connected {HW} (w w' : Mozza.World HW) : Prop :=
  Spectro._connected (Mozza.spectro w) = true ->
  Spectro._connected (Mozza.spectro w') = true.

(** [unless_hanging R m]: every run of [m] that comes back, by a return
    or by an exception, ends in a state related by [R] to the one it
    started in. *)
Definition unless_hanging {S A : Type} (R : S -> S -> Prop) (m : M S A)
  : Prop :=
  forall s, (forall h, fst (m s) <> Hang h) -> R s (snd (m s)).

(** No [MozzaError] among the exceptions. *)
Definition not_MozzaError (e : exn) : Prop := is_MozzaError e = false.

(** The SDK calls of [set_all_device_params], in the order of the
    source. *)
Definition all_device_params_calls : list Sdk.call :=
  [Sdk.Call_set_acquisition_params; Sdk.Call_set_process_params;
   Sdk.Call_set_rf_attenuation None; Sdk.Call_setup_gains].

(** [Acquisition(1e7/wnums[0], 1e7/wnums[-1])], for the two ends
    [first] and [last] of a table. *)
Definition table_ends (first last : float) : Spectro.Acquisition :=
  {| Spectro.start := PFloat (Np.inv_1e7 first);
     Spectro.stop := PFloat (Np.inv_1e7 last) |}.

(** [_acquisition], once it is [a], is still [a] after. *)
Definition holds_window {HW} (a : Spectro.Acquisition)
    (w w' : Mozza.World HW) : Prop :=
  Mozza._acquisition w = a -> Mozza._acquisition w' = a.

(** Nothing is handed to PyMoDAQ between the two states of a viewer. *)
Definition silent {HW Data} (s s' : Viewer.State HW Data) : Prop :=
  Viewer.emitted s' = Viewer.emitted s
  /\ Viewer.statuses s' = Viewer.statuses s.

End Facts.

(* ================================================================== *)
(** * Simulated instruments with faults, and a viewer *)
(* ================================================================== *)

Module Faults.
Import Py.

(** The SDK call [op], refused when its name is in [refused]. *)
Definition guard {A} (refused : list string) (name : string)
    (op : Sdk.op Sim.Instrument A) : Sdk.op Sim.Instrument A :=
  fun d =>
    if existsb (String.eqb name) refused then (Sdk.Failed 9, d) else op d.

(** The simulated SDK with the methods named in [refused] raising
    [MozzaError] at every call. *)
Definition sdk (refused : list string) : Sdk.MozzaUSB Sim.Instrument :=
  {| Sdk.get_serials := guard refused "get_serials" (Sdk.get_serials Sim.sdk);
     Sdk.connect := fun n => guard refused "connect" (Sdk.connect Sim.sdk n);
     Sdk.disconnect := guard refused "disconnect" (Sdk.disconnect Sim.sdk);
     Sdk.get_sensors := guard refused "get_sensors" (Sdk.get_sensors Sim.sdk);
     Sdk.reset_all := guard refused "reset_all" (Sdk.reset_all Sim.sdk);
     Sdk.set_default_params :=
       guard refused "set_default_params" (Sdk.set_default_params Sim.sdk);
     Sdk.set_wavenumber_array := fun t =>
       guard refused "set_wavenumber_array" (Sdk.set_wavenumber_array Sim.sdk t);
     Sdk.table_length := Sdk.table_length Sim.sdk;
     Sdk.get_raw_data_size := fun n =>
       guard refused "get_raw_data_size" (Sdk.get_raw_data_size Sim.sdk n);
     Sdk.begin_acquisition :=
       guard refused "begin_acquisition" (Sdk.begin_acquisition Sim.sdk);
     Sdk.end_acquisition :=
       guard refused "end_acquisition" (Sdk.end_acquisition Sim.sdk);
     Sdk.read_raw := fun n => guard refused "read_raw" (Sdk.read_raw Sim.sdk n);
     Sdk.process_spectrum := fun raw =>
       guard refused "process_spectrum" (Sdk.process_spectrum Sim.sdk raw);
     Sdk.separate_sig_ref := fun raw =>
       guard refused "separate_sig_ref" (Sdk.separate_sig_ref Sim.sdk raw);
     Sdk.measure_offsets := fun s r =>
       guard refused "measure_offsets" (Sdk.measure_offsets Sim.sdk s r);
     Sdk.set_rf_attenuation := fun v =>
       guard refused "set_rf_attenuation" (Sdk.set_rf_attenuation Sim.sdk v);
     Sdk.send_acquisition_params :=
       guard refused "set_acquisition_params"
         (Sdk.send_acquisition_params Sim.sdk);
     Sdk.send_process_params :=
       guard refused "set_process_params" (Sdk.send_process_params Sim.sdk);
     Sdk.setup_gains := fun s r =>
       guard refused "setup_gains" (Sdk.setup_gains Sim.sdk s r);
     Sdk.set_auto_params := fun a b c d e f =>
       guard refused "set_auto_params" (Sdk.set_auto_params Sim.sdk a b c d e f);
     Sdk.get_trigger_frequency :=
       guard refused "get_trigger_frequency"
         (Sdk.get_trigger_frequency Sim.sdk) |}.

(** A viewer around the controller [w], initialized on instrument 12
    and with nothing published yet; [DataFromPlugins] is taken to
    accept every datum. *)
Definition viewer (w : Mozza.World Sim.Instrument)
  : Viewer.State Sim.Instrument Viewer.total :=
  {| Viewer.controller := w;
     Viewer.serial := "Mozza#12";
     Viewer.exposure := 1%float;
     Viewer.status :=
       {| Viewer.initialized := true;
          Viewer.info := Viewer.Text "Connected to Mozza Spectrometer";
          Viewer.has_controller := true |};
     Viewer.emitted := [];
     Viewer.statuses := [] |}.

Definition DataFromPlugins (data_tot : Viewer.total) : exn + Viewer.total :=
  inr data_tot.

End Faults.

(* ================================================================== *)
(** * Reasoning about method bodies *)
(* ================================================================== *)

Import Py.
Import Props.
Local Open Scope py_scope.

(** ** What a computation may do to the state *)

Section Frames.
Context {S : Type} (R : S -> S -> Prop).
Hypothesis R_refl : forall s, R s s.
Hypothesis R_trans : forall a b c, R a b -> R b c -> R a c.

Lemma frames_ret A (a : A) : frames R (ret a).
Proof. intros s. apply R_refl. Qed.

Lemma frames_raise A (e : exn) : frames R (@raise S A e).
Proof. intros s. apply R_refl. Qed.

Lemma frames_hang_on A (h : hang) : frames R (@hang_on S A h).
Proof. intros s. apply R_refl. Qed.

Lemma frames_gets A (f : S -> A) : frames R (gets f).
Proof. intros s. apply R_refl. Qed.

Lemma frames_lift A (r : exn + A) : frames R (@lift S A r).
Proof. destruct r; [apply frames_raise | apply frames_ret]. Qed.

Lemma frames_modify (f : S -> S) : (forall s, R s (f s)) -> frames R (modify f).
Proof. intros H s. apply H. Qed.

Lemma frames_bind A B (m : M S A) (k : A -> M S B) :
  frames R m -> (forall a, frames R (k a)) -> frames R (bind m k).
Proof.
  intros Hm Hk s. unfold bind. specialize (Hm s).
  destruct (m s) as [[a | e | h] s']; simpl in *; auto.
  eapply R_trans; [exact Hm | apply Hk].
Qed.

Lemma frames_try_except_else A B (body : M S A) handles
    (handler : exn -> M S B) (orelse : A -> M S B) :
  frames R body -> (forall e, frames R (handler e)) ->
  (forall a, frames R (orelse a)) ->
  frames R (try_except_else body handles handler orelse).
Proof.
  intros Hb Hh Ho s. unfold try_except_else. specialize (Hb s).
  destruct (body s) as [[a | e | h] s']; simpl in *; auto.
  - eapply R_trans; [exact Hb | apply Ho].
  - destruct (handles e); simpl; auto.
    eapply R_trans; [exact Hb | apply Hh].
Qed.

Lemma frames_try_except A (body : M S A) handles (handler : exn -> M S A) :
  frames R body -> (forall e, frames R (handler e)) ->
  frames R (try_except body handles handler).
Proof.
  intros Hb Hh. apply frames_try_except_else; auto using frames_ret.
Qed.

Lemma frames_try_finally A (body : M S A) (final : M S unit) :
  frames R body -> frames R final -> frames R (try_finally body final).
Proof.
  intros Hb Hf s. unfold try_finally. specialize (Hb s).
  destruct (body s) as [[a | e | h] s']; simpl in *; auto;
    specialize (Hf s'); destruct (final s') as [[u | e' | h'] s''];
    simpl in *; eapply R_trans; eauto.
Qed.

End Frames.

(** ** Which exceptions a computation may raise *)

Section Raises.
Context {S : Type} (E : exn -> Prop).

Lemma raises_only_ret A (a : A) : raises_only (S := S) E (ret a).
Proof. intros s e H. discriminate H. Qed.

Lemma raises_only_raise A (e : exn) : E e -> raises_only (S := S) E (@raise S A e).
Proof. intros He s e' H. simpl in H. injection H as <-. exact He. Qed.

Lemma raises_only_hang_on A (h : hang) : raises_only (S := S) E (@hang_on S A h).
Proof. intros s e H. discriminate H. Qed.

Lemma raises_only_gets A (f : S -> A) : raises_only (S := S) E (gets f).
Proof. intros s e H. discriminate H. Qed.

Lemma raises_only_modify (f : S -> S) : raises_only (S := S) E (modify f).
Proof. intros s e H. discriminate H. Qed.

Lemma raises_only_lift A (r : exn + A) :
  (forall e, r = inl e -> E e) -> raises_only (S := S) E (@lift S A r).
Proof.
  intros Hr s e H. destruct r as [e' | a]; simpl in H.
  - injection H as <-. apply Hr. reflexivity.
  - discriminate H.
Qed.

Lemma raises_only_bind A B (m : M S A) (k : A -> M S B) :
  raises_only (S := S) E m -> (forall a, raises_only (S := S) E (k a)) -> raises_only (S := S) E (bind m k).
Proof.
  intros Hm Hk s e. unfold bind. specialize (Hm s).
  destruct (m s) as [[a | e' | h] s']; simpl in *.
  - apply Hk.
  - intros H. injection H as <-. apply Hm. reflexivity.
  - discriminate.
Qed.

Lemma raises_only_try_except_else A B (body : M S A) handles
    (handler : exn -> M S B) (orelse : A -> M S B) :
  raises_only (S := S) E body -> (forall e, raises_only (S := S) E (handler e)) ->
  (forall a, raises_only (S := S) E (orelse a)) ->
  raises_only (S := S) E (try_except_else body handles handler orelse).
Proof.
  intros Hb Hh Ho s e. unfold try_except_else. specialize (Hb s).
  destruct (body s) as [[a | e' | h] s']; simpl in *.
  - apply Ho.
  - destruct (handles e'); simpl.
    + apply Hh.
    + intros H. injection H as <-. apply Hb. reflexivity.
  - discriminate.
Qed.

Lemma raises_only_try_except A (body : M S A) handles
    (handler : exn -> M S A) :
  raises_only (S := S) E body -> (forall e, raises_only (S := S) E (handler e)) ->
  raises_only (S := S) E (try_except body handles handler).
Proof.
  intros Hb Hh. apply raises_only_try_except_else; auto using raises_only_ret.
Qed.

Lemma raises_only_try_finally A (body : M S A) (final : M S unit) :
  raises_only (S := S) E body -> raises_only (S := S) E final ->
  raises_only (S := S) E (try_finally body final).
Proof.
  intros Hb Hf s e. unfold try_finally. specialize (Hb s).
  destruct (body s) as [[a | e' | h] s']; simpl in *;
    try discriminate;
    specialize (Hf s'); destruct (final s') as [[u | e'' | h'] s''];
    simpl in *; try discriminate; intros H; injection H as <-; auto.
Qed.

End Raises.

(** ** Frames of the backend's methods *)

Section BackendFrames.
Context {HW : Type} (sdk : Sdk.MozzaUSB HW).
Variable R : Mozza.World HW -> Mozza.World HW -> Prop.
Hypothesis R_refl : forall w, R w w.
Hypothesis R_trans : forall a b c, R a b -> R b c -> R a c.
Hypothesis R_device : forall v w, R w (Mozza.set_device v w).
Hypothesis R_call :
  forall c ok d w,
    (forall wnums, c <> Sdk.Call_set_wavenumber_array wnums) ->
    R w (Mozza.set_calls (Mozza.calls w ++ [(c, ok)]) (Mozza.set_device d w)).
Hypothesis R_write :
  forall wnums ok d w,
    R w (Mozza.set_calls
           (Mozza.calls w ++ [(Sdk.Call_set_wavenumber_array wnums, ok)])
           (Mozza.set_device d w)).
Hypothesis R_lock : forall v w, R w (Mozza.set_lock v w).
Hypothesis R_buffer : forall v w, R w (Mozza.set_buffer v w).
Hypothesis R_window : forall v w, R w (Mozza.set_table_window v w).
Hypothesis R_delay : forall v w, R w (Mozza.set_trigger_delay v w).
Hypothesis R_amp : forall v w, R w (Mozza.set_amp_correction v w).
Hypothesis R_correct : forall v w, R w (Mozza.set_correct_amplitude v w).
Hypothesis R_apply_off :
  forall w, R w (Mozza.set_apply_amp_correction false w).
Hypothesis R_spectro :
  forall s w,
    Spectro.acquisition s = Spectro.acquisition (Mozza.spectro w) ->
    R w (Mozza.set_spectro s w).

(** An SDK call other than the table write. *)
Lemma frames_call A (c : Sdk.call) (f : Sdk.op HW A) :
  (forall wnums, c <> Sdk.Call_set_wavenumber_array wnums) ->
  frames R (Mozza.call c f).
Proof.
  intros Hc w. unfold Mozza.call.
  destruct (f (Mozza.device w)) as [[a | code] d]; simpl;
    apply R_call; exact Hc.
Qed.

Lemma frames_write wnums (f : Sdk.op HW unit) :
  frames R (Mozza.call (Sdk.Call_set_wavenumber_array wnums) f).
Proof.
  intros w. unfold Mozza.call.
  destruct (f (Mozza.device w)) as [[a | code] d]; simpl; apply R_write.
Qed.

Lemma frames_lock_acquire : frames R (@Mozza.lock_acquire HW).
Proof.
  intros w. unfold Mozza.lock_acquire.
  destruct (Lock.acquire (Mozza._lock w)); simpl. apply R_lock.
Qed.

Lemma frames_lock_try_acquire : frames R (@Mozza.lock_try_acquire HW).
Proof.
  intros w. unfold Mozza.lock_try_acquire.
  destruct (Lock.try_acquire (Mozza._lock w)); simpl. apply R_lock.
Qed.

Lemma frames_lock_release : frames R (@Mozza.lock_release HW).
Proof.
  intros w. unfold Mozza.lock_release.
  destruct (Lock.release (Mozza._lock w)); simpl. apply R_lock.
Qed.

Lemma frames_with_lock A (body : M (Mozza.World HW) A) :
  frames R body -> frames R (Mozza.with_lock body).
Proof.
  intros Hb. unfold Mozza.with_lock.
  apply frames_bind; auto using frames_lock_acquire.
  intros _. apply frames_try_finally; auto using frames_lock_release.
Qed.

Lemma frames_update_acquisition_params f :
  frames R (@Mozza.update_acquisition_params HW f).
Proof. apply frames_modify. intros w. apply R_device. Qed.

Lemma frames_update_process_params f :
  frames R (@Mozza.update_process_params HW f).
Proof. apply frames_modify. intros w. apply R_device. Qed.

Lemma frames_update (f : Spectro.State -> Spectro.State) :
  (forall s, Spectro.acquisition (f s) = Spectro.acquisition s) ->
  frames R (@Mozza.update HW f).
Proof. intros Hf. apply frames_modify. intros w. apply R_spectro, Hf. Qed.

Lemma frames_as_SpectroError A e :
  frames R (@Mozza.as_SpectroError HW A e).
Proof. destruct e; apply frames_raise; assumption. Qed.

(** One step of a frame proof: the rule for the head of the body, or a
    case analysis on what the body branches on. *)
Ltac frame_step :=
  first
    [ assumption
    | match goal with
      | H : forall _, _ |- frames _ _ => apply H
      end
    | apply frames_ret | apply frames_raise | apply frames_hang_on
    | apply frames_gets | apply frames_lift
    | apply frames_call; intros ?; discriminate
    | apply frames_write | apply frames_as_SpectroError
    | apply frames_lock_acquire | apply frames_lock_try_acquire
    | apply frames_lock_release | apply frames_with_lock
    | apply frames_update_acquisition_params
    | apply frames_update_process_params
    | apply frames_update; intros ?; reflexivity
    | apply frames_bind
    | apply frames_try_except_else | apply frames_try_except
    | apply frames_try_finally
    | apply frames_modify; intros ?;
      first [ apply R_buffer | apply R_window | apply R_delay | apply R_amp
            | apply R_correct | apply R_apply_off | apply R_device
            | apply R_lock ]
    | match goal with
      | |- frames _ (match ?x with _ => _ end) => destruct x
      | |- frames _ (let (_, _) := ?x in _) => destruct x
      end
    | intros ? ].

Ltac frame := repeat frame_step.

Lemma frames_load_amp_correction serial_num :
  frames R (@Mozza.load_amp_correction HW serial_num).
Proof. unfold Mozza.load_amp_correction. frame. Qed.

Lemma frames_reallocate wnums : frames R (Mozza.reallocate sdk wnums).
Proof. unfold Mozza.reallocate. frame. Qed.

Lemma frames_load_table depth start stop wnums :
  frames R (Mozza.load_table sdk depth start stop wnums).
Proof.
  revert start stop wnums.
  induction depth as [| depth IH]; intros start stop wnums; simpl;
    unfold Mozza.requested_table, Mozza.reallocate; frame.
Qed.

Lemma frames_read_chunks bound npts lp last :
  frames R (Mozza.read_chunks sdk bound npts lp last).
Proof.
  revert npts lp last.
  induction bound as [| bound IH]; intros npts lp last; simpl; frame.
Qed.

Lemma frames_read_raw bound : frames R (Mozza.read_raw sdk bound).
Proof.
  unfold Mozza.read_raw. pose proof frames_read_chunks. frame.
Qed.

Lemma frames_set_ext_trigger flag apply update_delay :
  frames R (Mozza.set_ext_trigger sdk flag apply update_delay).
Proof. unfold Mozza.set_ext_trigger. frame. Qed.

Lemma frames_reprogram_if_needed depth :
  frames R (Mozza.reprogram_if_needed sdk depth).
Proof.
  unfold Mozza.reprogram_if_needed. pose proof frames_load_table. frame.
Qed.

Lemma frames_acquire_locked bound :
  frames R (Mozza.acquire_locked sdk bound).
Proof.
  unfold Mozza.acquire_locked, Mozza.acquire_try, Mozza.acquire_finally.
  pose proof frames_read_raw. frame.
Qed.

Lemma frames_acquire_try bound : frames R (Mozza.acquire_try sdk bound).
Proof.
  unfold Mozza.acquire_try. pose proof frames_read_raw. frame.
Qed.

Lemma frames_corrected spec : frames R (@Mozza.corrected HW spec).
Proof. unfold Mozza.corrected. frame. Qed.

Lemma frames_acquire_spectrum depth bound background_mode :
  frames R (Mozza._acquire_spectrum sdk depth bound background_mode).
Proof.
  unfold Mozza._acquire_spectrum.
  pose proof frames_reprogram_if_needed.
  pose proof frames_acquire_locked.
  pose proof frames_corrected.
  frame.
Qed.

Lemma frames_connect_device serial :
  frames R (Mozza.connect_device sdk serial).
Proof.
  unfold Mozza.connect_device, Mozza.calibration_limits.
  pose proof frames_load_amp_correction. frame.
Qed.

Lemma frames_measure_offsets : frames R (Mozza.measure_offsets sdk).
Proof. unfold Mozza.measure_offsets. frame. Qed.

Lemma frames_acquire_raw bound : frames R (Mozza.acquire_raw sdk bound).
Proof. unfold Mozza.acquire_raw. pose proof frames_read_raw. frame. Qed.

Lemma frames_set_auto_params t a :
  frames R (Mozza.set_auto_params sdk t a).
Proof.
  unfold Mozza.set_auto_params, Mozza.acquisition_params,
    Mozza.process_params. frame.
Qed.

Lemma frames_set_all_device_params :
  frames R (Mozza.set_all_device_params sdk).
Proof.
  unfold Mozza.set_all_device_params, Mozza.setup_gains,
    Mozza.acquisition_params. frame.
Qed.

Lemma frames_get_ext_trigger : frames R (@Mozza.get_ext_trigger HW).
Proof. unfold Mozza.get_ext_trigger. frame. Qed.

Lemma frames_set_rf_attenuation value :
  frames R (Mozza.set_rf_attenuation sdk value).
Proof. unfold Mozza.set_rf_attenuation. frame. Qed.

Lemma frames_setup_gains : frames R (Mozza.setup_gains sdk).
Proof. unfold Mozza.setup_gains, Mozza.acquisition_params. frame. Qed.

Lemma frames_set_acquisition_params :
  frames R (Mozza.set_acquisition_params sdk).
Proof. unfold Mozza.set_acquisition_params. frame. Qed.

Lemma frames_set_process_params : frames R (Mozza.set_process_params sdk).
Proof. unfold Mozza.set_process_params. frame. Qed.

Lemma frames_ext_trigger_freq : frames R (Mozza.ext_trigger_freq sdk).
Proof. unfold Mozza.ext_trigger_freq. frame. Qed.

End BackendFrames.

(* ================================================================== *)
(** * The correction flag is never switched on by the backend *)
(* ================================================================== *)

Section ApplyFlag.
Context {HW : Type} (sdk : Sdk.MozzaUSB HW).

Lemma keeps_or_clears_refl (w : Mozza.World HW) : keeps_or_clears w w.
Proof. left. reflexivity. Qed.

Lemma keeps_or_clears_trans (a b c : Mozza.World HW) :
  keeps_or_clears a b -> keeps_or_clears b c -> keeps_or_clears a c.
Proof.
  unfold keeps_or_clears. intros [H1 | H1] [H2 | H2]; rewrite ?H2, ?H1; auto.
Qed.

Ltac flag_side :=
  first [ exact keeps_or_clears_refl
        | exact keeps_or_clears_trans
        | intros; left; reflexivity
        | intros; right; reflexivity
        | intros ?; discriminate ].

Tactic Notation "flag_frame" uconstr(lemma) := apply lemma; flag_side.

Lemma flag_discard A (m : M (Mozza.World HW) A) :
  frames keeps_or_clears m -> frames keeps_or_clears (Mozza.discard m).
Proof.
  intros H. unfold Mozza.discard.
  apply frames_bind; [exact keeps_or_clears_trans | exact H |].
  intros a. apply frames_ret. exact keeps_or_clears_refl.
Qed.

Lemma flag_make_acquisition depth bound start stop background_mode :
  frames keeps_or_clears
    (Mozza.make_acquisition sdk depth bound start stop background_mode).
Proof.
  unfold Mozza.make_acquisition, Spectro.make_acquisition, Spectro.update.
  simpl.
  apply frames_bind; [exact keeps_or_clears_trans | flag_frame frames_gets |].
  intros connected. destruct (negb connected).
  { flag_frame frames_ret. }
  apply frames_bind; [exact keeps_or_clears_trans | flag_frame frames_gets |].
  intros [n |]; [| flag_frame frames_raise].
  destruct (_ || _); [flag_frame frames_raise |].
  destruct (_ || _); [flag_frame frames_raise |].
  apply frames_bind; [exact keeps_or_clears_trans | |].
  { apply frames_modify. intros w. left. reflexivity. }
  intros _.
  apply frames_bind; [exact keeps_or_clears_trans | |].
  { flag_frame frames_acquire_spectrum. }
  intros spec. apply frames_modify. intros w. left. reflexivity.
Qed.

Lemma flag_perform depth bound (o : Mozza.operation) :
  frames keeps_or_clears (Mozza.perform sdk depth bound o).
Proof.
  destruct o; simpl; try apply flag_discard;
    first
      [ apply flag_make_acquisition
      | flag_frame frames_ret
      | flag_frame frames_gets
      | flag_frame frames_call
      | flag_frame frames_connect_device
      | flag_frame frames_set_ext_trigger
      | flag_frame frames_get_ext_trigger
      | flag_frame frames_load_table
      | flag_frame frames_read_raw
      | flag_frame frames_measure_offsets
      | flag_frame frames_acquire_spectrum
      | flag_frame frames_set_rf_attenuation
      | flag_frame frames_update_acquisition_params
      | flag_frame frames_update_process_params
      | flag_frame frames_setup_gains
      | flag_frame frames_set_all_device_params
      | flag_frame frames_set_acquisition_params
      | flag_frame frames_set_process_params
      | flag_frame frames_ext_trigger_freq
      | flag_frame frames_acquire_raw
      | flag_frame frames_set_auto_params
      | flag_frame frames_load_amp_correction ].
Qed.

(** A [load_amp_correction] that returns [True] has not touched the
    flag. *)
Lemma load_amp_correction_true_keeps_flag serial_num (w : Mozza.World HW) :
  fst (Mozza.load_amp_correction serial_num w) = Ret true ->
  Mozza.apply_amp_correction (snd (Mozza.load_amp_correction serial_num w))
  = Mozza.apply_amp_correction w.
Proof.
  unfold Mozza.load_amp_correction, bind, try_except_else, gets, modify, lift.
  simpl.
  destruct (Mozza.files w _) as [e | a]; simpl.
  - destruct (is_OSError e); simpl; [discriminate | reflexivity].
  - destruct (Np.unpack2 a) as [e | [wl am]]; simpl.
    + destruct (is_OSError e); simpl; [discriminate | reflexivity].
    + destruct (Np.any_negative am); simpl; [discriminate |].
      destruct (Np.len am) as [e | n]; simpl; [discriminate |].
      destruct (Np.len wl) as [e | n']; simpl; [discriminate |].
      destruct (negb (n =? n')%nat); simpl; [discriminate | reflexivity].
Qed.

End ApplyFlag.

(** C10. No operation of the backend sets [apply_amp_correction] to
    [True]. The constructor leaves it [False]; each public operation,
    whatever its arguments, its outcome and the answers of the SDK,
    leaves the flag as it was or sets it to [False]; a
    [load_amp_correction] that installs the correction function and
    returns [True] leaves it as it was; so after any sequence of
    operations on a new object the flag is still [False], and only an
    assignment by the caller can switch the correction on. *)
Theorem apply_amp_correction_never_set_by_backend :
  forall (HW : Type) (sdk : Sdk.MozzaUSB HW) (depth bound : nat),
    (forall (d : Sdk.Device HW) fs,
        Mozza.apply_amp_correction (Mozza.init d fs) = false)
    /\ (forall (o : Mozza.operation) (w : Mozza.World HW),
          let w' := snd (Mozza.perform sdk depth bound o w) in
          Mozza.apply_amp_correction w' = Mozza.apply_amp_correction w
          \/ Mozza.apply_amp_correction w' = false)
    /\ (forall serial_num (w : Mozza.World HW),
          let r := Mozza.load_amp_correction serial_num w in
          fst r = Ret true ->
          Mozza.correct_amplitude (snd r) <> None
          /\ Mozza.apply_amp_correction (snd r) = Mozza.apply_amp_correction w)
    /\ (forall (d : Sdk.Device HW) fs (ops : list Mozza.operation),
          Mozza.apply_amp_correction
            (Mozza.perform_all sdk depth bound ops (Mozza.init d fs)) = false).
Proof.
  intros HW sdk depth bound. split; [| split; [| split]].
  - reflexivity.
  - intros o w. apply (flag_perform sdk depth bound o w).
  - intros serial_num w r H. split.
    + revert H. unfold r, Mozza.load_amp_correction, bind, try_except_else,
        gets, modify, lift. simpl.
      destruct (Mozza.files w _) as [e | a]; simpl.
      * destruct (is_OSError e); simpl; discriminate.
      * destruct (Np.unpack2 a) as [e | [wl am]]; simpl.
        -- destruct (is_OSError e); simpl; discriminate.
        -- destruct (Np.any_negative am); simpl; [discriminate |].
           destruct (Np.len am) as [e | n]; simpl; [discriminate |].
           destruct (Np.len wl) as [e | n']; simpl; [discriminate |].
           destruct (negb (n =? n')%nat); simpl; discriminate.
    + apply load_amp_correction_true_keeps_flag. exact H.
  - intros d fs ops.
    assert (Hgen : forall w, Mozza.apply_amp_correction w = false ->
              Mozza.apply_amp_correction
                (Mozza.perform_all sdk depth bound ops w) = false).
    { induction ops as [| o ops IH]; intros w Hw; simpl.
      - exact Hw.
      - apply IH.
        destruct (flag_perform sdk depth bound o w) as [H | H];
          [rewrite H; exact Hw | exact H]. }
    apply Hgen. reflexivity.
Qed.

(** The theorem at work: on an object whose flag the caller has set,
    with the correction file of the instrument 12 in place,
    [load_amp_correction(12)] returns [True] and the flag is still as
    the caller has set it. *)
Lemma apply_amp_correction_never_set_by_backend_witness :
  let w := Sim.switch_on (Sim.new Sim.healthy Sim.two_files) in
  Mozza.apply_amp_correction (snd (Mozza.load_amp_correction 12 w))
  = Mozza.apply_amp_correction w.
Proof.
  intros w.
  apply (proj1 (proj2 (proj2
           (apply_amp_correction_never_set_by_backend Sim.sdk 8 8)))
           12 w).
  vm_compute. reflexivity.
Defined.


(* ================================================================== *)
(** * make_acquisition *)
(* ================================================================== *)

(** Case analysis on everything a hypothesis [f x = inl e] branches on. *)
Ltac crack H :=
  repeat match type of H with
         | context [match ?x with _ => _ end] => destruct x
         | context [if ?x then _ else _] => destruct x
         end;
  try discriminate H.

Ltac pure_leaf H :=
  crack H; injection H as <-; reflexivity.

Lemma float_error_not_range f : not_range_error (float_error f).
Proof. unfold float_error. destruct (is_nan f); reflexivity. Qed.

Lemma py_float_not_range x e : py_float x = inl e -> not_range_error e.
Proof. unfold py_float. intros H. pure_leaf H. Qed.

Lemma py_truediv_not_range a b e :
  py_truediv a b = inl e -> not_range_error e.
Proof. unfold py_truediv. intros H. pure_leaf H. Qed.

Lemma round_float_not_range f e : round_float f = inl e -> not_range_error e.
Proof.
  unfold round_float. intros H.
  destruct (float_fraction f) as [[n k] |]; [discriminate |].
  injection H as <-. apply float_error_not_range.
Qed.

Lemma item_not_range a i e : Np.item a i = inl e -> not_range_error e.
Proof. unfold Np.item. intros H. pure_leaf H. Qed.

Lemma linspace_not_range a b n e :
  Np.linspace a b n = inl e -> not_range_error e.
Proof. unfold Np.linspace. intros H. pure_leaf H. Qed.

Lemma interp_not_range x xp fp e :
  Np.interp x xp fp = inl e -> not_range_error e.
Proof. unfold Np.interp. intros H. pure_leaf H. Qed.

Lemma multiply_not_range a b e :
  Np.multiply a b = inl e -> not_range_error e.
Proof. unfold Np.multiply. intros H. pure_leaf H. Qed.

Lemma mul_not_range a b e : Np.mul a b = inl e -> not_range_error e.
Proof.
  unfold Np.mul. intros H. destruct a as [a |], b as [b |].
  - destruct (Np.multiply a b) eqn:Hm;
      [injection H as <-; eapply multiply_not_range; eassumption
      | discriminate].
  - pure_leaf H.
  - pure_leaf H.
  - pure_leaf H.
Qed.

Lemma zeros_uint8_not_range n e :
  Np.zeros_uint8 n = inl e -> not_range_error e.
Proof. unfold Np.zeros_uint8. intros H. pure_leaf H. Qed.

Lemma apply_correction_not_range f x e :
  Mozza.apply_correction f x = inl e -> not_range_error e.
Proof.
  unfold Mozza.apply_correction. intros H.
  destruct (Mozza.wavelength f), (Mozza.amplitude f);
    try (injection H as <-; reflexivity).
  eapply interp_not_range; eassumption.
Qed.

Lemma window_wavenumbers_not_range l a b e :
  Mozza.window_wavenumbers l a b = inl e -> not_range_error e.
Proof.
  unfold Mozza.window_wavenumbers, Np.getitem. intros H.
  destruct l as [arr |]; [| injection H as <-; reflexivity].
  destruct a as [| s | fs], b as [| t | ft];
    repeat match type of H with
           | context [Np.item ?x ?y] =>
               let Hi := fresh "Hi" in
               destruct (Np.item x y) eqn:Hi;
               [apply item_not_range in Hi |]
           end;
    try (injection H as <-; first [assumption | reflexivity]);
    try discriminate.
  eapply linspace_not_range; eassumption.
Qed.

Lemma assign_slice_not_range buf last raw e :
  Mozza.assign_slice buf last raw = inl e -> not_range_error e.
Proof. unfold Mozza.assign_slice. intros H. pure_leaf H. Qed.

Lemma acquisition_time_not_range size f e :
  Mozza.acquisition_time size f = inl e -> not_range_error e.
Proof.
  unfold Mozza.acquisition_time. intros H.
  destruct (py_float (PInt size)) eqn:H1;
    [injection H as <-; eapply py_float_not_range; eassumption |].
  destruct (py_truediv f0 f) eqn:H2;
    [injection H as <-; eapply py_truediv_not_range; eassumption |].
  eapply py_truediv_not_range; eassumption.
Qed.

Lemma chunk_estimate_not_range f size n e :
  Mozza.chunk_estimate f size n = inl e -> not_range_error e.
Proof.
  unfold Mozza.chunk_estimate. intros H.
  destruct (py_float (PInt size)) eqn:H1;
    [injection H as <-; eapply py_float_not_range; eassumption |].
  destruct (py_truediv f f0) eqn:H2;
    [injection H as <-; eapply py_truediv_not_range; eassumption |].
  destruct (py_float (PInt n)) eqn:H3;
    [injection H as <-; eapply py_float_not_range; eassumption |].
  discriminate.
Qed.

(** Nothing that [_acquire_spectrum] runs raises one of the two range
    errors, and nothing it runs assigns [self.acquisition]. *)
Section AcquisitionCone.
Context {HW : Type} (sdk : Sdk.MozzaUSB HW).

Lemma raises_call A (c : Sdk.call) (f : Sdk.op HW A) :
  raises_only not_range_error (Mozza.call c f).
Proof.
  intros w e. unfold Mozza.call.
  destruct (f (Mozza.device w)) as [[a | code] d]; simpl;
    [discriminate | intros H; injection H as <-; reflexivity].
Qed.

Lemma raises_lock_acquire :
  raises_only not_range_error (@Mozza.lock_acquire HW).
Proof.
  intros w e. unfold Mozza.lock_acquire.
  destruct (Mozza._lock w); simpl; discriminate.
Qed.

Lemma raises_lock_try_acquire :
  raises_only not_range_error (@Mozza.lock_try_acquire HW).
Proof.
  intros w e. unfold Mozza.lock_try_acquire.
  destruct (Mozza._lock w); simpl; discriminate.
Qed.

Lemma raises_lock_release :
  raises_only not_range_error (@Mozza.lock_release HW).
Proof.
  intros w e. unfold Mozza.lock_release.
  destruct (Mozza._lock w) as [| [| n] |]; simpl;
    try discriminate; intros H; injection H as <-; reflexivity.
Qed.

Lemma raises_with_lock A (body : M (Mozza.World HW) A) :
  raises_only not_range_error body ->
  raises_only not_range_error (Mozza.with_lock body).
Proof.
  intros Hb. unfold Mozza.with_lock.
  apply raises_only_bind; [apply raises_lock_acquire |].
  intros _. apply raises_only_try_finally; [exact Hb |].
  apply raises_lock_release.
Qed.

Ltac cone_step :=
  first
    [ assumption
    | match goal with
      | H : forall _, _ |- raises_only _ _ => apply H
      end
    | apply raises_only_ret | apply raises_only_hang_on
    | apply raises_only_gets | apply raises_only_modify
    | apply raises_call
    | apply raises_lock_acquire | apply raises_lock_try_acquire
    | apply raises_lock_release | apply raises_with_lock
    | apply raises_only_raise; reflexivity
    | apply raises_only_lift; intros ? ?;
      first [ eapply window_wavenumbers_not_range; eassumption
            | eapply item_not_range; eassumption
            | eapply zeros_uint8_not_range; eassumption
            | eapply apply_correction_not_range; eassumption
            | eapply assign_slice_not_range; eassumption
            | eapply py_float_not_range; eassumption
            | eapply acquisition_time_not_range; eassumption
            | eapply chunk_estimate_not_range; eassumption
            | eapply round_float_not_range; eassumption
            | eapply mul_not_range; eassumption ]
    | apply raises_only_bind
    | apply raises_only_try_except_else | apply raises_only_try_except
    | apply raises_only_try_finally
    | match goal with
      | |- raises_only _ (match ?x with _ => _ end) => destruct x
      end
    | intros ? ].

Ltac cone := repeat cone_step.

Lemma raises_load_table depth start stop wnums :
  raises_only not_range_error (Mozza.load_table sdk depth start stop wnums).
Proof.
  revert start stop wnums.
  induction depth as [| depth IH]; intros start stop wnums; simpl;
    unfold Mozza.requested_table, Mozza.reallocate; cone.
Qed.

Lemma raises_read_chunks bound npts lp last :
  raises_only not_range_error (Mozza.read_chunks sdk bound npts lp last).
Proof.
  revert npts lp last.
  induction bound as [| bound IH]; intros npts lp last; simpl; cone.
Qed.

Lemma raises_read_raw bound :
  raises_only not_range_error (Mozza.read_raw sdk bound).
Proof. unfold Mozza.read_raw. pose proof raises_read_chunks. cone. Qed.

Lemma raises_acquire_spectrum depth bound background_mode :
  raises_only not_range_error
    (Mozza._acquire_spectrum sdk depth bound background_mode).
Proof.
  unfold Mozza._acquire_spectrum, Mozza.reprogram_if_needed,
    Mozza.acquire_locked, Mozza.acquire_try, Mozza.acquire_finally,
    Mozza.corrected.
  pose proof raises_load_table. pose proof raises_read_raw. cone.
Qed.

Lemma acquire_spectrum_same_request depth bound background_mode :
  frames same_request
    (Mozza._acquire_spectrum sdk depth bound background_mode).
Proof.
  apply frames_acquire_spectrum; unfold same_request; intros;
    first [ reflexivity | congruence | simpl; congruence ].
Qed.

End AcquisitionCone.

Section MakeAcquisition.
Context {HW : Type} (sdk : Sdk.MozzaUSB HW).

Lemma make_acquisition_connected depth bound start stop background_mode
    (w : Mozza.World HW) npixels :
  Spectro._connected (Mozza.spectro w) = true ->
  Spectro._npixels (Mozza.spectro w) = Some npixels ->
  let stop' := if stop <? 0 then stop + npixels else stop in
  let start' := if start <? 0 then start + npixels else start in
  Mozza.make_acquisition sdk depth bound start stop background_mode w =
  if (stop' <? 1) || (stop' >=? npixels) then
    (Raise (ValueError (StopIndexNotInRange stop' npixels)), w)
  else if (start' <? 0) || (start' >=? stop') then
    (Raise (ValueError (StartIndexNotBelowStop start' stop')), w)
  else acquire_and_store sdk depth bound background_mode (request start' stop' w).
Proof.
  intros Hc Hn stop' start'.
  unfold Mozza.make_acquisition, Spectro.make_acquisition, bind, gets.
  simpl. rewrite Hc. simpl. rewrite Hn. simpl. fold stop'.
  destruct ((stop' <? 1) || (stop' >=? npixels)); [reflexivity |].
  fold start'.
  destruct ((start' <? 0) || (start' >=? stop')); reflexivity.
Qed.

Lemma acquire_and_store_no_range_error depth bound background_mode :
  raises_only not_range_error (acquire_and_store sdk depth bound background_mode).
Proof.
  unfold acquire_and_store.
  apply raises_only_bind; [apply raises_acquire_spectrum |].
  intros spec. apply raises_only_modify.
Qed.

Lemma acquire_and_store_same_request depth bound background_mode :
  frames same_request (acquire_and_store sdk depth bound background_mode).
Proof.
  unfold acquire_and_store.
  apply frames_bind.
  - unfold same_request. intros a b c H1 H2. congruence.
  - apply acquire_spectrum_same_request.
  - intros spec. apply frames_modify. intros w. reflexivity.
Qed.

End MakeAcquisition.

(** C1, as stated, fails: a [ValueError] is also raised for a window
    within [0 <= start < stop < npixels]. The object has acquired the
    window [(0, 2)] with the correction of instrument 12, then has been
    connected to an instrument without a correction file, and the
    caller has switched the correction on again. For the window
    [(0, 4)] the range check passes, the table of five points is
    written, and the five points of the spectrum are multiplied by the
    three of the array left by the first acquisition: numpy raises
    [ValueError], which nothing in [make_acquisition] catches. *)
Lemma make_acquisition_valid_window_raises_ValueError :
  let w := Sim.switched_on_without_file in
  let r := Mozza.make_acquisition Sim.sdk 8 8 0 4 false w in
  Spectro._connected (Mozza.spectro w) = true
  /\ Spectro._npixels (Mozza.spectro w) = Some 3500
  /\ fst r = Raise (ValueError ShapeMismatch)
  /\ raised_range_error (fst r) = false
  /\ Spectro.acquisition (Mozza.spectro (snd r))
     = {| Spectro.start := PInt 0; Spectro.stop := PInt 4 |}.
Proof. vm_compute. repeat split. Qed.

(** C1, amended. [make_acquisition(start, stop, background_mode)]: on
    an object that is not connected the call returns and changes
    nothing. On a connected one a negative [stop] is replaced by
    [npixels + stop] and a negative [start] by [npixels + start]; the
    call raises the [ValueError] of its range check exactly when the
    resolved window violates [0 <= start < stop < npixels], and then
    changes nothing; otherwise the resolved window is stored in
    [self.acquisition], and is still there when the call ends, and the
    call ends as [_acquire_spectrum] does on the object with that
    window: it returns when [_acquire_spectrum] returns, and an
    exception of [_acquire_spectrum] (a [ValueError] of numpy among
    them) leaves the call as it is. *)
Theorem make_acquisition_window :
  forall (HW : Type) (sdk : Sdk.MozzaUSB HW) (depth bound : nat)
         (start stop : Z) (background_mode : bool) (w : Mozza.World HW),
    let r := Mozza.make_acquisition sdk depth bound start stop
               background_mode w in
    (Spectro._connected (Mozza.spectro w) = false -> r = (Ret tt, w))
    /\ (forall npixels,
          Spectro._connected (Mozza.spectro w) = true ->
          Spectro._npixels (Mozza.spectro w) = Some npixels ->
          let stop' := if stop <? 0 then npixels + stop else stop in
          let start' := if start <? 0 then npixels + start else start in
          let valid := 0 <= start' /\ start' < stop' /\ stop' < npixels in
          (raised_range_error (fst r) = true <-> ~ valid)
          /\ (~ valid -> snd r = w)
          /\ (valid ->
              Spectro.acquisition (Mozza.spectro (snd r))
              = {| Spectro.start := PInt start'; Spectro.stop := PInt stop' |})
          /\ (valid ->
              match fst (Mozza._acquire_spectrum sdk depth bound
                           background_mode (request start' stop' w)) with
              | Ret _ => fst r = Ret tt
              | Raise e => fst r = Raise e
              | Hang h => fst r = Hang h
              end)).
Proof.
  intros HW sdk depth bound start stop background_mode w r. split.
  - intros Hc. unfold r, Mozza.make_acquisition, Spectro.make_acquisition,
      bind, gets. simpl. rewrite Hc. reflexivity.
  - intros npixels Hc Hn stop' start' valid.
    pose proof (make_acquisition_connected sdk depth bound start stop
                  background_mode w Hc Hn) as Heq.
    simpl in Heq.
    replace (stop + npixels) with (npixels + stop) in Heq by lia.
    replace (start + npixels) with (npixels + start) in Heq by lia.
    fold stop' start' in Heq. fold r in Heq.
    destruct ((stop' <? 1) || (stop' >=? npixels)) eqn:Hstop.
    { assert (Hbad : ~ valid) by (unfold valid; lia).
      rewrite Heq. cbn [fst snd raised_range_error is_range_error].
      split; [split; auto |]. split; [reflexivity |].
      split; intros Hv; contradiction. }
    destruct ((start' <? 0) || (start' >=? stop')) eqn:Hstart.
    { assert (Hbad : ~ valid) by (unfold valid; lia).
      rewrite Heq. cbn [fst snd raised_range_error is_range_error].
      split; [split; auto |]. split; [reflexivity |].
      split; intros Hv; contradiction. }
    assert (Hok : valid) by (unfold valid; lia).
    rewrite Heq. split; [| split; [| split]].
    + split; [| intros Hbad; contradiction].
      intros Hr. exfalso.
      pose proof (acquire_and_store_no_range_error sdk depth bound
                    background_mode (request start' stop' w)) as Hno.
      unfold raised_range_error in Hr.
      destruct (fst (acquire_and_store sdk depth bound background_mode
                       (request start' stop' w))) as [u | e | h];
        try discriminate.
      specialize (Hno e eq_refl). unfold not_range_error in Hno. congruence.
    + intros Hbad. contradiction.
    + intros _.
      apply (acquire_and_store_same_request sdk depth bound background_mode
               (request start' stop' w)).
    + intros _. unfold acquire_and_store, bind, Mozza.update.
      destruct (Mozza._acquire_spectrum sdk depth bound background_mode
                  (request start' stop' w)) as [[spec | e | h] w'];
        reflexivity.
Qed.

(** The theorem at work: [make_acquisition()] with its default
    arguments, [start = 0] and [stop = -1], on the connected instrument
    of 3500 pixels stores the window [(0, 3499)]. *)
Lemma make_acquisition_window_witness :
  Spectro.acquisition
    (Mozza.spectro
       (snd (Mozza.make_acquisition Sim.sdk 8 8 0 (-1) false
               (Sim.connected Sim.healthy Sim.no_files))))
  = {| Spectro.start := PInt 0; Spectro.stop := PInt 3499 |}.
Proof.
  destruct (proj2 (make_acquisition_window Sim.sdk 8 8 0 (-1) false
                     (Sim.connected Sim.healthy Sim.no_files)) 3500)
    as (_ & _ & Hstored & _).
  - vm_compute. reflexivity.
  - vm_compute. reflexivity.
  - apply Hstored. simpl. lia.
Defined.


(* ================================================================== *)
(** * load_table *)
(* ================================================================== *)

(** C2. [load_table(0, 2)] on an instrument that refuses the table
    twice and accepts it the third time: the first failure is followed
    by [end_acquisition] and a second write, as the specification says;
    the second failure is followed by [end_acquisition] and a third
    write, where the specification wants a [SpectroError]; the call
    returns normally, with the raw buffer reallocated to the size the
    SDK reports for the three points of the table (12 bytes). *)
Theorem load_table_second_failure_retried :
  let r := Mozza.load_table Sim.sdk 8 (PInt 0) (PInt 2) None
             (Sim.connected (Sim.refusing 2) Sim.no_files) in
  fst r = Ret tt
  /\ skipn 3 (Sdk.names (Mozza.calls (snd r)))
     = [("set_wavenumber_array", false); ("end_acquisition", true);
        ("set_wavenumber_array", false); ("end_acquisition", true);
        ("set_wavenumber_array", true); ("get_raw_data_size", true)]%string
  /\ List.length (Mozza.buffer (snd r)) = 12%nat.
Proof. vm_compute. repeat split. Qed.

(** With a table that is never accepted the call ends when the
    interpreter refuses a further frame, in [RecursionError]; no
    [SpectroError] is raised for the failed writes. *)
Example load_table_persistent_failure :
  fst (Mozza.load_table Sim.sdk 8 (PInt 0) (PInt 2) None
         (Sim.connected (Sim.refusing 20) Sim.no_files))
  = Raise RecursionError.
Proof. vm_compute. reflexivity. Qed.

(* ================================================================== *)
(** * load_amp_correction *)
(* ================================================================== *)

(** C3, as stated, fails: a correction file whose text [np.loadtxt]
    cannot convert makes [load_amp_correction] raise the [ValueError]
    of [np.loadtxt]; only [OSError] is caught. *)
Lemma load_amp_correction_raises_on_bad_text :
  fst (Mozza.load_amp_correction 12
         (Sim.new Sim.healthy
            (Sim.one_file "0012_AmplitudeCorrection.txt"
               (Np.LoadRaises (ValueError BadTable)))))
  = Raise (ValueError BadTable).
Proof. vm_compute. reflexivity. Qed.

(** A file of one line, [800 1.0], is read as two scalars, and
    [len(amplitude)] raises [TypeError]. *)
Example load_amp_correction_raises_on_one_row :
  fst (Mozza.load_amp_correction 12
         (Sim.new Sim.healthy
            (Sim.one_file "0012_AmplitudeCorrection.txt"
               (Np.LoadReturns (Np.Arr1 [800%float; 1%float])))))
  = Raise TypeError.
Proof. vm_compute. reflexivity. Qed.

(** C3, amended. [load_amp_correction(serial_num)] does not raise when
    the file cannot be opened or holds two columns of two rows or more.
    The correction is installed ([correct_amplitude] set to the
    interpolation function of the two columns, [True] returned,
    [apply_amp_correction] left as it was) exactly when no amplitude is
    below zero and the two columns have the same length; a file that
    cannot be opened, an amplitude below zero or columns of different
    lengths leave [apply_amp_correction = False] and
    [correct_amplitude = None], and [False] is returned. *)
Theorem load_amp_correction_outcomes :
  forall (HW : Type) (serial_num : Z) (w : Mozza.World HW),
    let path := (format_04d serial_num ++ "_AmplitudeCorrection.txt")%string in
    let r := Mozza.load_amp_correction serial_num w in
    let disabled :=
      Mozza.set_apply_amp_correction false
        (Mozza.set_correct_amplitude None w) in
    (Mozza.files w path = Np.LoadRaises OSError -> r = (Ret false, disabled))
    /\ (forall wl am,
          Mozza.files w path = Np.LoadReturns (Np.Arr2 [wl; am]) ->
          if negb (existsb (fun a => a <? 0)%float am)
             && (List.length am =? List.length wl)%nat
          then r = (Ret true,
                    Mozza.set_correct_amplitude
                      (Some {| Mozza.wavelength := Np.Vec wl;
                               Mozza.amplitude := Np.Vec am |})
                      (Mozza.set_correct_amplitude None w))
          else r = (Ret false, disabled)).
Proof.
  intros HW serial_num w path r disabled. split.
  - intros Hf. unfold r, Mozza.load_amp_correction, bind, try_except_else,
      gets, modify. simpl. fold path. rewrite Hf. reflexivity.
  - intros wl am Hf. unfold r, Mozza.load_amp_correction, bind,
      try_except_else, gets, modify. simpl. fold path. rewrite Hf. simpl.
    destruct (existsb (fun a => a <? 0)%float am); simpl; [reflexivity |].
    destruct (List.length am =? List.length wl)%nat; reflexivity.
Qed.

(** The theorem at work: a file with the columns [800, 1000] and
    [2, 2] installs the correction. *)
Lemma load_amp_correction_outcomes_witness :
  fst (Mozza.load_amp_correction 12
         (Sim.new Sim.healthy
            (Sim.one_file "0012_AmplitudeCorrection.txt"
               (Np.LoadReturns
                  (Np.Arr2 [[800; 1000]; [2; 2]]%float)))))
  = Ret true.
Proof.
  pose proof (proj2 (load_amp_correction_outcomes 12
                       (Sim.new Sim.healthy
                          (Sim.one_file "0012_AmplitudeCorrection.txt"
                             (Np.LoadReturns
                                (Np.Arr2 [[800; 1000]; [2; 2]]%float)))))
                [800; 1000]%float [2; 2]%float eq_refl) as H.
  simpl in H. rewrite H. reflexivity.
Defined.

(* ================================================================== *)
(** * set_ext_trigger *)
(* ================================================================== *)

Section Trigger.
Context {HW : Type} (sdk : Sdk.MozzaUSB HW).

Lemma set_ext_trigger_internal (w : Mozza.World HW) :
  Mozza.set_ext_trigger sdk false false true w =
  (Ret tt,
   Mozza.set_device
     (Sdk.set_acquisition_params
        (Sdk.set_trigger_delay_us 0
           (Sdk.set_trigger_source Sdk.INTERNAL
              (Sdk.acquisition_params (Mozza.device w))))
        (Mozza.device w))
     (Mozza.set_trigger_delay
        (PInt (Sdk.trigger_delay_us (Sdk.acquisition_params (Mozza.device w))))
        w)).
Proof. reflexivity. Qed.

Lemma set_ext_trigger_external (w : Mozza.World HW) delay :
  py_int (Mozza._trigger_delay_us w) = inr delay ->
  Mozza.set_ext_trigger sdk true false true w =
  (Ret tt,
   Mozza.set_device
     (Sdk.set_acquisition_params
        (Sdk.set_trigger_delay_us delay
           (Sdk.set_trigger_source Sdk.EXTERNAL
              (Sdk.acquisition_params (Mozza.device w))))
        (Mozza.device w))
     w).
Proof.
  intros H. unfold Mozza.set_ext_trigger, bind, gets, lift,
    Mozza.update_acquisition_params, modify. simpl. rewrite H. reflexivity.
Qed.

End Trigger.

(** C8. [set_ext_trigger(False, update_delay=True)] returns with the
    trigger source internal, the trigger delay of the device stored in
    [_trigger_delay_us] and the trigger delay of the device at 0; a
    later [set_ext_trigger(True, update_delay=True)] returns with the
    trigger source external and the trigger delay of the device equal
    to the stored value; done one after the other, the two calls leave
    the device with the trigger delay it had at the start. *)
Theorem set_ext_trigger_caches_and_restores_delay :
  forall (HW : Type) (sdk : Sdk.MozzaUSB HW) (w : Mozza.World HW),
    let delay_of (x : Mozza.World HW) :=
      Sdk.trigger_delay_us (Sdk.acquisition_params (Mozza.device x)) in
    let source_of (x : Mozza.World HW) :=
      Sdk.trigger_source (Sdk.acquisition_params (Mozza.device x)) in
    let to_internal := Mozza.set_ext_trigger sdk false false true in
    let to_external := Mozza.set_ext_trigger sdk true false true in
    (fst (to_internal w) = Ret tt
     /\ source_of (snd (to_internal w)) = Sdk.INTERNAL
     /\ Mozza._trigger_delay_us (snd (to_internal w)) = PInt (delay_of w)
     /\ delay_of (snd (to_internal w)) = 0)
    /\ (forall cached,
          Mozza._trigger_delay_us w = PInt cached ->
          fst (to_external w) = Ret tt
          /\ source_of (snd (to_external w)) = Sdk.EXTERNAL
          /\ delay_of (snd (to_external w)) = cached
          /\ Mozza._trigger_delay_us (snd (to_external w)) = PInt cached)
    /\ (fst (to_external (snd (to_internal w))) = Ret tt
        /\ delay_of (snd (to_external (snd (to_internal w)))) = delay_of w).
Proof.
  intros HW sdk w delay_of source_of to_internal to_external.
  split; [| split].
  - unfold to_internal. rewrite set_ext_trigger_internal.
    repeat split.
  - intros cached Hc. unfold to_external.
    rewrite (set_ext_trigger_external sdk w (delay := cached))
      by (rewrite Hc; reflexivity).
    repeat split. exact Hc.
  - unfold to_external, to_internal. rewrite set_ext_trigger_internal.
    rewrite (set_ext_trigger_external sdk _
               (delay := Sdk.trigger_delay_us
                           (Sdk.acquisition_params (Mozza.device w))))
      by reflexivity.
    split; reflexivity.
Qed.

(** The theorem at work: a delay of 250 microseconds survives the
    switch to the internal trigger and back. *)
Lemma set_ext_trigger_caches_and_restores_delay_witness :
  let w := Sim.new Sim.healthy Sim.no_files in
  let w250 :=
    snd (Mozza.acquisition_params_setter
           (Sdk.set_trigger_delay_us 250
              (Sdk.acquisition_params (Mozza.device w))) w) in
  Sdk.trigger_delay_us
    (Sdk.acquisition_params
       (Mozza.device
          (snd (Mozza.set_ext_trigger Sim.sdk true false true
                  (snd (Mozza.set_ext_trigger Sim.sdk false false true w250))))))
  = 250.
Proof.
  intros w w250.
  exact (proj2 (proj2 (proj2
           (set_ext_trigger_caches_and_restores_delay Sim.sdk w250)))).
Defined.

(* ================================================================== *)
(** * _acquire_spectrum: the lock *)
(* ================================================================== *)

(** C9, as stated, fails: the lock is held by another thread and the
    window asked for, [(0, 2)], is not the window [(0, 0)] of the table;
    [_acquire_spectrum] calls [load_table], whose [with self._lock]
    waits for the lock. *)
Lemma acquire_spectrum_blocks_in_load_table :
  fst (Mozza._acquire_spectrum Sim.sdk 8 8 false
         (held_by_other
            (request 0 2 (Sim.connected Sim.healthy Sim.no_files))))
  = Hang BlockedOnLock.
Proof. vm_compute. reflexivity. Qed.

(** C9, amended. When the lock is held by another thread and the window
    asked for is the window of the table in place, [_acquire_spectrum]
    returns [None] at once: no SDK call is made ([begin_acquisition] in
    particular), nothing is raised, the call does not wait, and the
    object is left as it was. *)
Theorem acquire_spectrum_drops_when_busy :
  forall (HW : Type) (sdk : Sdk.MozzaUSB HW) (depth bound : nat)
         (background_mode : bool) (w : Mozza.World HW),
    Mozza._lock w = Lock.HeldByOther ->
    window_changed w = false ->
    Mozza._acquire_spectrum sdk depth bound background_mode w = (Ret None, w).
Proof.
  intros HW sdk depth bound background_mode w Hl Hw.
  unfold Mozza._acquire_spectrum, Mozza.reprogram_if_needed, bind, gets.
  simpl. unfold window_changed in Hw. rewrite Hw. simpl.
  unfold Mozza.lock_try_acquire. rewrite Hl. simpl.
  destruct w; simpl in *. subst. reflexivity.
Qed.

(** The theorem at work: after [make_acquisition(0, 2)], a second
    acquisition of the same window while the lock is taken. *)
Lemma acquire_spectrum_drops_when_busy_witness :
  let w := held_by_other
             (snd (Mozza.make_acquisition Sim.sdk 8 8 0 2 false
                     (Sim.connected Sim.healthy Sim.no_files))) in
  Mozza._acquire_spectrum Sim.sdk 8 8 false w = (Ret None, w).
Proof.
  intros w.
  apply (acquire_spectrum_drops_when_busy Sim.sdk 8 8 false w);
    vm_compute; reflexivity.
Defined.

(* ================================================================== *)
(** * connect_device: the serial string *)
(* ================================================================== *)

Lemma split_without_separator sep s :
  contains sep s = false -> split sep s = [s].
Proof.
  induction s as [| c rest IH]; simpl; intros H.
  - reflexivity.
  - apply orb_false_iff in H. destruct H as [Hc Hrest].
    rewrite Hc, (IH Hrest). reflexivity.
Qed.

(** C6, as stated, fails: the text before the separator is not looked
    at. ["Ocean#12"] is not of the form ["Mozza#<int>"], and
    [connect_device] connects to the instrument 12. *)
Lemma connect_device_ignores_prefix :
  let r := Mozza.connect_device Sim.sdk "Ocean#12"
             (Sim.new Sim.healthy Sim.no_files) in
  fst r = Ret tt
  /\ Spectro._connected (Mozza.spectro (snd r)) = true
  /\ Spectro._serial (Mozza.spectro (snd r)) = "Ocean#12"%string
  /\ Sdk.names (Mozza.calls (snd r))
     = [("connect", true); ("get_sensors", true);
        ("set_default_params", true)]%string.
Proof. vm_compute. repeat split. Qed.

(** A tail that is not an integer: [int] raises [ValueError], which
    [except (IndexError, TypeError)] does not catch. *)
Example connect_device_non_integer_tail :
  Mozza.connect_device Sim.sdk "Mozza#abc" (Sim.new Sim.healthy Sim.no_files)
  = (Raise (ValueError (InvalidLiteral "abc")),
     Sim.new Sim.healthy Sim.no_files).
Proof. vm_compute. reflexivity. Qed.

(** C6, amended. For every serial string without the separator ["#"],
    [connect_device] raises [SpectroError] before any SDK call and
    leaves the object as it was ([connected] stays [False], [serial]
    stays empty on a new object). *)
Theorem connect_device_rejects_missing_separator :
  forall (HW : Type) (sdk : Sdk.MozzaUSB HW) (serial : string)
         (w : Mozza.World HW),
    contains "#" serial = false ->
    Mozza.connect_device sdk serial w
    = (Raise (SpectroError (BadDeviceString serial)), w).
Proof.
  intros HW sdk serial w H.
  unfold Mozza.connect_device, bind, try_except, try_except_else.
  rewrite (split_without_separator _ _ H). reflexivity.
Qed.

(** The theorem at work, on the serial ["Mozza12"]. *)
Lemma connect_device_rejects_missing_separator_witness :
  Mozza.connect_device Sim.sdk "Mozza12" (Sim.new Sim.healthy Sim.no_files)
  = (Raise (SpectroError (BadDeviceString "Mozza12")),
     Sim.new Sim.healthy Sim.no_files).
Proof.
  apply (connect_device_rejects_missing_separator Sim.sdk "Mozza12"
           (Sim.new Sim.healthy Sim.no_files)).
  reflexivity.
Defined.

(* ================================================================== *)
(** * _acquire_spectrum: SDK errors and the cleanup *)
(* ================================================================== *)

(** C4. The window [(0, 2)] is asked for, the caller has set
    [apply_amp_correction], no correction file exists (so
    [amp_correction] is [None]) and [begin_acquisition] raises
    [MozzaError]. The error is caught and [end_acquisition] is called,
    as the specification says; then the last line multiplies [None] by
    [None], and the call raises [TypeError] where the specification
    wants it to return [None]. *)
Theorem acquire_spectrum_sdk_error_raises_TypeError :
  let r := Mozza._acquire_spectrum Sim.sdk 8 8 false
             (Mozza.set_apply_amp_correction true
                (request 0 2 (Sim.connected Sim.not_starting Sim.no_files))) in
  fst r = Raise TypeError
  /\ skipn 3 (Sdk.names (Mozza.calls (snd r)))
     = [("set_wavenumber_array", true); ("get_raw_data_size", true);
        ("begin_acquisition", false); ("end_acquisition", true)]%string
  /\ Mozza._lock (snd r) = Lock.Unlocked.
Proof. vm_compute. repeat split. Qed.

(** The same call with the flag left at [False] returns [None]. *)
Example acquire_spectrum_sdk_error_without_correction :
  fst (Mozza._acquire_spectrum Sim.sdk 8 8 false
         (request 0 2 (Sim.connected Sim.not_starting Sim.no_files)))
  = Ret None.
Proof. vm_compute. reflexivity. Qed.

Lemma trace_extends_refl HW (w : Mozza.World HW) : trace_extends w w.
Proof. exists []. rewrite app_nil_r. reflexivity. Qed.

Lemma trace_extends_trans HW (a b c : Mozza.World HW) :
  trace_extends a b -> trace_extends b c -> trace_extends a c.
Proof.
  intros [t1 H1] [t2 H2]. exists (t1 ++ t2).
  rewrite H2, H1, app_assoc. reflexivity.
Qed.

(** The side conditions of a frame lemma used at [trace_extends]. *)
Ltac extends_side :=
  first [ exact (@trace_extends_refl _)
        | exact (@trace_extends_trans _)
        | intros; exists []; simpl; rewrite app_nil_r; reflexivity
        | intros; eexists; simpl; reflexivity ].

Section Cleanup.
Context {HW : Type} (sdk : Sdk.MozzaUSB HW).

Lemma acquire_try_extends_trace bound :
  frames trace_extends (Mozza.acquire_try sdk bound).
Proof. apply frames_acquire_try; extends_side. Qed.

Lemma acquire_try_same_lock bound :
  frames same_lock (Mozza.acquire_try sdk bound).
Proof.
  apply frames_acquire_try; unfold same_lock; intros;
    first [ reflexivity | congruence ].
Qed.

(** The [finally] clause, run by the owner of the lock: it returns,
    whether [end_acquisition] raises or not, with one more call in the
    trace and the lock released. *)
Lemma acquire_finally_runs (w : Mozza.World HW) n :
  Mozza._lock w = Lock.HeldBySelf n ->
  exists ok w',
    Mozza.acquire_finally sdk w = (Ret tt, w')
    /\ Mozza.calls w' = Mozza.calls w ++ [(Sdk.Call_end_acquisition, ok)]
    /\ Mozza._lock w' = released (Mozza._lock w).
Proof.
  intros Hl.
  unfold Mozza.acquire_finally, bind, try_except, try_except_else,
    Mozza.call, Mozza.lock_release.
  destruct (Sdk.end_acquisition sdk (Mozza.device w)) as [[u | code] d];
    simpl; rewrite Hl; destruct n; simpl;
    first [ exists true; eexists; repeat split; reflexivity
          | exists false; eexists; repeat split; reflexivity ].
Qed.

(** Whatever the [try] block does short of hanging, the [finally]
    clause has called [end_acquisition] last, an error of that call does
    not surface, and the lock is released. *)
Lemma acquire_locked_cleanup bound (w : Mozza.World HW) n :
  Mozza._lock w = Lock.HeldBySelf n ->
  (forall h, fst (Mozza.acquire_try sdk bound w) <> Hang h) ->
  let r := Mozza.acquire_locked sdk bound w in
  fst r = fst (Mozza.acquire_try sdk bound w)
  /\ (exists tr ok,
        Mozza.calls (snd r)
        = Mozza.calls w ++ tr ++ [(Sdk.Call_end_acquisition, ok)])
  /\ Mozza._lock (snd r) = released (Mozza._lock w).
Proof.
  intros Hl Hh r. unfold r, Mozza.acquire_locked, try_finally.
  pose proof (acquire_try_extends_trace bound w) as [tr Htr].
  pose proof (acquire_try_same_lock bound w) as Hsame.
  unfold same_lock in Hsame.
  destruct (Mozza.acquire_try sdk bound w) as [[a | e | h] w1] eqn:Htry;
    simpl in *.
  - destruct (acquire_finally_runs w1 (n := n)) as (ok & w2 & Hf & Hc & Hr);
      [congruence |].
    rewrite Hf. simpl. repeat split.
    + exists tr, ok. rewrite Hc, Htr, app_assoc. reflexivity.
    + rewrite Hr, Hsame. reflexivity.
  - destruct (acquire_finally_runs w1 (n := n)) as (ok & w2 & Hf & Hc & Hr);
      [congruence |].
    rewrite Hf. simpl. repeat split.
    + exists tr, ok. rewrite Hc, Htr, app_assoc. reflexivity.
    + rewrite Hr, Hsame. reflexivity.
  - exfalso. apply (Hh h). reflexivity.
Qed.

End Cleanup.

(* ================================================================== *)
(** * load_table: what holds of the retry policy, for every SDK *)
(* ================================================================== *)

(** ** A body followed step by step *)

Section Steps.
Context {S : Type}.

Lemma bind_ret_step A B (m : M S A) (k : A -> M S B) s a s1 :
  m s = (Ret a, s1) -> bind m k s = k a s1.
Proof. intros H. unfold bind. rewrite H. reflexivity. Qed.

Lemma try_except_else_ret_step A B (body : M S A) handles
    (handler : exn -> M S B) (orelse : A -> M S B) s a s1 :
  body s = (Ret a, s1) ->
  try_except_else body handles handler orelse s = orelse a s1.
Proof. intros H. unfold try_except_else. rewrite H. reflexivity. Qed.

Lemma try_except_else_caught_step A B (body : M S A) handles
    (handler : exn -> M S B) (orelse : A -> M S B) s e s1 :
  body s = (Raise e, s1) -> handles e = true ->
  try_except_else body handles handler orelse s = handler e s1.
Proof.
  intros H He. unfold try_except_else. rewrite H, He. reflexivity.
Qed.

Lemma try_finally_ret_step A (body : M S A) (final : M S unit) s a s1 s2 :
  body s = (Ret a, s1) -> final s1 = (Ret tt, s2) ->
  try_finally body final s = (Ret a, s2).
Proof. intros H Hf. unfold try_finally. rewrite H, Hf. reflexivity. Qed.

End Steps.

Section TableWrite.
Context {HW : Type} (sdk : Sdk.MozzaUSB HW).

Lemma call_ok_step A (c : Sdk.call) (f : Sdk.op HW A) (w : Mozza.World HW)
    a d :
  f (Mozza.device w) = (Sdk.Ok a, d) ->
  Mozza.call c f w
  = (Ret a,
     Mozza.set_calls (Mozza.calls w ++ [(c, true)]) (Mozza.set_device d w)).
Proof. intros H. unfold Mozza.call. rewrite H. reflexivity. Qed.

Lemma call_failed_step A (c : Sdk.call) (f : Sdk.op HW A)
    (w : Mozza.World HW) code d :
  f (Mozza.device w) = (Sdk.Failed code, d) ->
  Mozza.call c f w
  = (Raise (MozzaError code),
     Mozza.set_calls (Mozza.calls w ++ [(c, false)]) (Mozza.set_device d w)).
Proof. intros H. unfold Mozza.call. rewrite H. reflexivity. Qed.

Lemma acquire_then_release l :
  l <> Lock.HeldByOther ->
  fst (Lock.acquire l) = Ret tt
  /\ Lock.release (snd (Lock.acquire l)) = (Ret tt, l).
Proof. destruct l as [| n |]; simpl; intros H; [auto | auto | congruence]. Qed.

(** A [with] block whose body returns with the lock as it got it. *)
Lemma with_lock_ret_step A (body : M (Mozza.World HW) A)
    (w : Mozza.World HW) a s :
  Mozza._lock w <> Lock.HeldByOther ->
  body (Mozza.set_lock (snd (Lock.acquire (Mozza._lock w))) w) = (Ret a, s) ->
  Mozza._lock s = snd (Lock.acquire (Mozza._lock w)) ->
  Mozza.with_lock body w = (Ret a, Mozza.set_lock (Mozza._lock w) s).
Proof.
  intros Hfree Hb Hl.
  destruct (acquire_then_release Hfree) as [Hacq Hrel].
  unfold Mozza.with_lock.
  rewrite bind_ret_step
    with (a := tt)
         (s1 := Mozza.set_lock (snd (Lock.acquire (Mozza._lock w))) w).
  - eapply try_finally_ret_step; [exact Hb |].
    unfold Mozza.lock_release. rewrite Hl, Hrel. reflexivity.
  - unfold Mozza.lock_acquire.
    destruct (Lock.acquire (Mozza._lock w)) as [o l']. simpl in *.
    subst. reflexivity.
Qed.

Lemma requested_table_window start stop (w : Mozza.World HW) wnums :
  Mozza.window_wavenumbers (Spectro._lambdas (Mozza.spectro w)) start stop
  = inr wnums ->
  Mozza.requested_table start stop None w
  = (Ret wnums,
     Mozza.set_table_window
       {| Spectro.start := start; Spectro.stop := stop |} w).
Proof.
  intros H. unfold Mozza.requested_table.
  erewrite bind_ret_step by reflexivity.
  erewrite bind_ret_step by reflexivity.
  cbn. rewrite H. reflexivity.
Qed.

Lemma requested_table_given start stop (w : Mozza.World HW) wnums first last :
  Np.item wnums 0 = inr first ->
  Np.item wnums (-1) = inr last ->
  Mozza.requested_table start stop (Some wnums) w
  = (Ret wnums,
     Mozza.set_table_window
       {| Spectro.start := PFloat (Np.inv_1e7 first);
          Spectro.stop := PFloat (Np.inv_1e7 last) |} w).
Proof.
  intros Hf Hl. unfold Mozza.requested_table.
  rewrite Hf, Hl. reflexivity.
Qed.

Lemma reallocate_step wnums (w : Mozza.World HW) size d :
  Mozza.correct_amplitude w = None ->
  Sdk.get_raw_data_size sdk (Sdk.table_length sdk (Mozza.device w))
    (Mozza.device w) = (Sdk.Ok size, d) ->
  0 <= size ->
  Mozza.reallocate sdk wnums w
  = (Ret tt,
     Mozza.set_buffer (repeat Byte.x00 (Z.to_nat size))
       (Mozza.set_calls
          (Mozza.calls w
           ++ [(Sdk.Call_get_raw_data_size
                  (Sdk.table_length sdk (Mozza.device w)), true)])
          (Mozza.set_device d w))).
Proof.
  intros Hc Hsize Hpos. unfold Mozza.reallocate.
  erewrite bind_ret_step by reflexivity.
  erewrite bind_ret_step by (apply call_ok_step; exact Hsize).
  unfold Np.zeros_uint8.
  destruct (size <? 0) eqn:Hneg; [apply Z.ltb_lt in Hneg; lia |].
  erewrite bind_ret_step by reflexivity.
  erewrite bind_ret_step by reflexivity.
  erewrite bind_ret_step by reflexivity.
  cbn. rewrite Hc. reflexivity.
Qed.

(** The write goes through at once: one write, and the buffer is
    reallocated to the size the SDK reports for the table length. *)
Lemma load_table_write_accepted depth start stop wnums
    (w wA : Mozza.World HW) table d1 size d2 :
  Mozza.requested_table start stop wnums w = (Ret table, wA) ->
  Mozza._lock wA <> Lock.HeldByOther ->
  Mozza.correct_amplitude wA = None ->
  Sdk.set_wavenumber_array sdk table (Mozza.device wA) = (Sdk.Ok tt, d1) ->
  Sdk.get_raw_data_size sdk (Sdk.table_length sdk d1) d1 = (Sdk.Ok size, d2) ->
  0 <= size ->
  exists w',
    Mozza.load_table sdk (S depth) start stop wnums w = (Ret tt, w')
    /\ Mozza.buffer w' = repeat Byte.x00 (Z.to_nat size)
    /\ Mozza.calls w'
       = Mozza.calls wA
         ++ [(Sdk.Call_set_wavenumber_array table, true);
             (Sdk.Call_get_raw_data_size (Sdk.table_length sdk d1), true)]
    /\ Mozza._lock w' = Mozza._lock wA.
Proof.
  intros HA Hfree Hc Hwrite Hsize Hpos.
  eexists. split.
  - cbn [Mozza.load_table].
    erewrite bind_ret_step by exact HA.
    erewrite bind_ret_step; cycle 1.
    { eapply with_lock_ret_step; [exact Hfree | |].
      - erewrite try_except_else_ret_step
          by (apply call_ok_step; cbn; exact Hwrite).
        reflexivity.
      - reflexivity. }
    cbn iota.
    eapply reallocate_step; cbn; eassumption.
  - cbn. rewrite <- app_assoc. repeat split.
Qed.

(** The write is refused and [end_acquisition] answers: whatever the
    nested [load_table] does, the call leaves the trace where the
    nested call has left it. *)
Lemma load_table_refused_trace depth start stop wnums
    (w wA : Mozza.World HW) table code d1 d2 :
  Mozza.requested_table start stop wnums w = (Ret table, wA) ->
  Mozza._lock wA <> Lock.HeldByOther ->
  Sdk.set_wavenumber_array sdk table (Mozza.device wA)
  = (Sdk.Failed code, d1) ->
  Sdk.end_acquisition sdk d1 = (Sdk.Ok tt, d2) ->
  let nested_from :=
    Mozza.set_calls
      ((Mozza.calls wA ++ [(Sdk.Call_set_wavenumber_array table, false)])
       ++ [(Sdk.Call_end_acquisition, true)])
      (Mozza.set_device d2
         (Mozza.set_lock (snd (Lock.acquire (Mozza._lock wA))) wA)) in
  Mozza.calls (snd (Mozza.load_table sdk (S depth) start stop wnums w))
  = Mozza.calls
      (snd (Mozza.load_table sdk depth start stop (Some table) nested_from)).
Proof.
  intros HA Hfree Hwrite Hend nested_from.
  destruct (acquire_then_release Hfree) as [Hacq _].
  cbn [Mozza.load_table].
  erewrite bind_ret_step by exact HA.
  unfold bind at 1. unfold Mozza.with_lock at 1.
  erewrite bind_ret_step
    with (a := tt)
         (s1 := Mozza.set_lock (snd (Lock.acquire (Mozza._lock wA))) wA);
    cycle 1.
  { unfold Mozza.lock_acquire.
    destruct (Lock.acquire (Mozza._lock wA)) as [o l']. simpl in *.
    subst. reflexivity. }
  unfold try_finally at 1.
  erewrite try_except_else_caught_step; cycle 1.
  { apply call_failed_step. cbn. exact Hwrite. }
  { reflexivity. }
  unfold try_except_else at 1.
  erewrite bind_ret_step; cycle 1.
  { apply call_ok_step. cbn. exact Hend. }
  match goal with
  | |- context [Mozza.load_table sdk depth start stop (Some table) ?s] =>
      change s with nested_from
  end.
  destruct (Mozza.load_table sdk depth start stop (Some table) nested_from)
    as [[u | e | h] sY]; unfold Mozza.lock_release, ret, raise;
    cbv beta iota.
  - destruct (Lock.release (Mozza._lock sY)) as [[u' | e' | h'] l'];
      reflexivity.
  - destruct (is_MozzaError e); cbv beta iota;
      destruct (Lock.release (Mozza._lock sY)) as [[u' | e' | h'] l'];
      reflexivity.
  - reflexivity.
Qed.

(** The first thing a [load_table] does to the instrument, once the
    table is known and the lock can be taken, is a table write. *)
Lemma load_table_writes_first depth start stop wnums
    (w wA : Mozza.World HW) table :
  Mozza.requested_table start stop wnums w = (Ret table, wA) ->
  Mozza._lock wA <> Lock.HeldByOther ->
  exists ok rest,
    Mozza.calls (snd (Mozza.load_table sdk (S depth) start stop wnums w))
    = Mozza.calls wA
      ++ (Sdk.Call_set_wavenumber_array table, ok) :: rest.
Proof.
  intros HA Hfree.
  destruct (acquire_then_release Hfree) as [Hacq Hrel].
  destruct (Sdk.set_wavenumber_array sdk table (Mozza.device wA))
    as [[[] | code] d1] eqn:Hwrite.
  - exists true.
    assert (Hre : frames trace_extends (Mozza.reallocate sdk table))
      by (apply frames_reallocate; extends_side).
    cbn [Mozza.load_table].
    erewrite bind_ret_step by exact HA.
    erewrite bind_ret_step; cycle 1.
    { eapply with_lock_ret_step; [exact Hfree | |].
      - erewrite try_except_else_ret_step
          by (apply call_ok_step; cbn; exact Hwrite).
        reflexivity.
      - reflexivity. }
    cbn iota.
    match goal with
    | |- context [Mozza.reallocate sdk table ?s] =>
        destruct (Hre s) as [rest Hrest]
    end.
    exists rest. rewrite Hrest.
    cbn [Mozza.calls Mozza.set_calls Mozza.set_lock Mozza.set_device].
    rewrite <- app_assoc. reflexivity.
  - exists false.
    destruct (Sdk.end_acquisition sdk d1) as [[[] | code'] d2] eqn:Hend.
    + erewrite load_table_refused_trace; cycle 1.
      { exact HA. }
      { exact Hfree. }
      { exact Hwrite. }
      { exact Hend. }
      assert (Hin : frames trace_extends
                      (Mozza.load_table sdk depth start stop (Some table)))
        by (apply frames_load_table; extends_side).
      match goal with
      | |- context [Mozza.load_table sdk depth start stop (Some table) ?s] =>
          destruct (Hin s) as [rest Hrest]
      end.
      rewrite Hrest. cbn [Mozza.calls Mozza.set_calls].
      rewrite <- !app_assoc. cbn [app]. eexists. reflexivity.
    + cbn [Mozza.load_table].
      erewrite bind_ret_step by exact HA.
      unfold bind at 1. unfold Mozza.with_lock at 1.
      erewrite bind_ret_step
        with (a := tt)
             (s1 := Mozza.set_lock (snd (Lock.acquire (Mozza._lock wA))) wA);
        cycle 1.
      { unfold Mozza.lock_acquire.
        destruct (Lock.acquire (Mozza._lock wA)) as [o l']. simpl in *.
        subst. reflexivity. }
      unfold try_finally at 1.
      erewrite try_except_else_caught_step; cycle 1.
      { apply call_failed_step. cbn. exact Hwrite. }
      { reflexivity. }
      unfold try_except_else at 1. unfold bind at 1.
      erewrite call_failed_step by (cbn; exact Hend).
      unfold Mozza.lock_release, raise. cbn. rewrite Hrel. cbn.
      rewrite <- app_assoc. cbn [app]. eexists. reflexivity.
Qed.

(** The retry is refused as well and [end_acquisition] answers both
    times: a third write follows, where a [SpectroError] is expected. *)
Lemma load_table_second_refusal_goes_on depth start stop
    (w : Mozza.World HW) table first last code1 d1 d2 code2 d3 d4 :
  Mozza._lock w = Lock.Unlocked ->
  Mozza.window_wavenumbers (Spectro._lambdas (Mozza.spectro w)) start stop
  = inr table ->
  Np.item table 0 = inr first ->
  Np.item table (-1) = inr last ->
  Sdk.set_wavenumber_array sdk table (Mozza.device w)
  = (Sdk.Failed code1, d1) ->
  Sdk.end_acquisition sdk d1 = (Sdk.Ok tt, d2) ->
  Sdk.set_wavenumber_array sdk table d2 = (Sdk.Failed code2, d3) ->
  Sdk.end_acquisition sdk d3 = (Sdk.Ok tt, d4) ->
  exists ok rest,
    Mozza.calls
      (snd (Mozza.load_table sdk (S (S (S depth))) start stop None w))
    = Mozza.calls w
      ++ [(Sdk.Call_set_wavenumber_array table, false);
          (Sdk.Call_end_acquisition, true);
          (Sdk.Call_set_wavenumber_array table, false);
          (Sdk.Call_end_acquisition, true);
          (Sdk.Call_set_wavenumber_array table, ok)] ++ rest.
Proof.
  intros Hl Hw Hfirst Hlast Hw1 Hend1 Hw2 Hend2.
  erewrite load_table_refused_trace; cycle 1.
  { apply requested_table_window. exact Hw. }
  { cbn. rewrite Hl. discriminate. }
  { cbn. exact Hw1. }
  { exact Hend1. }
  erewrite load_table_refused_trace; cycle 1.
  { apply (requested_table_given _ _ _ _ Hfirst Hlast). }
  { cbn. rewrite Hl. discriminate. }
  { cbn. exact Hw2. }
  { exact Hend2. }
  match goal with
  | |- context [Mozza.load_table sdk _ _ _ (Some table) ?s] =>
      edestruct load_table_writes_first
        with (depth := depth) (start := start) (stop := stop) (w := s)
        as (ok & rest & Hcalls)
  end.
  { apply (requested_table_given _ _ _ _ Hfirst Hlast). }
  { cbn. rewrite Hl. discriminate. }
  rewrite Hcalls. cbn [Mozza.calls Mozza.set_calls Mozza.set_table_window
                       Mozza.set_device Mozza.set_lock].
  rewrite <- !app_assoc. cbn [app]. exists ok, rest. reflexivity.
Qed.

End TableWrite.

(* ================================================================== *)
(** * read_raw *)
(* ================================================================== *)

Section ReadRaw.
Context {HW : Type} (sdk : Sdk.MozzaUSB HW).





End ReadRaw.




(* ================================================================== *)
(** * The amplitude correction applied by _acquire_spectrum *)
(* ================================================================== *)

(** ** What a normal return tells about the steps of a body *)

Section Returns.
Context {S : Type}.

Lemma bind_returns A B (m : M S A) (k : A -> M S B) s b s' :
  bind m k s = (Ret b, s') ->
  exists a s1, m s = (Ret a, s1) /\ k a s1 = (Ret b, s').
Proof.
  unfold bind. destruct (m s) as [[a | e | h] s1]; intros H;
    try discriminate. exists a, s1. split; [reflexivity | exact H].
Qed.

Lemma try_finally_returns A (body : M S A) (final : M S unit) s a s' :
  try_finally body final s = (Ret a, s') ->
  exists s1, body s = (Ret a, s1) /\ final s1 = (Ret tt, s').
Proof.
  unfold try_finally. destruct (body s) as [[a' | e | h] s1]; intros H;
    try discriminate;
    destruct (final s1) as [[[] | e' | h'] s2] eqn:Hf; try discriminate.
  injection H as <- <-. exists s1. split; [reflexivity | exact Hf].
Qed.

Lemma try_except_else_returns A B (body : M S A) handles
    (handler : exn -> M S B) (orelse : A -> M S B) s b s' :
  try_except_else body handles handler orelse s = (Ret b, s') ->
  (exists a s1, body s = (Ret a, s1) /\ orelse a s1 = (Ret b, s'))
  \/ (exists e s1, body s = (Raise e, s1) /\ handles e = true
                   /\ handler e s1 = (Ret b, s')).
Proof.
  unfold try_except_else. destruct (body s) as [[a | e | h] s1]; intros H.
  - left. exists a, s1. split; [reflexivity | exact H].
  - destruct (handles e) eqn:He; [| discriminate].
    right. exists e, s1. repeat split; assumption.
  - discriminate.
Qed.

Lemma lift_returns A (r : exn + A) (s : S) a s' :
  lift r s = (Ret a, s') -> r = inr a /\ s' = s.
Proof.
  destruct r as [e | a']; simpl; intros H; [discriminate |].
  injection H as <- <-. split; reflexivity.
Qed.

End Returns.

Section Correction.
Context {HW : Type} (sdk : Sdk.MozzaUSB HW).

Lemma call_returns A (c : Sdk.call) (f : Sdk.op HW A) (w : Mozza.World HW)
    a w' :
  Mozza.call c f w = (Ret a, w') ->
  exists d,
    w' = Mozza.set_calls (Mozza.calls w ++ [(c, true)]) (Mozza.set_device d w).
Proof.
  unfold Mozza.call. destruct (f (Mozza.device w)) as [[a' | code] d];
    intros H; [| discriminate].
  injection H as <- <-. exists d. reflexivity.
Qed.

Lemma call_raises A (c : Sdk.call) (f : Sdk.op HW A) (w : Mozza.World HW)
    e w' :
  Mozza.call c f w = (Raise e, w') ->
  exists d,
    w' = Mozza.set_calls (Mozza.calls w ++ [(c, false)]) (Mozza.set_device d w).
Proof.
  unfold Mozza.call. destruct (f (Mozza.device w)) as [[a' | code] d];
    intros H; [discriminate |].
  injection H as <- <-. exists d. reflexivity.
Qed.

Lemma programmed_table_app tr tr' :
  Sdk.programmed_table (tr ++ tr')
  = match Sdk.programmed_table tr' with
    | Some t => Some t
    | None => Sdk.programmed_table tr
    end.
Proof.
  induction tr as [| [c ok] tr IH]; simpl.
  - destruct (Sdk.programmed_table tr'); reflexivity.
  - rewrite IH. destruct (Sdk.programmed_table tr'); reflexivity.
Qed.

Lemma programmed_table_other tr c ok :
  (forall wnums, c <> Sdk.Call_set_wavenumber_array wnums) ->
  Sdk.programmed_table (tr ++ [(c, ok)]) = Sdk.programmed_table tr.
Proof.
  intros Hc. rewrite programmed_table_app. simpl.
  destruct c; try reflexivity. exfalso. eapply Hc. reflexivity.
Qed.

Lemma programmed_table_written tr wnums :
  Sdk.programmed_table (tr ++ [(Sdk.Call_set_wavenumber_array wnums, true)])
  = Some wnums.
Proof. rewrite programmed_table_app. reflexivity. Qed.

Lemma programmed_table_refused tr wnums :
  Sdk.programmed_table (tr ++ [(Sdk.Call_set_wavenumber_array wnums, false)])
  = Sdk.programmed_table tr.
Proof. rewrite programmed_table_app. reflexivity. Qed.

Lemma same_correction_refl (w : Mozza.World HW) : same_correction w w.
Proof. repeat split. Qed.

Lemma same_correction_trans (a b c : Mozza.World HW) :
  same_correction a b -> same_correction b c -> same_correction a c.
Proof.
  unfold same_correction. intros (H1 & H2 & H3) (H4 & H5 & H6).
  repeat split; congruence.
Qed.

Lemma same_correction_current (w w' : Mozza.World HW) :
  same_correction w w' -> correction_is_current w -> correction_is_current w'.
Proof.
  unfold same_correction, correction_is_current.
  intros (H1 & H2 & H3) Hc f t Hf Ht. rewrite H3.
  apply Hc; congruence.
Qed.

Ltac correction_side :=
  first [ exact same_correction_refl
        | exact same_correction_trans
        | intros; repeat split; simpl;
          first [ reflexivity | apply programmed_table_other; assumption ] ].

(** The [try] block and the [finally] clause write no table and touch
    neither the correction function nor the cached array. *)
Lemma acquire_locked_same_correction bound :
  frames same_correction (Mozza.acquire_locked sdk bound).
Proof. apply frames_acquire_locked; correction_side. Qed.

Lemma lock_try_acquire_same_correction :
  frames same_correction (@Mozza.lock_try_acquire HW).
Proof. apply frames_lock_try_acquire; correction_side. Qed.

End Correction.

Section Refresh.
Context {HW : Type} (sdk : Sdk.MozzaUSB HW).

Lemma lock_release_returns (w w' : Mozza.World HW) :
  Mozza.lock_release w = (Ret tt, w') ->
  exists l, w' = Mozza.set_lock l w.
Proof.
  unfold Mozza.lock_release.
  destruct (Lock.release (Mozza._lock w)) as [o l]. intros H.
  injection H as _ <-. exists l. reflexivity.
Qed.

Lemma with_lock_returns A (body : M (Mozza.World HW) A) w a w' :
  Mozza.with_lock body w = (Ret a, w') ->
  exists l1 s l2,
    body (Mozza.set_lock l1 w) = (Ret a, s) /\ w' = Mozza.set_lock l2 s.
Proof.
  unfold Mozza.with_lock. intros H.
  apply bind_returns in H as ([] & w1 & Hacq & H).
  apply try_finally_returns in H as (s & Hbody & Hrel).
  apply lock_release_returns in Hrel as (l2 & ->).
  unfold Mozza.lock_acquire in Hacq.
  destruct (Lock.acquire (Mozza._lock w)) as [o l1].
  injection Hacq as _ <-.
  exists l1, s, l2. split; [exact Hbody | reflexivity].
Qed.

(** What follows the [with] block of [load_table] when the write has
    gone through: the buffer is reallocated and, if a correction
    function is in place, the cached array is computed from it at the
    table just written. *)
Lemma reallocate_refreshes wnums (w w' : Mozza.World HW) :
  Sdk.programmed_table (Mozza.calls w) = Some wnums ->
  Mozza.reallocate sdk wnums w = (Ret tt, w') ->
  correction_is_current w'.
Proof.
  intros Htable H. unfold Mozza.reallocate in H.
  apply bind_returns in H as (npoints & w1 & H1 & H).
  injection H1 as <- <-.
  apply bind_returns in H as (size & w2 & H2 & H).
  apply call_returns in H2 as (d & ->).
  apply bind_returns in H as (buf & w3 & H3 & H).
  apply lift_returns in H3 as (_ & ->).
  apply bind_returns in H as ([] & w4 & H4 & H).
  injection H4 as <-.
  apply bind_returns in H as (f & w5 & H5 & H).
  injection H5 as Hcorrect <-. simpl in Hcorrect.
  assert (Htable' :
    Sdk.programmed_table
      (Mozza.calls w ++ [(Sdk.Call_get_raw_data_size
                            (Sdk.table_length sdk (Mozza.device w)), true)])
    = Some wnums).
  { rewrite programmed_table_other; [exact Htable | intros ?; discriminate]. }
  destruct f as [f |].
  - apply bind_returns in H as (amp & w6 & H6 & H).
    apply lift_returns in H6 as (Hamp & ->).
    injection H as <-.
    intros f' t Hf Ht. simpl in *.
    rewrite Htable' in Ht. injection Ht as <-.
    rewrite Hcorrect in Hf. injection Hf as <-.
    exists amp. split; [reflexivity | exact Hamp].
  - injection H as <-.
    intros f' t Hf Ht. simpl in Hf. rewrite Hcorrect in Hf. discriminate.
Qed.

(** A [load_table] that returns has left the cached array in step with
    the correction function and the table it has written. *)
Lemma load_table_refreshes_correction depth :
  forall start stop wnums (w w' : Mozza.World HW),
    Mozza.load_table sdk depth start stop wnums w = (Ret tt, w') ->
    correction_is_current w'.
Proof.
  induction depth as [| depth IH]; intros start stop wnums w w' H; simpl in H.
  - discriminate.
  - apply bind_returns in H as (wn & wA & _ & H).
    apply bind_returns in H as (returned & wB & Hwith & H).
    apply with_lock_returns in Hwith as (l1 & s & l2 & Hbody & ->).
    apply try_except_else_returns in Hbody
      as [(u & s1 & Hwrite & Helse) | (e & s1 & Hwrite & _ & Hhandler)].
    + injection Helse as <- <-.
      apply call_returns in Hwrite as (d & ->).
      eapply reallocate_refreshes; [| exact H].
      simpl. apply programmed_table_written.
    + apply try_except_else_returns in Hhandler
        as [(u & s2 & Hretry & Helse) | (e' & s2 & _ & _ & Hraise)];
        [| discriminate].
      injection Helse as <- <-.
      apply bind_returns in Hretry as (u' & s3 & _ & Hinner).
      destruct u. apply IH in Hinner.
      injection H as <-.
      intros f t Hf Ht. simpl in *. apply Hinner; assumption.
Qed.

End Refresh.

Section Applied.
Context {HW : Type} (sdk : Sdk.MozzaUSB HW).

Ltac flag_eq_side :=
  unfold same_flag; intros; first [ reflexivity | congruence ].

Lemma reprogram_same_flag depth :
  frames same_flag (Mozza.reprogram_if_needed sdk depth).
Proof. apply frames_reprogram_if_needed; flag_eq_side. Qed.

Lemma acquire_locked_same_flag bound :
  frames same_flag (Mozza.acquire_locked sdk bound).
Proof. apply frames_acquire_locked; flag_eq_side. Qed.

Lemma lock_try_acquire_takes (w : Mozza.World HW) :
  Mozza._lock w <> Lock.HeldByOther ->
  fst (Mozza.lock_try_acquire w) = Ret true.
Proof.
  unfold Mozza.lock_try_acquire.
  destruct (Mozza._lock w); simpl; congruence.
Qed.

Lemma reprogram_makes_current depth (w w0 : Mozza.World HW) :
  Mozza.reprogram_if_needed sdk depth w = (Ret tt, w0) ->
  correction_is_current w \/ window_changed w = true ->
  correction_is_current w0.
Proof.
  unfold Mozza.reprogram_if_needed, bind, gets. simpl.
  change (py_neb (Spectro.start (Mozza._acquisition w))
            (Spectro.start (Spectro.acquisition (Mozza.spectro w)))
          || py_neb (Spectro.stop (Mozza._acquisition w))
               (Spectro.stop (Spectro.acquisition (Mozza.spectro w))))
    with (window_changed w).
  destruct (window_changed w).
  - intros H _. eapply load_table_refreshes_correction. exact H.
  - intros H [Hc | Hc]; [| discriminate].
    injection H as <-. exact Hc.
Qed.

End Applied.

(** C5, as stated, fails. The instrument 12 is connected with its
    correction file (amplitude 2), the caller switches the correction on
    and acquires the window [(0, 2)]; then the caller changes the serial
    to 13, whose file gives the amplitude 3. The next acquisition of the
    same window does not reprogram the table, so the array computed with
    the function of the instrument 12 is still in place: the spectrum of
    ones comes back multiplied by 2, while the correction function in
    place, evaluated at the table programmed, gives 3. *)
Lemma acquire_spectrum_uses_stale_correction :
  let w := Sim.reconnected_to_13 in
  let r := Mozza._acquire_spectrum Sim.sdk 8 8 false w in
  Mozza.apply_amp_correction w = true
  /\ fst r = Ret (Some [2; 2; 2]%float)
  /\ Sdk.programmed_table (Mozza.calls (snd r))
     = Some [12500; 12497; 12494]%float
  /\ option_map
       (fun f => Mozza.apply_correction f [12500; 12497; 12494]%float)
       (Mozza.correct_amplitude (snd r))
     = Some (inr [3; 3; 3]%float).
Proof. vm_compute. repeat split. Qed.

(** C5, amended. In a call of [_acquire_spectrum] that gets past the
    table check, takes the lock and obtains the processed spectrum
    [spec]: with [apply_amp_correction = False] the call returns [spec]
    unchanged; with [apply_amp_correction = True] it returns
    [spec * amp_correction], the product element by element with the
    cached array. The cached array is the correction function in place
    evaluated at the table programmed whenever that was so before the
    call, or the call has reprogrammed the table. *)
Theorem acquire_spectrum_applies_cached_correction :
  forall (HW : Type) (sdk : Sdk.MozzaUSB HW) (depth bound : nat)
         (background_mode : bool) (w w0 w1 : Mozza.World HW)
         (spec : list float),
    Mozza.reprogram_if_needed sdk depth w = (Ret tt, w0) ->
    Mozza._lock w0 <> Lock.HeldByOther ->
    Mozza.acquire_locked sdk bound (snd (Mozza.lock_try_acquire w0))
    = (Ret (Some spec), w1) ->
    let r := Mozza._acquire_spectrum sdk depth bound background_mode w in
    (Mozza.apply_amp_correction w = false -> r = (Ret (Some spec), w1))
    /\ (Mozza.apply_amp_correction w = true ->
        r = lift (Np.mul (Some spec) (Mozza.amp_correction w1)) w1
        /\ forall amp,
             Mozza.amp_correction w1 = Some amp ->
             List.length spec = List.length amp ->
             r = (Ret (Some (Np.map2 PrimFloat.mul spec amp)), w1))
    /\ (correction_is_current w \/ window_changed w = true ->
        correction_is_current w1).
Proof.
  intros HW sdk depth bound background_mode w w0 w1 spec Hprog Hlock Hacq r.
  assert (Hflag : Mozza.apply_amp_correction w1 = Mozza.apply_amp_correction w).
  { pose proof (reprogram_same_flag sdk depth w) as H0.
    pose proof (acquire_locked_same_flag sdk bound
                  (snd (Mozza.lock_try_acquire w0))) as H1.
    unfold same_flag in *. rewrite Hprog in H0. rewrite Hacq in H1.
    simpl in *. rewrite H1, <- H0.
    unfold Mozza.lock_try_acquire.
    destruct (Lock.try_acquire (Mozza._lock w0)); reflexivity. }
  assert (Hr : r = Mozza.corrected (Some spec) w1).
  { unfold r, Mozza._acquire_spectrum. unfold bind at 1. rewrite Hprog.
    unfold bind at 1.
    pose proof (lock_try_acquire_takes w0 Hlock) as Htake.
    destruct (Mozza.lock_try_acquire w0) as [o w0'] eqn:Htry.
    simpl in Htake, Hacq. subst o.
    unfold bind at 1. rewrite Hacq. reflexivity. }
  split; [| split].
  - intros Hoff. rewrite Hr. unfold Mozza.corrected, bind, gets. simpl.
    rewrite Hflag, Hoff. reflexivity.
  - intros Hon.
    assert (Hmul : r = lift (Np.mul (Some spec) (Mozza.amp_correction w1)) w1).
    { rewrite Hr. unfold Mozza.corrected, bind, gets. simpl.
      rewrite Hflag, Hon. reflexivity. }
    split; [exact Hmul |].
    intros amp Hamp Hlen. rewrite Hmul, Hamp. simpl.
    unfold Np.multiply. rewrite Hlen, Nat.eqb_refl. reflexivity.
  - intros Hcur.
    pose proof (reprogram_makes_current sdk depth Hprog Hcur) as H0.
    pose proof (lock_try_acquire_same_correction w0) as H1.
    pose proof (acquire_locked_same_correction sdk bound
                  (snd (Mozza.lock_try_acquire w0))) as H2.
    rewrite Hacq in H2. simpl in H2.
    eapply same_correction_current; [exact H2 |].
    eapply same_correction_current; [exact H1 | exact H0].
Qed.

(** The theorem at work: the instrument 12 with its correction file,
    the correction switched on, the window [(0, 2)] asked for. The call
    reprograms the table and returns the spectrum of ones multiplied by
    the amplitude 2. *)
Lemma acquire_spectrum_applies_cached_correction_witness :
  let w := Sim.switch_on
             (request 0 2 (Sim.connected Sim.healthy Sim.two_files)) in
  fst (Mozza._acquire_spectrum Sim.sdk 8 8 false w)
  = Ret (Some [2; 2; 2]%float).
Proof.
  intros w.
  pose (w0 := snd (Mozza.reprogram_if_needed Sim.sdk 8 w)).
  pose (w1 := snd (Mozza.acquire_locked Sim.sdk 8
                     (snd (Mozza.lock_try_acquire w0)))).
  destruct (@acquire_spectrum_applies_cached_correction
              Sim.Instrument Sim.sdk 8 8 false w w0 w1 [1; 1; 1]%float)
    as (_ & Hon & _).
  - vm_compute. reflexivity.
  - vm_compute. discriminate.
  - vm_compute. reflexivity.
  - destruct Hon as [Hmul _]; [vm_compute; reflexivity |].
    rewrite Hmul. vm_compute. reflexivity.
Defined.

(* ================================================================== *)
(** * Further properties of the backend and of the viewer *)
(* ================================================================== *)

Import Facts.
(* ================================================================== *)
(** * get_serials and connect_device: the serial strings *)
(* ================================================================== *)

Section SerialStrings.

Lemma string_of_uint_digits d :
  all_digits (NilEmpty.string_of_uint d) = true.
Proof. induction d; simpl; auto. Qed.

Lemma digit_not_space c d : digit_of c = Some d -> is_space c = false.
Proof.
  unfold digit_of, is_space. intros H.
  destruct ((48 <=? nat_of_ascii c)%nat && (nat_of_ascii c <=? 57)%nat)
    eqn:E; [| discriminate].
  apply andb_true_iff in E as [E1 E2].
  apply Nat.leb_le in E1, E2.
  rewrite !orb_false_iff. repeat split.
  - apply andb_false_iff. right. apply Nat.leb_gt. lia.
  - apply Nat.eqb_neq. lia.
  - apply Nat.eqb_neq. lia.
  - apply Nat.eqb_neq. lia.
Qed.

Lemma digit_not_hash c d : digit_of c = Some d -> Ascii.eqb c "#" = false.
Proof.
  intros H. destruct (Ascii.eqb c "#") eqn:E; [| reflexivity].
  apply Ascii.eqb_eq in E. subst. discriminate H.
Qed.

Lemma rstrip_digits s : all_digits s = true -> rstrip s = s.
Proof.
  induction s as [| c rest IH]; simpl; intros H; [reflexivity |].
  destruct (digit_of c) as [d |] eqn:Hd; [| discriminate].
  rewrite (IH H). destruct rest; [| reflexivity].
  rewrite (digit_not_space _ Hd). reflexivity.
Qed.

Lemma contains_digits s : all_digits s = true -> contains "#" s = false.
Proof.
  induction s as [| c rest IH]; simpl; intros H; [reflexivity |].
  destruct (digit_of c) as [d |] eqn:Hd; [| discriminate].
  rewrite (digit_not_hash _ Hd), (IH H). reflexivity.
Qed.

Lemma parse_digits_step c k rest acc prev :
  digit_of c = Some k ->
  parse_digits (String c rest) acc prev = parse_digits rest (10 * acc + k) true.
Proof. intros H. cbn [parse_digits]. rewrite H. reflexivity. Qed.

(** Reading the digits of a numeral gives its value back. *)
Lemma parse_digits_acc d p :
  parse_digits (NilEmpty.string_of_uint d) (Z.pos p) true
  = Some (Z.pos (Pos.of_uint_acc d p)).
Proof.
  revert p.
  induction d; intros p;
    cbn [NilEmpty.string_of_uint Pos.of_uint_acc]; [reflexivity | ..];
    erewrite parse_digits_step by (vm_compute; reflexivity);
    rewrite <- IHd; f_equal; lia.
Qed.

Lemma parse_digits_zero d prev :
  d <> Decimal.Nil \/ prev = true ->
  parse_digits (NilEmpty.string_of_uint d) 0 prev
  = Some (Z.of_N (Pos.of_uint d)).
Proof.
  revert prev.
  induction d; intros prev H;
    cbn [NilEmpty.string_of_uint Pos.of_uint];
    try (erewrite parse_digits_step by (vm_compute; reflexivity)).
  - destruct H as [H | ->]; [congruence | reflexivity].
  - apply IHd. right. reflexivity.
  - apply (parse_digits_acc d 1).
  - apply (parse_digits_acc d 2).
  - apply (parse_digits_acc d 3).
  - apply (parse_digits_acc d 4).
  - apply (parse_digits_acc d 5).
  - apply (parse_digits_acc d 6).
  - apply (parse_digits_acc d 7).
  - apply (parse_digits_acc d 8).
  - apply (parse_digits_acc d 9).
Qed.

(** [int] on a string of digits reads the digits. *)
Lemma int_of_str_digits c rest :
  all_digits (String c rest) = true ->
  int_of_str (String c rest)
  = match parse_digits (String c rest) 0 false with
    | Some z => inr z
    | None => inl (ValueError (InvalidLiteral (String c rest)))
    end.
Proof.
  intros Hall. unfold int_of_str.
  assert (Hc : exists k, digit_of c = Some k).
  { simpl in Hall. destruct (digit_of c) as [k |]; [eauto | discriminate]. }
  destruct Hc as [k Hk].
  assert (Hstrip : rstrip (lstrip (String c rest)) = String c rest).
  { cbn [lstrip]. rewrite (digit_not_space _ Hk).
    apply rstrip_digits, Hall. }
  rewrite Hstrip. cbv zeta.
  destruct c as [b0 b1 b2 b3 b4 b5 b6 b7].
  destruct b0, b1, b2, b3, b4, b5, b6, b7;
    try (vm_compute in Hk; discriminate Hk); reflexivity.
Qed.

Lemma int_of_str_uint d :
  d <> Decimal.Nil ->
  int_of_str (NilEmpty.string_of_uint d) = inr (Z.of_N (Pos.of_uint d)).
Proof.
  intros Hd.
  pose proof (string_of_uint_digits d) as Hall.
  pose proof (parse_digits_zero (d := d) (prev := false) (or_introl Hd))
    as Hparse.
  destruct (NilEmpty.string_of_uint d) as [| c rest] eqn:E.
  - destruct d; [congruence | ..]; discriminate E.
  - rewrite int_of_str_digits by exact Hall. rewrite Hparse. reflexivity.
Qed.

Lemma int_of_str_negative d :
  d <> Decimal.Nil ->
  int_of_str (String "-" (NilEmpty.string_of_uint d))
  = inr (- Z.of_N (Pos.of_uint d)).
Proof.
  intros Hd. unfold int_of_str.
  pose proof (string_of_uint_digits d) as Hall.
  pose proof (parse_digits_zero (d := d) (prev := false) (or_introl Hd))
    as Hparse.
  assert (Hstrip : rstrip (lstrip (String "-" (NilEmpty.string_of_uint d)))
                   = String "-" (NilEmpty.string_of_uint d)).
  { cbn [lstrip]. change (is_space "-") with false. cbv iota.
    cbn [rstrip]. rewrite rstrip_digits by exact Hall.
    destruct (NilEmpty.string_of_uint d) eqn:E; [| reflexivity].
    destruct d; [congruence | ..]; discriminate E. }
  rewrite Hstrip. cbv zeta. cbv iota. rewrite Hparse. reflexivity.
Qed.

(** ['%d' % num] read back by [int]: the number [num]. *)
Lemma int_of_str_format_d num : int_of_str (format_d num) = inr num.
Proof.
  unfold format_d. destruct num as [| p | p]; [reflexivity | ..]; simpl;
    pose proof (Unsigned.to_uint_nonnil p) as Hnil;
    pose proof (Unsigned.of_to p) as Hof;
    unfold NilZero.string_of_uint;
    destruct (Pos.to_uint p) eqn:E; try congruence;
    rewrite <- E in *.
  all: first [ rewrite int_of_str_uint by exact Hnil
             | rewrite int_of_str_negative by exact Hnil ];
    rewrite Hof; reflexivity.
Qed.

Lemma format_d_no_separator num : contains "#" (format_d num) = false.
Proof.
  unfold format_d. destruct num as [| p | p]; [reflexivity | ..]; simpl;
    unfold NilZero.string_of_uint;
    destruct (Pos.to_uint p) eqn:E; try reflexivity;
    rewrite <- E; try (simpl; apply contains_digits, string_of_uint_digits).
  all: apply contains_digits, string_of_uint_digits.
Qed.

End SerialStrings.

(** A frame proof by the shape of the body, with the side conditions
    of the relation left to [side]. *)
Ltac frames_with side :=
  repeat
    match goal with
    | |- forall _, frames _ _ => intros ?
    | H : frames ?R ?m |- frames ?R ?m => exact H
    | H : forall _, _ |- frames _ _ => apply H
    | |- frames _ (ret _) => apply frames_ret
    | |- frames _ (raise _) => apply frames_raise
    | |- frames _ (hang_on _) => apply frames_hang_on
    | |- frames _ (gets _) => apply frames_gets
    | |- frames _ (lift _) => apply frames_lift
    | |- frames _ (modify _) => apply frames_modify
    | |- frames _ (Mozza.call (Sdk.Call_set_wavenumber_array _) _) =>
        apply frames_write
    | |- frames _ (Mozza.call _ _) => apply frames_call
    | |- frames _ (Mozza.as_SpectroError _) => apply frames_as_SpectroError
    | |- frames _ Mozza.lock_acquire => apply frames_lock_acquire
    | |- frames _ Mozza.lock_try_acquire => apply frames_lock_try_acquire
    | |- frames _ Mozza.lock_release => apply frames_lock_release
    | |- frames _ (Mozza.with_lock _) => apply frames_with_lock
    | |- frames _ (Mozza.update_acquisition_params _) =>
        apply frames_update_acquisition_params
    | |- frames _ (Mozza.update_process_params _) =>
        apply frames_update_process_params
    | |- frames _ (Mozza.update _) => apply frames_update
    | |- frames _ (bind _ _) => apply frames_bind
    | |- frames _ (try_except_else _ _ _ _) => apply frames_try_except_else
    | |- frames _ (try_except _ _ _) => apply frames_try_except
    | |- frames _ (try_finally _ _) => apply frames_try_finally
    | |- frames _ (match ?x with _ => _ end) => destruct x
    | |- frames _ (let (_, _) := ?x in _) => destruct x
    | |- frames _ _ => fail 1
    | |- _ => solve [side]
    end.

Ltac extends_more :=
  first [ extends_side
        | intros ?; discriminate
        | intros ?; reflexivity ].

Section SerialRoundTrip.
Context {HW : Type} (sdk : Sdk.MozzaUSB HW).

Lemma split_serial num :
  nth_error (split "#" ("Mozza#" ++ format_d num)) 1 = Some (format_d num).
Proof.
  change (split "#" ("Mozza#" ++ format_d num))
    with ("Mozza"%string :: split "#" (format_d num)).
  rewrite split_without_separator by apply format_d_no_separator.
  reflexivity.
Qed.

Lemma connect_device_calls_connect_first num (w : Mozza.World HW) :
  exists ok rest,
    Mozza.calls (snd (Mozza.connect_device sdk ("Mozza#" ++ format_d num) w))
    = Mozza.calls w ++ (Sdk.Call_connect num, ok) :: rest.
Proof.
  unfold Mozza.connect_device.
  erewrite bind_ret_step; cycle 1.
  { unfold try_except. erewrite try_except_else_ret_step; [reflexivity |].
    rewrite split_serial, int_of_str_format_d. reflexivity. }
  match goal with
  | |- context [bind _ ?k] =>
      assert (Hk : forall a, frames trace_extends (k a))
  end.
  { intros a. unfold Mozza.calibration_limits, Mozza.load_amp_correction.
    frames_with extends_more. }
  unfold bind at 1. unfold try_except, try_except_else at 1.
  unfold Mozza.call at 1.
  destruct (Sdk.connect sdk num (Mozza.device w)) as [[[] | code] d].
  - exists true.
    destruct (Hk tt (Mozza.set_calls
                       (Mozza.calls w ++ [(Sdk.Call_connect num, true)])
                       (Mozza.set_device d w))) as [rest Hrest].
    exists rest.
    etransitivity; [exact Hrest |].
    cbn. rewrite <- app_assoc. reflexivity.
  - exists false, []. reflexivity.
Qed.

End SerialRoundTrip.

(** X1. The names that [get_serials] returns are ['Mozza#%d' % num] for the
    serial numbers [num] the SDK reports, in the order of the SDK; a
    failure of the SDK is raised as [SpectroError]; and
    [connect_device], given such a name, reads the number [num] back:
    its first SDK call is [connect(num)]. *)
Theorem get_serials_names_connect :
  forall (HW : Type) (sdk : Sdk.MozzaUSB HW) (d : Sdk.Device HW),
    (forall serials d',
        Sdk.get_serials sdk d = (Sdk.Ok serials, d') ->
        Mozza.get_serials sdk d
        = inr (map (fun num => ("Mozza#" ++ format_d num)%string) serials))
    /\ (forall code d',
          Sdk.get_serials sdk d = (Sdk.Failed code, d') ->
          Mozza.get_serials sdk d = inl (SpectroError (FromSdk code)))
    /\ (forall num (w : Mozza.World HW),
          exists ok rest,
            Mozza.calls
              (snd (Mozza.connect_device sdk ("Mozza#" ++ format_d num) w))
            = Mozza.calls w ++ (Sdk.Call_connect num, ok) :: rest).
Proof.
  intros HW sdk d. split; [| split].
  - intros serials d' H. unfold Mozza.get_serials. rewrite H. reflexivity.
  - intros code d' H. unfold Mozza.get_serials. rewrite H. reflexivity.
  - intros num w. apply connect_device_calls_connect_first.
Qed.

(** The theorem at work: the one instrument of the simulated SDK. *)
Lemma get_serials_names_connect_witness :
  Mozza.get_serials Sim.sdk (Sim.fresh Sim.healthy)
  = inr ["Mozza#12"%string].
Proof.
  destruct (get_serials_names_connect Sim.sdk (Sim.fresh Sim.healthy))
    as (H & _).
  apply (H [12] (Sim.fresh Sim.healthy)). vm_compute. reflexivity.
Defined.

(* ================================================================== *)
(** * connect_device: what each way of ending leaves behind *)
(* ================================================================== *)

Section ConnectOutcomes.
Context {HW : Type} (sdk : Sdk.MozzaUSB HW).

Lemma load_amp_correction_same_spectro serial_num :
  frames (fun w w' : Mozza.World HW => Mozza.spectro w' = Mozza.spectro w)
    (Mozza.load_amp_correction serial_num).
Proof.
  apply frames_load_amp_correction; intros; first [reflexivity | congruence].
Qed.

Lemma load_amp_correction_does_not_hang serial_num (w : Mozza.World HW) h :
  fst (Mozza.load_amp_correction serial_num w) <> Hang h.
Proof.
  unfold Mozza.load_amp_correction, bind, try_except_else, gets, modify, lift.
  simpl.
  destruct (Mozza.files w _) as [e | a]; simpl.
  - destruct (is_OSError e); simpl; discriminate.
  - destruct (Np.unpack2 a) as [e | [wl am]]; simpl.
    + destruct (is_OSError e); simpl; discriminate.
    + destruct (Np.any_negative am); simpl; [discriminate |].
      destruct (Np.len am) as [e | n]; simpl; [discriminate |].
      destruct (Np.len wl) as [e | n']; simpl; [discriminate |].
      destruct (negb (n =? n')%nat); simpl; discriminate.
Qed.

(** What [load_amp_correction] raises: what [np.loadtxt] has raised, or
    the [TypeError] or [ValueError] of the unpacking and of [len]. *)
Lemma load_amp_correction_raises serial_num (w : Mozza.World HW) e :
  fst (Mozza.load_amp_correction serial_num w) = Raise e ->
  (exists p, Mozza.files w p = Np.LoadRaises e)
  \/ e = TypeError \/ (exists m, e = ValueError m).
Proof.
  unfold Mozza.load_amp_correction, bind, try_except_else, gets, modify, lift.
  simpl.
  destruct (Mozza.files w _) as [e' | a] eqn:Hf; simpl.
  - destruct (is_OSError e'); simpl; [discriminate |].
    intros H. injection H as <-. left. eauto.
  - destruct (Np.unpack2 a) as [e' | [wl am]] eqn:Hu; simpl.
    + destruct (is_OSError e') eqn:Ho; simpl; [discriminate |].
      intros H. injection H as <-. right.
      destruct a as [x | v | rows]; simpl in Hu.
      * injection Hu as <-. left. reflexivity.
      * destruct v as [| x [| y [| z v]]]; try discriminate;
          injection Hu as <-; right; eauto.
      * destruct rows as [| x [| y [| z v]]]; try discriminate;
          injection Hu as <-; right; eauto.
    + destruct (Np.any_negative am); simpl; [discriminate |].
      destruct (Np.len am) as [e' | n] eqn:Ha; simpl.
      { intros H. injection H as <-. right. left.
        destruct am; [injection Ha as <-; reflexivity | discriminate]. }
      destruct (Np.len wl) as [e' | n'] eqn:Hw; simpl.
      { intros H. injection H as <-. right. left.
        destruct wl; [injection Hw as <-; reflexivity | discriminate]. }
      destruct (negb (n =? n')%nat); simpl; discriminate.
Qed.

Lemma int_of_str_raises s e :
  int_of_str s = inl e -> e = ValueError (InvalidLiteral s).
Proof.
  unfold int_of_str. intros H.
  destruct (match rstrip (lstrip s) with
            | String "-" rest => _
            | String "+" rest => _
            | _ => _
            end); [discriminate |].
  injection H as <-. reflexivity.
Qed.

Lemma arange_raises a b c e :
  Np.arange a b c = inl e -> e = ValueError NotANumber \/ e = OverflowError.
Proof.
  unfold Np.arange. intros H.
  destruct (ceil_float _) as [e' | n] eqn:Hc; [| discriminate].
  injection H as <-. unfold ceil_float in Hc.
  destruct (float_fraction _) as [[n k] |]; [discriminate |].
  injection Hc as <-. unfold float_error.
  destruct (PrimFloat.is_nan _); auto.
Qed.

(** [connect_device] ends in one of two ways: before it has assigned
    any attribute, with a [SpectroError], the [ValueError] of [int] or a
    float error of [np.arange]; or after it has marked the object as
    connected, by returning, with the [MozzaError] of
    [set_default_params], or with what [load_amp_correction] raises. *)
Lemma connect_device_ends serial (w : Mozza.World HW) :
  let r := Mozza.connect_device sdk serial w in
  (Mozza.spectro (snd r) = Mozza.spectro w
   /\ exists e, fst r = Raise e
                /\ ((exists m, e = SpectroError m)
                    \/ (exists m, e = ValueError m) \/ e = OverflowError))
  \/ (connected_as serial (Mozza.resolution_cm w) (snd r)
      /\ (fst r = Ret tt
          \/ (exists code, fst r = Raise (MozzaError code))
          \/ (exists e, fst r = Raise e
                 /\ ((exists p, Mozza.files w p = Np.LoadRaises e)
                     \/ e = TypeError \/ exists m, e = ValueError m)))).
Proof.
  intros r. unfold r, Mozza.connect_device.
  cbv beta iota zeta delta
    [bind try_except try_except_else Mozza.call lift gets modify ret raise
     Mozza.update Mozza.as_SpectroError Mozza.calibration_limits].
  repeat match goal with
         | |- context [match ?x with _ => _ end] =>
             lazymatch x with
             | context [match _ with _ => _ end] => fail
             | context [Mozza.load_amp_correction] => fail
             | _ => destruct x eqn:?
             end
         end.
  all: try match goal with
       | |- context [Mozza.load_amp_correction ?n ?s] =>
           pose proof (load_amp_correction_same_spectro n s) as Hsame;
           pose proof (load_amp_correction_does_not_hang n s) as Hhang;
           pose proof (@load_amp_correction_raises n s) as Hraise;
           destruct (Mozza.load_amp_correction n s) as [[b | e' | h] s']
       end.
  all: cbn [fst snd] in *.
  all: try (exfalso; eapply Hhang; reflexivity).
  all: try match goal with
       | H : _ = false |- _ => cbn in H; discriminate H
       end.
  all: try match goal with
       | H : int_of_str _ = inl _ |- _ => apply int_of_str_raises in H; subst
       | H : Np.arange _ _ _ = inl _ |- _ =>
           apply arange_raises in H; destruct H; subst
       end.
  all: first
    [ left; split; [reflexivity |];
      eexists; split; [reflexivity |]; eauto 6
    | right; split;
      [ unfold connected_as; rewrite ?Hsame; cbn;
        repeat split; eexists; repeat split;
        first [ eassumption | reflexivity
              | rewrite length_map; reflexivity
              | rewrite map_map; reflexivity ]
      | first
          [ left; reflexivity
          | right; left; eexists; reflexivity
          | right; right; eexists; split; [reflexivity |];
            apply Hraise; reflexivity ] ] ].
Qed.

End ConnectOutcomes.

(** X2. A [connect_device] that returns leaves the object connected under
    the serial string it was given, with the wavelength axis
    [1e7 / np.arange(12500, 2000, -resolution_cm)], [npixels] the length
    of that axis and a stored spectrum of as many zeros. *)
Theorem connect_device_return_state :
  forall (HW : Type) (sdk : Sdk.MozzaUSB HW) (serial : string)
         (w : Mozza.World HW),
    fst (Mozza.connect_device sdk serial w) = Ret tt ->
    connected_as serial (Mozza.resolution_cm w)
      (snd (Mozza.connect_device sdk serial w)).
Proof.
  intros HW sdk serial w Hret.
  destruct (connect_device_ends sdk serial w)
    as [(_ & e & He & _) | (H & _)]; [congruence | exact H].
Qed.

(** The theorem at work, on the simulated instrument 12. *)
Lemma connect_device_return_state_witness :
  connected_as "Mozza#12" 3%float (Sim.connected Sim.healthy Sim.no_files).
Proof.
  apply (connect_device_return_state Sim.sdk "Mozza#12"
           (Sim.new Sim.healthy Sim.no_files)).
  vm_compute. reflexivity.
Defined.

(** X3. A [connect_device] that raises [SpectroError] has assigned no
    attribute of the base class: [connected], [serial], the wavelength
    axis and the stored spectrum are as they were. ([np.loadtxt] is
    taken to raise no [SpectroError] of its own.) *)
Theorem connect_device_SpectroError_changes_nothing :
  forall (HW : Type) (sdk : Sdk.MozzaUSB HW) (serial : string)
         (w : Mozza.World HW) (m : message),
    (forall p m', Mozza.files w p <> Np.LoadRaises (SpectroError m')) ->
    fst (Mozza.connect_device sdk serial w) = Raise (SpectroError m) ->
    Mozza.spectro (snd (Mozza.connect_device sdk serial w)) = Mozza.spectro w.
Proof.
  intros HW sdk serial w m Hfiles Hraise.
  destruct (connect_device_ends sdk serial w)
    as [(H & _) | (_ & [H | [(code & H) | (e & H & He)]])];
    [exact H | congruence | congruence |].
  rewrite Hraise in H. injection H as <-.
  destruct He as [(p & Hp) | [He | (m' & He)]];
    [exfalso; eapply Hfiles; exact Hp | discriminate | discriminate].
Qed.

(** The theorem at work: the SDK refuses the connection. *)
Lemma connect_device_SpectroError_changes_nothing_witness :
  Mozza.spectro
    (snd (Mozza.connect_device (Faults.sdk ["connect"%string]) "Mozza#12"
            (Sim.new Sim.healthy Sim.no_files)))
  = Mozza.spectro (Sim.new Sim.healthy Sim.no_files).
Proof.
  apply (connect_device_SpectroError_changes_nothing
           (Faults.sdk ["connect"%string]) "Mozza#12"
           (Sim.new Sim.healthy Sim.no_files) (m := FromSdk 9)).
  - intros p m'. discriminate.
  - vm_compute. reflexivity.
Defined.

(** X4. A [connect_device] that raises [MozzaError] (the error of
    [set_default_params], which no handler converts) has already marked
    the object as connected under the new serial. *)
Theorem connect_device_MozzaError_leaves_connected :
  forall (HW : Type) (sdk : Sdk.MozzaUSB HW) (serial : string)
         (w : Mozza.World HW) (code : Z),
    fst (Mozza.connect_device sdk serial w) = Raise (MozzaError code) ->
    connected_as serial (Mozza.resolution_cm w)
      (snd (Mozza.connect_device sdk serial w)).
Proof.
  intros HW sdk serial w code Hraise.
  destruct (connect_device_ends sdk serial w)
    as [(_ & e & He & Hkind) | (H & _)]; [| exact H].
  rewrite Hraise in He. injection He as <-.
  destruct Hkind as [(m & ?) | [(m & ?) | ?]]; discriminate.
Qed.

(** The theorem at work: the SDK refuses [set_default_params]. *)
Lemma connect_device_MozzaError_leaves_connected_witness :
  connected_as "Mozza#12" 3%float
    (snd (Mozza.connect_device (Faults.sdk ["set_default_params"%string])
            "Mozza#12" (Sim.new Sim.healthy Sim.no_files))).
Proof.
  apply (connect_device_MozzaError_leaves_connected
           (Faults.sdk ["set_default_params"%string]) "Mozza#12"
           (Sim.new Sim.healthy Sim.no_files) (code := 9)).
  vm_compute. reflexivity.
Defined.

(* ================================================================== *)
(** * The connected flag is never cleared *)
(* ================================================================== *)

Section StaysConnected.
Context {HW : Type} (sdk : Sdk.MozzaUSB HW).

Lemma stays_connected_refl (w : Mozza.World HW) : stays_connected w w.
Proof. intros H. exact H. Qed.

Lemma stays_connected_trans (a b c : Mozza.World HW) :
  stays_connected a b -> stays_connected b c -> stays_connected a c.
Proof. unfold stays_connected. auto. Qed.

Ltac connected_side :=
  first [ exact stays_connected_refl
        | exact stays_connected_trans
        | intros ?; discriminate
        | intros; intros Hc; exact Hc ].

Lemma connected_connect_device serial :
  frames stays_connected (Mozza.connect_device sdk serial).
Proof.
  intros w Hc.
  destruct (connect_device_ends sdk serial w)
    as [(H & _) | ((H & _) & _)]; [rewrite H; exact Hc | exact H].
Qed.

Lemma connected_make_acquisition depth bound start stop background_mode :
  frames stays_connected
    (Mozza.make_acquisition sdk depth bound start stop background_mode).
Proof.
  unfold Mozza.make_acquisition, Spectro.make_acquisition, Spectro.update.
  cbn [Spectro.base Spectro.with_base Spectro._acquire_spectrum Mozza.backend].
  pose proof (@frames_acquire_spectrum HW sdk stays_connected) as Hacq.
  frames_with connected_side.
Qed.

Lemma connected_perform depth bound (o : Mozza.operation) :
  frames stays_connected (Mozza.perform sdk depth bound o).
Proof.
  destruct o; cbn [Mozza.perform]; unfold Mozza.discard;
    first
      [ apply connected_connect_device
      | apply connected_make_acquisition
      | idtac ].
  all: try (apply frames_bind; [connected_side | | frames_with connected_side]).
  all: first
      [ apply frames_set_ext_trigger; connected_side
      | apply frames_get_ext_trigger; connected_side
      | apply frames_load_table; connected_side
      | apply frames_read_raw; connected_side
      | apply frames_measure_offsets; connected_side
      | apply frames_acquire_spectrum; connected_side
      | apply frames_set_rf_attenuation; connected_side
      | apply frames_setup_gains; connected_side
      | apply frames_set_all_device_params; connected_side
      | apply frames_set_acquisition_params; connected_side
      | apply frames_set_process_params; connected_side
      | apply frames_ext_trigger_freq; connected_side
      | apply frames_acquire_raw; connected_side
      | apply frames_set_auto_params; connected_side
      | apply frames_load_amp_correction; connected_side
      | unfold Mozza.disconnect_device, Mozza.set_exposure,
          Mozza.get_exposure, Mozza.reset, Mozza.rf_attenuation,
          Mozza.acquisition_params, Mozza.acquisition_params_setter,
          Mozza.process_params, Mozza.process_params_setter,
          Spectro.spectrum, Spectro.lambdas, Spectro.connected,
          Spectro.serial;
        frames_with connected_side ].
Qed.

End StaysConnected.

(** X5. No operation of the backend clears [connected]: an object that is
    marked connected is still marked connected after any operation,
    whatever its outcome and the answers of the SDK, and so after any
    sequence of operations; [disconnect_device] in particular leaves
    the flag as it found it. *)
Theorem connected_never_cleared :
  forall (HW : Type) (sdk : Sdk.MozzaUSB HW) (depth bound : nat),
    (forall (o : Mozza.operation) (w : Mozza.World HW),
        Spectro._connected (Mozza.spectro w) = true ->
        Spectro._connected
          (Mozza.spectro (snd (Mozza.perform sdk depth bound o w))) = true)
    /\ (forall (ops : list Mozza.operation) (w : Mozza.World HW),
          Spectro._connected (Mozza.spectro w) = true ->
          Spectro._connected
            (Mozza.spectro (Mozza.perform_all sdk depth bound ops w)) = true)
    /\ (forall w : Mozza.World HW,
          Spectro._connected
            (Mozza.spectro (snd (Mozza.disconnect_device sdk w)))
          = Spectro._connected (Mozza.spectro w)).
Proof.
  intros HW sdk depth bound. split; [| split].
  - intros o w. apply (connected_perform sdk depth bound o w).
  - intros ops. induction ops as [| o ops IH]; intros w Hc; simpl.
    + exact Hc.
    + apply IH. apply (connected_perform sdk depth bound o w Hc).
  - intros w. unfold Mozza.disconnect_device, Mozza.call.
    destruct (Sdk.disconnect sdk (Mozza.device w)) as [[u | code] d];
      reflexivity.
Qed.

(** The theorem at work: a connected object stays marked connected
    through [disconnect_device]. *)
Lemma connected_never_cleared_witness :
  Spectro._connected
    (Mozza.spectro
       (snd (Mozza.perform Sim.sdk 8 8 Mozza.Disconnect_device
               (Sim.connected Sim.healthy Sim.no_files)))) = true.
Proof.
  destruct (connected_never_cleared Sim.sdk 8 8) as (H & _).
  apply H. vm_compute. reflexivity.
Defined.

(* ================================================================== *)
(** * The lock is given back *)
(* ================================================================== *)

Section UnlessHanging.
Context {S : Type} (R : S -> S -> Prop).
Hypothesis R_refl : forall s, R s s.
Hypothesis R_trans : forall a b c, R a b -> R b c -> R a c.

Lemma unless_of_frames A (m : M S A) : frames R m -> unless_hanging R m.
Proof. intros H s _. apply H. Qed.

Lemma unless_bind A B (m : M S A) (k : A -> M S B) :
  unless_hanging R m -> (forall a, unless_hanging R (k a)) ->
  unless_hanging R (bind m k).
Proof.
  intros Hm Hk s. unfold bind. specialize (Hm s).
  destruct (m s) as [[a | e | h] s']; simpl in *; intros Hh.
  - eapply R_trans; [apply Hm; discriminate | apply Hk; exact Hh].
  - apply Hm. discriminate.
  - exfalso. apply (Hh h). reflexivity.
Qed.

Lemma unless_try_except_else A B (body : M S A) handles
    (handler : exn -> M S B) (orelse : A -> M S B) :
  unless_hanging R body -> (forall e, unless_hanging R (handler e)) ->
  (forall a, unless_hanging R (orelse a)) ->
  unless_hanging R (try_except_else body handles handler orelse).
Proof.
  intros Hb Hh Ho s. unfold try_except_else. specialize (Hb s).
  destruct (body s) as [[a | e | h] s']; simpl in *; intros Hn.
  - eapply R_trans; [apply Hb; discriminate | apply Ho; exact Hn].
  - destruct (handles e); simpl in *.
    + eapply R_trans; [apply Hb; discriminate | apply Hh; exact Hn].
    + apply Hb. discriminate.
  - exfalso. apply (Hn h). reflexivity.
Qed.

Lemma unless_try_except A (body : M S A) handles (handler : exn -> M S A) :
  unless_hanging R body -> (forall e, unless_hanging R (handler e)) ->
  unless_hanging R (try_except body handles handler).
Proof.
  intros Hb Hh. apply unless_try_except_else; auto.
  intros a. apply unless_of_frames, frames_ret, R_refl.
Qed.

Lemma unless_try_finally A (body : M S A) (final : M S unit) :
  unless_hanging R body -> unless_hanging R final ->
  unless_hanging R (try_finally body final).
Proof.
  intros Hb Hf s. unfold try_finally. specialize (Hb s).
  destruct (body s) as [[a | e | h] s']; simpl in *; intros Hn;
    try (exfalso; apply (Hn h); reflexivity);
    specialize (Hf s'); destruct (final s') as [[u | e' | h'] s''];
    simpl in *;
    try (exfalso; apply (Hn h'); reflexivity);
    (eapply R_trans; [apply Hb; discriminate | apply Hf; discriminate]).
Qed.

End UnlessHanging.

Section LockBalance.
Context {HW : Type} (sdk : Sdk.MozzaUSB HW).

Lemma same_lock_refl (w : Mozza.World HW) : same_lock w w.
Proof. reflexivity. Qed.

Lemma same_lock_trans (a b c : Mozza.World HW) :
  same_lock a b -> same_lock b c -> same_lock a c.
Proof. unfold same_lock. congruence. Qed.

Ltac lock_side :=
  first [ exact same_lock_refl
        | exact same_lock_trans
        | intros ?; discriminate
        | intros ?; reflexivity
        | intros; reflexivity ].

(** [with self._lock]: the block has left the lock as it got it, and
    the exit gives it back. *)
Lemma with_lock_restores A (body : M (Mozza.World HW) A) :
  unless_hanging same_lock body ->
  unless_hanging same_lock (Mozza.with_lock body).
Proof.
  intros Hb w. unfold Mozza.with_lock, bind, Mozza.lock_acquire, try_finally.
  unfold same_lock in *.
  destruct (Mozza._lock w) as [| n |] eqn:Hl; cbn [Lock.acquire].
  - specialize (Hb (Mozza.set_lock (Lock.HeldBySelf 0) w)).
    destruct (body _) as [[a | e | h] s1]; cbn [fst snd] in *; intros Hn;
      try (exfalso; apply (Hn h); reflexivity);
      unfold Mozza.lock_release;
      rewrite Hb by discriminate; reflexivity.
  - specialize (Hb (Mozza.set_lock (Lock.HeldBySelf (S n)) w)).
    destruct (body _) as [[a | e | h] s1]; cbn [fst snd] in *; intros Hn;
      try (exfalso; apply (Hn h); reflexivity);
      unfold Mozza.lock_release;
      rewrite Hb by discriminate; reflexivity.
  - intros Hn. exfalso. apply (Hn BlockedOnLock). reflexivity.
Qed.

(** A proof that a method gives the lock back, by the shape of its
    body. *)
Ltac balance :=
  repeat
    match goal with
    | |- forall _, unless_hanging _ _ => intros ?
    | H : forall _, _ |- unless_hanging _ _ => apply H
    | |- unless_hanging _ (Mozza.with_lock _) => apply with_lock_restores
    | |- unless_hanging _ (bind _ _) =>
        apply unless_bind; [exact same_lock_trans | |]
    | |- unless_hanging _ (try_except_else _ _ _ _) =>
        apply unless_try_except_else; [exact same_lock_trans | | |]
    | |- unless_hanging _ (try_except _ _ _) =>
        apply unless_try_except;
        [exact same_lock_refl | exact same_lock_trans | |]
    | |- unless_hanging _ (try_finally _ _) =>
        apply unless_try_finally; [exact same_lock_trans | |]
    | |- unless_hanging _ (match ?x with _ => _ end) => destruct x
    | |- unless_hanging _ (let (_, _) := ?x in _) => destruct x
    | |- unless_hanging _ _ =>
        apply unless_of_frames; frames_with lock_side
    end.

Lemma balance_load_table depth start stop wnums :
  unless_hanging same_lock (Mozza.load_table sdk depth start stop wnums).
Proof.
  revert start stop wnums.
  induction depth as [| depth IH]; intros start stop wnums;
    cbn [Mozza.load_table];
    unfold Mozza.requested_table, Mozza.reallocate; balance.
Qed.

Lemma same_lock_read_raw bound :
  frames same_lock (Mozza.read_raw sdk bound).
Proof. apply frames_read_raw; lock_side. Qed.

(** [if self._lock.acquire(False): try: ... finally: ...; release()]:
    the lock is not taken, or the [finally] clause gives it back,
    provided what comes before the release in that clause raises
    nothing. *)
Lemma try_lock_restores A B (body : M (Mozza.World HW) A)
    (cleanup : M (Mozza.World HW) unit) (after : A -> M (Mozza.World HW) B)
    (other : M (Mozza.World HW) B) :
  frames same_lock body ->
  frames same_lock cleanup ->
  (forall s, fst (cleanup s) = Ret tt) ->
  (forall a, frames same_lock (after a)) ->
  frames same_lock other ->
  unless_hanging same_lock
    (locked <- Mozza.lock_try_acquire ;;
     if locked then
       a <- try_finally body (cleanup ;;; Mozza.lock_release) ;; after a
     else other).
Proof.
  intros Hbody Hclean Hret Hafter Hother w.
  set (taken := a <- try_finally body (cleanup ;;; Mozza.lock_release) ;;
                after a).
  assert (Htaken : forall l,
            Lock.release l = (Ret tt, Mozza._lock w) ->
            (forall h, fst (taken (Mozza.set_lock l w)) <> Hang h) ->
            Mozza._lock (snd (taken (Mozza.set_lock l w))) = Mozza._lock w).
  { intros l Hrel. unfold same_lock in *.
    unfold taken, bind, try_finally.
    pose proof (Hbody (Mozza.set_lock l w)) as Hb.
    destruct (body (Mozza.set_lock l w)) as [[a | e | h] s1];
      cbn [fst snd Mozza._lock Mozza.set_lock] in *; intros Hn;
      try (exfalso; apply (Hn h); reflexivity);
      pose proof (Hclean s1) as Hc; pose proof (Hret s1) as Hr;
      destruct (cleanup s1) as [[[] | e' | h'] s2];
      cbn [fst snd] in *; try discriminate;
      unfold Mozza.lock_release; rewrite Hc, Hb, Hrel;
      cbn [fst snd]; rewrite ?Hafter; reflexivity. }
  unfold bind, Mozza.lock_try_acquire, same_lock. cbv beta.
  destruct (Mozza._lock w) as [| n |] eqn:Hl; cbn [Lock.try_acquire].
  - apply (Htaken (Lock.HeldBySelf 0)). reflexivity.
  - apply (Htaken (Lock.HeldBySelf (S n))). reflexivity.
  - intros _. unfold same_lock in *. rewrite Hother. reflexivity.
Qed.

Lemma balance_acquire_spectrum depth bound background_mode :
  unless_hanging same_lock
    (Mozza._acquire_spectrum sdk depth bound background_mode).
Proof.
  unfold Mozza._acquire_spectrum.
  apply unless_bind; [exact same_lock_trans | |].
  - unfold Mozza.reprogram_if_needed.
    pose proof balance_load_table. balance.
  - intros _. unfold Mozza.acquire_locked, Mozza.acquire_finally.
    apply try_lock_restores.
    + apply acquire_try_same_lock.
    + frames_with lock_side.
    + intros s. unfold try_except, try_except_else, Mozza.call.
      destruct (Sdk.end_acquisition sdk (Mozza.device s)) as [[u | code] d];
        [destruct u |]; reflexivity.
    + intros spec. unfold Mozza.corrected. frames_with lock_side.
    + frames_with lock_side.
Qed.

Lemma balance_perform depth bound (o : Mozza.operation) :
  unless_hanging same_lock (Mozza.perform sdk depth bound o).
Proof.
  pose proof balance_load_table as Hload.
  pose proof balance_acquire_spectrum as Hacq.
  pose proof same_lock_read_raw as Hread.
  pose proof (fun s => unless_of_frames (@same_lock_read_raw s)) as Hread'.
  destruct o; cbn [Mozza.perform];
    unfold Mozza.discard, Mozza.make_acquisition, Spectro.make_acquisition,
      Spectro.update, Spectro.spectrum, Spectro.lambdas, Spectro.connected,
      Spectro.serial, Mozza.connect_device, Mozza.calibration_limits,
      Mozza.load_amp_correction, Mozza.disconnect_device,
      Mozza.set_exposure, Mozza.get_exposure, Mozza.set_ext_trigger,
      Mozza.get_ext_trigger, Mozza.measure_offsets, Mozza.reset,
      Mozza.set_rf_attenuation, Mozza.rf_attenuation,
      Mozza.acquisition_params_setter, Mozza.process_params_setter,
      Mozza.set_all_device_params, Mozza.setup_gains,
      Mozza.set_acquisition_params, Mozza.set_process_params,
      Mozza.ext_trigger_freq, Mozza.acquire_raw, Mozza.set_auto_params,
      Mozza.acquisition_params, Mozza.process_params;
    cbn [Spectro.base Spectro.with_base Spectro._acquire_spectrum
         Mozza.backend];
    balance.
Qed.

End LockBalance.

(** X6. Every operation of the backend that comes back, by a return or by
    an exception, whatever the SDK answers, leaves the lock as it found
    it: free if it was free, held as many times by the calling thread
    if that thread held it. *)
Theorem lock_given_back_by_every_operation :
  forall (HW : Type) (sdk : Sdk.MozzaUSB HW) (depth bound : nat)
         (o : Mozza.operation) (w : Mozza.World HW),
    (forall h, fst (Mozza.perform sdk depth bound o w) <> Hang h) ->
    Mozza._lock (snd (Mozza.perform sdk depth bound o w)) = Mozza._lock w.
Proof.
  intros HW sdk depth bound o w Hn.
  apply (balance_perform sdk depth bound o w Hn).
Qed.

(** The theorem at work: [set_rf_attenuation(3)] on an instrument that
    refuses it raises, and the lock is free again. *)
Lemma lock_given_back_by_every_operation_witness :
  let sdk := Faults.sdk ["set_rf_attenuation"%string] in
  let w := Sim.connected Sim.healthy Sim.no_files in
  fst (Mozza.set_rf_attenuation sdk 3 w) = Raise (SpectroError (FromSdk 9))
  /\ Mozza._lock (snd (Mozza.set_rf_attenuation sdk 3 w)) = Lock.Unlocked.
Proof.
  intros sdk w. split; [vm_compute; reflexivity |].
  apply (lock_given_back_by_every_operation sdk 8 8
           (Mozza.Set_rf_attenuation 3) w).
  intros h. vm_compute. discriminate.
Defined.

(* ================================================================== *)
(** * Which SDK errors reach the caller as SpectroError *)
(* ================================================================== *)

Section ErrorConversion.
Context {HW : Type} (sdk : Sdk.MozzaUSB HW).

(** [try: body / except MozzaError as e: raise SpectroError(...)] lets
    no [MozzaError] through. *)
Lemma converted A (body : M (Mozza.World HW) A) :
  raises_only not_MozzaError
    (try_except body is_MozzaError Mozza.as_SpectroError).
Proof.
  intros w e. unfold try_except, try_except_else.
  destruct (body w) as [[a | e' | h] w']; cbn [fst]; try discriminate.
  destruct (is_MozzaError e') eqn:He.
  - destruct e'; try discriminate He. cbn. intros H. injection H as <-.
    reflexivity.
  - cbn. intros H. injection H as <-. exact He.
Qed.

Lemma with_lock_raises A (body : M (Mozza.World HW) A) :
  raises_only not_MozzaError body ->
  raises_only not_MozzaError (Mozza.with_lock body).
Proof.
  intros Hb. unfold Mozza.with_lock.
  apply raises_only_bind.
  - intros w e. unfold Mozza.lock_acquire.
    destruct (Mozza._lock w); cbn; discriminate.
  - intros _. apply raises_only_try_finally; [exact Hb |].
    intros w e. unfold Mozza.lock_release.
    destruct (Mozza._lock w) as [| [| n] |]; cbn; try discriminate;
      intros H; injection H as <-; reflexivity.
Qed.

Lemma py_int_raises x e : py_int x = inl e -> not_MozzaError e.
Proof.
  unfold py_int, trunc_float, float_error. intros H.
  destruct x as [| z | f]; try discriminate.
  - injection H as <-. reflexivity.
  - destruct (float_fraction f) as [[n k] |]; [discriminate |].
    injection H as <-. destruct (PrimFloat.is_nan f); reflexivity.
Qed.

Lemma set_rf_attenuation_raises value :
  raises_only not_MozzaError (Mozza.set_rf_attenuation sdk value).
Proof. apply with_lock_raises, converted. Qed.

Lemma set_acquisition_params_raises :
  raises_only not_MozzaError (Mozza.set_acquisition_params sdk).
Proof. apply converted. Qed.

Lemma set_process_params_raises :
  raises_only not_MozzaError (Mozza.set_process_params sdk).
Proof. apply converted. Qed.

Lemma set_auto_params_raises t a :
  raises_only not_MozzaError (Mozza.set_auto_params sdk t a).
Proof.
  unfold Mozza.set_auto_params.
  apply raises_only_bind; [apply converted |].
  intros _. unfold Mozza.acquisition_params, Mozza.process_params.
  repeat first [ apply raises_only_bind | apply raises_only_gets
               | apply raises_only_ret | intros ? ].
Qed.

Lemma set_ext_trigger_raises flag apply update_delay :
  raises_only not_MozzaError
    (Mozza.set_ext_trigger sdk flag apply update_delay).
Proof.
  unfold Mozza.set_ext_trigger, Mozza.update_acquisition_params.
  apply raises_only_bind; [apply raises_only_modify |]. intros _.
  apply raises_only_bind.
  - destruct update_delay; [| apply raises_only_ret].
    apply raises_only_bind; [apply raises_only_gets |].
    intros [|].
    + repeat first [ apply raises_only_bind | apply raises_only_gets
                   | apply raises_only_modify | intros ? ].
    + apply raises_only_bind; [apply raises_only_gets |]. intros cached.
      apply raises_only_bind; [| intros ?; apply raises_only_modify].
      apply raises_only_lift. intros e. apply py_int_raises.
  - intros _. destruct apply; [| apply raises_only_ret].
    apply with_lock_raises, converted.
Qed.

End ErrorConversion.

(** X7. [set_rf_attenuation], [set_acquisition_params],
    [set_process_params], [set_auto_params] and [set_ext_trigger] never
    raise [MozzaError]: a failure of their SDK call reaches the caller
    as a [SpectroError] that carries the error of the SDK, as the last
    part shows for [set_acquisition_params]. *)
Theorem setters_never_raise_MozzaError :
  forall (HW : Type) (sdk : Sdk.MozzaUSB HW),
    (forall value, raises_only not_MozzaError
                     (Mozza.set_rf_attenuation sdk value))
    /\ raises_only not_MozzaError (Mozza.set_acquisition_params sdk)
    /\ raises_only not_MozzaError (Mozza.set_process_params sdk)
    /\ (forall t a, raises_only not_MozzaError (Mozza.set_auto_params sdk t a))
    /\ (forall flag apply update_delay,
          raises_only not_MozzaError
            (Mozza.set_ext_trigger sdk flag apply update_delay))
    /\ (forall (w : Mozza.World HW) code d,
          Sdk.send_acquisition_params sdk (Mozza.device w)
          = (Sdk.Failed code, d) ->
          fst (Mozza.set_acquisition_params sdk w)
          = Raise (SpectroError (FromSdk code))).
Proof.
  intros HW sdk. repeat split.
  - intros value. apply set_rf_attenuation_raises.
  - apply set_acquisition_params_raises.
  - apply set_process_params_raises.
  - intros t a. apply set_auto_params_raises.
  - intros flag apply update_delay. apply set_ext_trigger_raises.
  - intros w code d H.
    unfold Mozza.set_acquisition_params, try_except, try_except_else,
      Mozza.call.
    rewrite H. reflexivity.
Qed.

(** The theorem at work: the instrument refuses the acquisition
    parameters. *)
Lemma setters_never_raise_MozzaError_witness :
  fst (Mozza.set_acquisition_params
         (Faults.sdk ["set_acquisition_params"%string])
         (Sim.connected Sim.healthy Sim.no_files))
  = Raise (SpectroError (FromSdk 9)).
Proof.
  destruct (setters_never_raise_MozzaError
              (Faults.sdk ["set_acquisition_params"%string]))
    as (_ & _ & _ & _ & _ & H).
  eapply H. vm_compute. reflexivity.
Defined.

(* ================================================================== *)
(** * set_all_device_params: the order of the calls *)
(* ================================================================== *)

(** X8. [set_all_device_params] sends the acquisition parameters, the
    process parameters, the RF attenuation and the gains, in this order
    and under the lock. It returns when the four calls have succeeded;
    at the first that fails it stops, the lock is given back, and the
    [MozzaError] of that call reaches the caller as it is. *)
Theorem set_all_device_params_stops_at_first_failure :
  forall (HW : Type) (sdk : Sdk.MozzaUSB HW) (w : Mozza.World HW),
    Mozza._lock w <> Lock.HeldByOther ->
    let r := Mozza.set_all_device_params sdk w in
    Mozza._lock (snd r) = Mozza._lock w
    /\ ((fst r = Ret tt
         /\ Mozza.calls (snd r)
            = Mozza.calls w
              ++ map (fun c => (c, true)) all_device_params_calls)
        \/ (exists k code,
              (k < 4)%nat
              /\ fst r = Raise (MozzaError code)
              /\ Mozza.calls (snd r)
                 = Mozza.calls w
                   ++ map (fun c => (c, true))
                          (firstn k all_device_params_calls)
                   ++ [(nth k all_device_params_calls Sdk.Call_setup_gains,
                        false)])).
Proof.
  intros HW sdk w Hfree r. unfold r, Mozza.set_all_device_params,
    Mozza.with_lock, Mozza.setup_gains, Mozza.acquisition_params.
  unfold bind, try_finally, Mozza.lock_acquire, Mozza.lock_release,
    Mozza.call, gets.
  destruct (Mozza._lock w) as [| n |] eqn:Hl; [| | congruence];
    cbn [Lock.acquire Mozza.device Mozza.set_lock Mozza.set_device
         Mozza.set_calls Mozza.calls Mozza._lock fst snd].
  all: idtac;
    (destruct (Sdk.send_acquisition_params sdk (Mozza.device w))
       as [[[] | c1] d1]; cbn;
     [| split; [reflexivity |]; right; exists 0%nat, c1;
        split; [lia | split; [reflexivity | reflexivity]]]).
  all: idtac;
    (destruct (Sdk.send_process_params sdk d1) as [[[] | c2] d2]; cbn;
     [| split; [reflexivity |]; right; exists 1%nat, c2;
        split; [lia | split; [reflexivity | rewrite <- ?app_assoc; reflexivity]]]).
  all: idtac;
    (destruct (Sdk.set_rf_attenuation sdk None d2) as [[[] | c3] d3]; cbn;
     [| split; [reflexivity |]; right; exists 2%nat, c3;
        split; [lia | split; [reflexivity | rewrite <- ?app_assoc; reflexivity]]]).
  all: idtac;
    (destruct (Sdk.setup_gains sdk _ _ d3) as [[[] | c4] d4]; cbn;
     [ split; [reflexivity |]; left; split;
       [reflexivity | rewrite <- ?app_assoc; reflexivity]
     | split; [reflexivity |]; right; exists 3%nat, c4;
       split; [lia | split; [reflexivity | rewrite <- ?app_assoc; reflexivity]]]).
Qed.

(** The theorem at work: the instrument refuses the RF attenuation. *)
Lemma set_all_device_params_stops_at_first_failure_witness :
  let r := Mozza.set_all_device_params
             (Faults.sdk ["set_rf_attenuation"%string])
             (Sim.new Sim.healthy Sim.no_files) in
  fst r = Raise (MozzaError 9)
  /\ Mozza.calls (snd r)
     = [(Sdk.Call_set_acquisition_params, true);
        (Sdk.Call_set_process_params, true);
        (Sdk.Call_set_rf_attenuation None, false)].
Proof.
  intros r.
  destruct (set_all_device_params_stops_at_first_failure
              (Faults.sdk ["set_rf_attenuation"%string])
              (Sim.new Sim.healthy Sim.no_files))
    as [_ [[H _] | (k & code & _ & _ & _)]].
  - discriminate.
  - vm_compute in H. discriminate H.
  - split; vm_compute; reflexivity.
Defined.

(* ================================================================== *)
(** * acquire_raw *)
(* ================================================================== *)

Section AcquireRaw.
Context {HW : Type} (sdk : Sdk.MozzaUSB HW).

(** [try: self.device.end_acquisition() / except MozzaError: pass]
    returns, with the call in the trace. *)
Lemma end_acquisition_swallowed (s : Mozza.World HW) :
  exists ok d,
    try_except (Mozza.call Sdk.Call_end_acquisition (Sdk.end_acquisition sdk))
      is_MozzaError (fun _ => ret tt) s
    = (Ret tt,
       Mozza.set_calls (Mozza.calls s ++ [(Sdk.Call_end_acquisition, ok)])
         (Mozza.set_device d s)).
Proof.
  unfold try_except, try_except_else, Mozza.call.
  destruct (Sdk.end_acquisition sdk (Mozza.device s)) as [[[] | code] d].
  - exists true, d. reflexivity.
  - exists false, d. reflexivity.
Qed.

(** The [try / except / else] of [acquire_raw]: its first SDK call is
    [begin_acquisition], and when that call fails nothing else is
    called and the two results stay [None]. *)
Lemma acquire_raw_try_begins bound (s : Mozza.World HW) :
  let body :=
    try_except_else
      (Mozza.call Sdk.Call_begin_acquisition (Sdk.begin_acquisition sdk) ;;;
       Mozza.read_raw sdk bound)
      is_MozzaError
      (fun _ => ret (None, None))
      (fun raw =>
         pair <- Mozza.call (Sdk.Call_separate_sig_ref raw)
                            (Sdk.separate_sig_ref sdk raw) ;;
         ret (Some (fst pair), Some (snd pair))) in
  Mozza._lock (snd (body s)) = Mozza._lock s
  /\ exists begun tr,
       Mozza.calls (snd (body s))
       = Mozza.calls s ++ (Sdk.Call_begin_acquisition, begun) :: tr
       /\ (begun = false -> tr = [] /\ fst (body s) = Ret (None, None)).
Proof.
  intros body. split.
  - assert (H : frames same_lock body).
    { unfold body. pose proof (@same_lock_read_raw HW sdk).
      frames_with ltac:(first [ exact (@same_lock_refl HW)
                              | exact (@same_lock_trans HW)
                              | intros ?; discriminate
                              | intros; reflexivity ]). }
    apply H.
  - unfold body, try_except_else, bind, Mozza.call.
    destruct (Sdk.begin_acquisition sdk (Mozza.device s)) as [[n | code] d].
    + exists true.
      set (s1 := Mozza.set_calls _ _).
      assert (Hread : frames trace_extends (Mozza.read_raw sdk bound))
        by (apply frames_read_raw; extends_side).
      destruct (Hread s1) as [tr1 Htr1].
      destruct (Mozza.read_raw sdk bound s1) as [[raw | e | h] s2];
        cbn [fst snd] in *.
      * destruct (Sdk.separate_sig_ref sdk raw (Mozza.device s2))
          as [[pair | code] d2]; cbn;
          eexists; (split; [| discriminate]);
          rewrite Htr1; unfold s1; cbn; rewrite <- !app_assoc; cbn;
          reflexivity.
      * exists tr1. split; [| discriminate].
        destruct (is_MozzaError e); cbn; rewrite Htr1; unfold s1; cbn;
          rewrite <- !app_assoc; reflexivity.
      * exists tr1. split; [| discriminate].
        rewrite Htr1. unfold s1. cbn. rewrite <- !app_assoc. reflexivity.
    + exists false, []. cbn. split; [reflexivity |]. intros _.
      split; reflexivity.
Qed.

(** A [with] block entered with the lock free or held by the calling
    thread: the body under the lock, then the release. *)
Lemma with_lock_free A (body : M (Mozza.World HW) A) (w : Mozza.World HW) :
  Mozza._lock w <> Lock.HeldByOther ->
  Mozza.with_lock body w
  = try_finally body Mozza.lock_release
      (Mozza.set_lock (snd (Lock.acquire (Mozza._lock w))) w).
Proof.
  intros Hfree. unfold Mozza.with_lock, bind, Mozza.lock_acquire.
  destruct (Mozza._lock w) as [| n |]; [reflexivity | reflexivity | congruence].
Qed.

End AcquireRaw.

(** X9. [acquire_raw], called with the lock free or held by the calling
    thread, and coming back: its first SDK call is [begin_acquisition]
    and its last is [end_acquisition], whose error, if any, does not
    reach the caller; the lock is given back; and when
    [begin_acquisition] fails, nothing is read and the call returns
    [(None, None)]. *)
Theorem acquire_raw_begins_and_ends :
  forall (HW : Type) (sdk : Sdk.MozzaUSB HW) (bound : nat)
         (w : Mozza.World HW),
    let r := Mozza.acquire_raw sdk bound w in
    Mozza._lock w <> Lock.HeldByOther ->
    (forall h, fst r <> Hang h) ->
    Mozza._lock (snd r) = Mozza._lock w
    /\ exists begun tr ended,
         Mozza.calls (snd r)
         = Mozza.calls w
           ++ (Sdk.Call_begin_acquisition, begun) :: tr
           ++ [(Sdk.Call_end_acquisition, ended)]
         /\ (begun = false -> tr = [] /\ fst r = Ret (None, None)).
Proof.
  intros HW sdk bound w r Hfree Hn.
  destruct (acquire_then_release Hfree) as [_ Hrel].
  unfold r in *. clear r. revert Hn.
  unfold Mozza.acquire_raw. rewrite with_lock_free by exact Hfree.
  set (w1 := Mozza.set_lock (snd (Lock.acquire (Mozza._lock w))) w).
  unfold try_finally.
  pose proof (acquire_raw_try_begins sdk bound w1)
    as [Hlock (begun & tr & Htr & Hfail)].
  cbv zeta in Hlock, Htr, Hfail.
  destruct (try_except_else _ _ _ _ w1) as [[v | e | h'] s1];
    cbn [fst snd] in *;
    try (intros Hn; exfalso; apply (Hn h'); reflexivity).
  all: destruct (end_acquisition_swallowed sdk s1) as (ended & d & Hend);
    rewrite Hend; unfold Mozza.lock_release;
    cbn [Mozza._lock Mozza.set_calls Mozza.set_device Mozza.set_lock];
    rewrite Hlock; unfold w1;
    cbn [Mozza._lock Mozza.set_calls Mozza.set_device Mozza.set_lock];
    rewrite Hrel;
    cbn [fst snd Mozza._lock Mozza.set_lock Mozza.calls
         Mozza.set_calls Mozza.set_device];
    intros _; (split; [reflexivity |]);
    exists begun, tr, ended;
    (split;
     [ rewrite Htr; unfold w1; cbn [Mozza.calls Mozza.set_lock];
       rewrite <- app_assoc; reflexivity
     | intros Hb; destruct (Hfail Hb) as [Ht Hv]; split;
       [exact Ht | first [exact Hv | discriminate Hv]] ]).
Qed.

(** The theorem at work: an instrument that refuses to begin. *)
Lemma acquire_raw_begins_and_ends_witness :
  let r := Mozza.acquire_raw Sim.sdk 8
             (Sim.connected Sim.not_starting Sim.no_files) in
  Mozza._lock (snd r) = Lock.Unlocked
  /\ exists begun tr ended,
       Mozza.calls (snd r)
       = Mozza.calls (Sim.connected Sim.not_starting Sim.no_files)
         ++ (Sdk.Call_begin_acquisition, begun) :: tr
         ++ [(Sdk.Call_end_acquisition, ended)]
       /\ (begun = false -> tr = [] /\ fst r = Ret (None, None)).
Proof.
  apply (acquire_raw_begins_and_ends Sim.sdk 8
           (Sim.connected Sim.not_starting Sim.no_files)).
  - vm_compute. discriminate.
  - intros h. vm_compute. discriminate.
Defined.

(* ================================================================== *)
(** * _acquire_spectrum: an error of process_spectrum *)
(* ================================================================== *)

Section Processing.
Context {HW : Type} (sdk : Sdk.MozzaUSB HW).

(** A [MozzaError] that leaves the [try / except / else] block comes
    from the [else] clause: [process_spectrum] has failed, last. *)
Lemma acquire_try_MozzaError bound (s : Mozza.World HW) code :
  fst (Mozza.acquire_try sdk bound s) = Raise (MozzaError code) ->
  exists raw tr,
    Mozza.calls (snd (Mozza.acquire_try sdk bound s))
    = Mozza.calls s ++ tr ++ [(Sdk.Call_process_spectrum raw, false)].
Proof.
  unfold Mozza.acquire_try, try_except_else.
  assert (Hbody : frames trace_extends
            (Mozza.call Sdk.Call_begin_acquisition (Sdk.begin_acquisition sdk) ;;;
             Mozza.read_raw sdk bound)).
  { pose proof (@frames_read_raw HW sdk trace_extends) as Hread.
    apply frames_bind; [extends_side | frames_with extends_more |].
    intros _. apply Hread; extends_side. }
  destruct (Hbody s) as [tr Htr].
  destruct ((Mozza.call Sdk.Call_begin_acquisition (Sdk.begin_acquisition sdk) ;;;
             Mozza.read_raw sdk bound) s) as [[raw | e | h] s1];
    cbn [fst snd] in *.
  - unfold bind, Mozza.call.
    destruct (Sdk.process_spectrum sdk raw (Mozza.device s1))
      as [[spec | code'] d]; cbn; [discriminate |].
    intros _. exists raw, tr. rewrite Htr, <- app_assoc. reflexivity.
  - destruct (is_MozzaError e) eqn:He; cbn; [discriminate |].
    intros H. injection H as ->. discriminate He.
  - discriminate.
Qed.

Lemma multiply_raises a b e : Np.multiply a b = inl e -> not_MozzaError e.
Proof. unfold Np.multiply. intros H. pure_leaf H. Qed.

Lemma mul_raises a b e : Np.mul a b = inl e -> not_MozzaError e.
Proof.
  unfold Np.mul. intros H. destruct a as [a |], b as [b |].
  - destruct (Np.multiply a b) eqn:Hm;
      [injection H as <-; eapply multiply_raises; eassumption
      | discriminate].
  - pure_leaf H.
  - pure_leaf H.
  - pure_leaf H.
Qed.

Lemma corrected_raises spec :
  raises_only not_MozzaError (@Mozza.corrected HW spec).
Proof.
  unfold Mozza.corrected.
  apply raises_only_bind; [apply raises_only_gets |].
  intros [|]; [| apply raises_only_ret].
  apply raises_only_bind; [apply raises_only_gets |].
  intros amp. apply raises_only_lift. intros e. apply mul_raises.
Qed.

(** With the window of the table in place, [_acquire_spectrum] goes
    straight to the lock. *)
Lemma acquire_spectrum_same_window depth bound background_mode
    (w : Mozza.World HW) :
  window_changed w = false ->
  Mozza._acquire_spectrum sdk depth bound background_mode w
  = (locked <- Mozza.lock_try_acquire ;;
     if locked then
       spec <- Mozza.acquire_locked sdk bound ;; Mozza.corrected spec
     else ret None) w.
Proof.
  intros H. unfold window_changed in H.
  unfold Mozza._acquire_spectrum, Mozza.reprogram_if_needed.
  unfold bind at 1. unfold bind at 1. unfold gets at 1.
  unfold bind at 1. unfold gets at 1. cbv beta iota.
  rewrite H. reflexivity.
Qed.

End Processing.

(** X10. When [_acquire_spectrum] raises a [MozzaError], the window being
    the one of the table in place, the call that has failed is
    [process_spectrum]: it stands in the [else] clause, which the
    [except MozzaError] of the block does not cover. The [finally]
    clause has run all the same: [end_acquisition] is the last call and
    the lock is given back. *)
Theorem acquire_spectrum_MozzaError_is_of_process_spectrum :
  forall (HW : Type) (sdk : Sdk.MozzaUSB HW) (depth bound : nat)
         (background_mode : bool) (w : Mozza.World HW) (code : Z),
    let r := Mozza._acquire_spectrum sdk depth bound background_mode w in
    window_changed w = false ->
    fst r = Raise (MozzaError code) ->
    Mozza._lock (snd r) = Mozza._lock w
    /\ exists raw tr ended,
         Mozza.calls (snd r)
         = Mozza.calls w ++ tr
           ++ [(Sdk.Call_process_spectrum raw, false);
               (Sdk.Call_end_acquisition, ended)].
Proof.
  intros HW sdk depth bound background_mode w code r Hwin.
  unfold r. clear r.
  rewrite acquire_spectrum_same_window by exact Hwin.
  unfold bind, Mozza.lock_try_acquire.
  destruct (Mozza._lock w) as [| n |] eqn:Hl; cbn [Lock.try_acquire];
    [| | discriminate].
  all: unfold Mozza.acquire_locked, try_finally;
    match goal with
    | |- context [Mozza.acquire_try _ ?b ?s] =>
        pose proof (@acquire_try_MozzaError HW sdk b s) as Htry;
        pose proof (acquire_try_same_lock sdk b s) as Hsame;
        destruct (Mozza.acquire_try sdk b s) as [[spec | e | h] s1]
    end;
    cbn [fst snd] in *; [| | discriminate];
    unfold Mozza.acquire_finally, bind;
    destruct (end_acquisition_swallowed sdk s1) as (ended & d & Hend);
    rewrite Hend; unfold Mozza.lock_release, same_lock in *;
    cbn [Mozza._lock Mozza.set_calls Mozza.set_device Mozza.set_lock] in *;
    rewrite Hsame; cbn [Lock.release fst snd].
  all: try (intros H; apply corrected_raises in H; discriminate H).
  all: intros H; injection H as ->;
    destruct (Htry code eq_refl) as (raw & tr & Htr);
    (split; [reflexivity |]);
    exists raw, tr, ended;
    cbn [Mozza.calls Mozza.set_lock Mozza.set_calls Mozza.set_device];
    rewrite Htr; cbn [Mozza.calls Mozza.set_lock];
    rewrite <- !app_assoc; reflexivity.
Qed.

(** The theorem at work: an instrument that acquires and reads, and
    whose data the SDK cannot process. *)
Lemma acquire_spectrum_MozzaError_is_of_process_spectrum_witness :
  let w := snd (Mozza.load_table (Faults.sdk ["process_spectrum"%string]) 8
                  (PInt 0) (PInt 2) None
                  (request 0 2 (Sim.connected Sim.healthy Sim.no_files))) in
  let r := Mozza._acquire_spectrum (Faults.sdk ["process_spectrum"%string])
             8 8 false w in
  Mozza._lock (snd r) = Mozza._lock w
  /\ exists raw tr ended,
       Mozza.calls (snd r)
       = Mozza.calls w ++ tr
         ++ [(Sdk.Call_process_spectrum raw, false);
             (Sdk.Call_end_acquisition, ended)].
Proof.
  intros w.
  apply (acquire_spectrum_MozzaError_is_of_process_spectrum
           (Faults.sdk ["process_spectrum"%string]) 8 8 false w (code := 9)).
  - vm_compute. reflexivity.
  - vm_compute. reflexivity.
Defined.

(* ================================================================== *)
(** * set_ext_trigger and get_ext_trigger *)
(* ================================================================== *)

(** X11. [get_ext_trigger()] after [set_ext_trigger(flag)] with [apply] left
    at [False] returns [flag], with or without [update_delay], and also
    when the cached delay cannot be converted and [set_ext_trigger]
    raises: the trigger source is assigned first. *)
Theorem get_ext_trigger_after_set :
  forall (HW : Type) (sdk : Sdk.MozzaUSB HW) (flag update_delay : bool)
         (w : Mozza.World HW),
    fst (Mozza.get_ext_trigger
           (snd (Mozza.set_ext_trigger sdk flag false update_delay w)))
    = Ret flag.
Proof.
  intros HW sdk flag update_delay w.
  unfold Mozza.set_ext_trigger, Mozza.get_ext_trigger,
    Mozza.update_acquisition_params, bind, gets, modify, lift.
  destruct flag, update_delay; cbn; try reflexivity.
  destruct (py_int (Mozza._trigger_delay_us w)); reflexivity.
Qed.

(** X12. Two switches to the internal trigger in a row, both with
    [update_delay]: the second caches the delay that the first has set
    to zero, so the cached delay is 0 and a later switch to the
    external trigger gives the device a delay of 0, whatever delay it
    had at the start. *)
Theorem second_internal_switch_forgets_delay :
  forall (HW : Type) (sdk : Sdk.MozzaUSB HW) (w : Mozza.World HW),
    let to_internal := Mozza.set_ext_trigger sdk false false true in
    let to_external := Mozza.set_ext_trigger sdk true false true in
    let twice := snd (to_internal (snd (to_internal w))) in
    Mozza._trigger_delay_us twice = PInt 0
    /\ fst (to_external twice) = Ret tt
    /\ Sdk.trigger_delay_us
         (Sdk.acquisition_params (Mozza.device (snd (to_external twice))))
       = 0.
Proof.
  intros HW sdk w to_internal to_external twice.
  unfold twice, to_internal, to_external.
  rewrite !set_ext_trigger_internal.
  split; [reflexivity |].
  rewrite (set_ext_trigger_external sdk _ (delay := 0)) by reflexivity.
  split; reflexivity.
Qed.

(* ================================================================== *)
(** * make_acquisition while the lock is taken *)
(* ================================================================== *)

(** X13. [make_acquisition] while another thread holds the lock, for the
    window of the table in place: the acquisition is dropped, and the
    [None] that [_acquire_spectrum] returns is stored as the spectrum,
    in place of the one stored before. No SDK call is made. *)
Theorem make_acquisition_busy_stores_None :
  forall (HW : Type) (sdk : Sdk.MozzaUSB HW) (depth bound : nat)
         (start stop npixels : Z) (background_mode : bool)
         (w : Mozza.World HW),
    Spectro._connected (Mozza.spectro w) = true ->
    Spectro._npixels (Mozza.spectro w) = Some npixels ->
    0 <= start < stop -> stop < npixels ->
    Mozza._lock w = Lock.HeldByOther ->
    Mozza._acquisition w
    = {| Spectro.start := PInt start; Spectro.stop := PInt stop |} ->
    let r := Mozza.make_acquisition sdk depth bound start stop
               background_mode w in
    fst r = Ret tt
    /\ Spectro._spectrum (Mozza.spectro (snd r)) = None
    /\ Mozza.calls (snd r) = Mozza.calls w.
Proof.
  intros HW sdk depth bound start stop npixels background_mode w
    Hc Hn Hstart Hstop Hl Htable r.
  unfold r.
  rewrite (make_acquisition_connected sdk depth bound start stop
             background_mode w Hc Hn).
  cbv zeta.
  replace (stop <? 0) with false by (symmetry; apply Z.ltb_ge; lia).
  replace (start <? 0) with false by (symmetry; apply Z.ltb_ge; lia).
  replace ((stop <? 1) || (stop >=? npixels)) with false
    by (symmetry; apply orb_false_iff; split;
        [apply Z.ltb_ge | rewrite Z.geb_leb; apply Z.leb_gt]; lia).
  replace ((start <? 0) || (start >=? stop)) with false
    by (symmetry; apply orb_false_iff; split;
        [apply Z.ltb_ge | rewrite Z.geb_leb; apply Z.leb_gt]; lia).
  assert (Hwin : window_changed (request start stop w) = false).
  { unfold window_changed, request.
    cbn [Mozza._acquisition Mozza.set_spectro Mozza.spectro
         Spectro.acquisition Spectro.set_acquisition
         Spectro.start Spectro.stop].
    rewrite Htable. cbn [Spectro.start Spectro.stop].
    unfold py_neb, py_eqb. rewrite !Z.eqb_refl. reflexivity. }
  unfold acquire_and_store, bind.
  rewrite acquire_spectrum_same_window by exact Hwin.
  unfold bind, Mozza.lock_try_acquire, request.
  cbn [Mozza._lock Mozza.set_spectro]. rewrite Hl. cbn.
  repeat split.
Qed.

(** The theorem at work: a second acquisition of the window [(0, 2)]
    while the lock is taken. *)
Lemma make_acquisition_busy_stores_None_witness :
  let w := held_by_other
             (snd (Mozza.make_acquisition Sim.sdk 8 8 0 2 false
                     (Sim.connected Sim.healthy Sim.no_files))) in
  Spectro._spectrum (Mozza.spectro w) = Some [1; 1; 1]%float
  /\ Spectro._spectrum
       (Mozza.spectro (snd (Mozza.make_acquisition Sim.sdk 8 8 0 2 false w)))
     = None.
Proof.
  intros w. split; [vm_compute; reflexivity |].
  apply (@make_acquisition_busy_stores_None _ Sim.sdk 8 8 0 2 3500 false w);
    try (vm_compute; reflexivity); lia.
Defined.

(* ================================================================== *)
(** * _acquire_spectrum before any make_acquisition *)
(* ================================================================== *)

Section NoWindow.
Context {HW : Type} (sdk : Sdk.MozzaUSB HW).

Lemma connect_device_same_windows serial :
  frames (fun w w' : Mozza.World HW =>
            Spectro.acquisition (Mozza.spectro w')
            = Spectro.acquisition (Mozza.spectro w)
            /\ Mozza._acquisition w' = Mozza._acquisition w)
    (Mozza.connect_device sdk serial).
Proof.
  apply frames_connect_device;
    first [ intros; split; reflexivity
          | intros a b c [H1 H2] [H3 H4]; split; congruence
          | intros s w H; split; [exact H | reflexivity] ].
Qed.

(** With [acquisition] still [Acquisition(None, None)] and another
    window in [_acquisition], [_acquire_spectrum] assigns
    [_acquisition] and raises [TypeError]. *)
Lemma acquire_spectrum_no_window depth bound background_mode
    (w : Mozza.World HW) :
  Spectro.acquisition (Mozza.spectro w)
  = {| Spectro.start := PNone; Spectro.stop := PNone |} ->
  window_changed w = true ->
  Mozza._acquire_spectrum sdk (S depth) bound background_mode w
  = (Raise TypeError,
     Mozza.set_table_window
       {| Spectro.start := PNone; Spectro.stop := PNone |} w).
Proof.
  intros Hacq Hwin. unfold window_changed in Hwin.
  unfold Mozza._acquire_spectrum, Mozza.reprogram_if_needed.
  unfold bind at 1. unfold bind at 1. unfold gets at 1.
  unfold bind at 1. unfold gets at 1. cbv beta iota.
  rewrite Hwin. rewrite Hacq. cbn [Spectro.start Spectro.stop].
  cbn [Mozza.load_table]. unfold Mozza.requested_table.
  unfold bind, modify, gets, lift.
  cbn [Mozza.spectro Mozza.set_table_window].
  unfold Mozza.window_wavenumbers.
  destruct (Spectro._lambdas (Mozza.spectro w)); reflexivity.
Qed.

End NoWindow.

(** X14. [_acquire_spectrum] on an object whose [acquisition] is still the
    [Acquisition(None, None)] of the constructor (no [make_acquisition]
    has been called, as in the viewer, which calls [_acquire_spectrum]
    itself): the window test sends it to [load_table(None, None)],
    which assigns [_acquisition] and then raises [TypeError] on
    [stop - start + 1], before any SDK call. The assignment stays, so
    the next call finds the two windows equal and goes on without
    writing any table. A new object is in that state after
    [connect_device]. *)
Theorem acquire_spectrum_without_window :
  forall (HW : Type) (sdk : Sdk.MozzaUSB HW) (depth bound : nat)
         (background_mode : bool),
    (forall w : Mozza.World HW,
        Spectro.acquisition (Mozza.spectro w)
        = {| Spectro.start := PNone; Spectro.stop := PNone |} ->
        window_changed w = true ->
        Mozza._acquire_spectrum sdk (S depth) bound background_mode w
        = (Raise TypeError,
           Mozza.set_table_window
             {| Spectro.start := PNone; Spectro.stop := PNone |} w)
        /\ window_changed
             (Mozza.set_table_window
                {| Spectro.start := PNone; Spectro.stop := PNone |} w)
           = false)
    /\ (forall (d : Sdk.Device HW) fs serial,
          let w := snd (Mozza.connect_device sdk serial (Mozza.init d fs)) in
          Spectro.acquisition (Mozza.spectro w)
          = {| Spectro.start := PNone; Spectro.stop := PNone |}
          /\ window_changed w = true).
Proof.
  intros HW sdk depth bound background_mode. split.
  - intros w Hacq Hwin. split.
    + apply acquire_spectrum_no_window; assumption.
    + unfold window_changed.
      cbn [Mozza._acquisition Mozza.set_table_window Mozza.spectro
           Spectro.start Spectro.stop].
      rewrite Hacq. reflexivity.
  - intros d fs serial w.
    destruct (connect_device_same_windows sdk serial (Mozza.init d fs))
      as [H1 H2].
    fold w in H1, H2. unfold window_changed. rewrite H1, H2.
    split; reflexivity.
Qed.

(** The theorem at work: the first [_acquire_spectrum] of an object
    that has just been connected. *)
Lemma acquire_spectrum_without_window_witness :
  fst (Mozza._acquire_spectrum Sim.sdk 8 8 false
         (Sim.connected Sim.healthy Sim.no_files))
  = Raise TypeError.
Proof.
  destruct (acquire_spectrum_without_window Sim.sdk 7 8 false) as (H & _).
  destruct (H (Sim.connected Sim.healthy Sim.no_files)) as [Hr _].
  - vm_compute. reflexivity.
  - vm_compute. reflexivity.
  - rewrite Hr. reflexivity.
Defined.

(* ================================================================== *)
(** * load_table: the window and its table *)
(* ================================================================== *)

Section Window.
Context {HW : Type} (sdk : Sdk.MozzaUSB HW).

Lemma item_out_of_range (a : list float) i :
  i < - Z.of_nat (List.length a) \/ Z.of_nat (List.length a) <= i ->
  Np.item a i = inl IndexError.
Proof.
  intros H. unfold Np.item.
  destruct (i <? 0) eqn:Hneg;
    [apply Z.ltb_lt in Hneg | apply Z.ltb_ge in Hneg].
  - destruct ((0 <=? i + Z.of_nat (List.length a))
              && (i + Z.of_nat (List.length a) <? Z.of_nat (List.length a)))
      eqn:E; [| reflexivity].
    apply andb_true_iff in E as [E1 E2].
    apply Z.leb_le in E1. apply Z.ltb_lt in E2. lia.
  - destruct ((0 <=? i) && (i <? Z.of_nat (List.length a))) eqn:E;
      [| reflexivity].
    apply andb_true_iff in E as [E1 E2].
    apply Z.leb_le in E1. apply Z.ltb_lt in E2. lia.
Qed.

Lemma item_in_range (a : list float) i :
  - Z.of_nat (List.length a) <= i < Z.of_nat (List.length a) ->
  exists x, Np.item a i = inr x.
Proof.
  intros H. unfold Np.item.
  set (j := if i <? 0 then i + Z.of_nat (List.length a) else i).
  assert (Hj : 0 <= j < Z.of_nat (List.length a)).
  { unfold j. destruct (i <? 0) eqn:Hneg;
      [apply Z.ltb_lt in Hneg | apply Z.ltb_ge in Hneg]; lia. }
  replace ((0 <=? j) && (j <? Z.of_nat (List.length a))) with true
    by (symmetry; apply andb_true_iff; split;
        [apply Z.leb_le | apply Z.ltb_lt]; lia).
  destruct (nth_error a (Z.to_nat j)) as [x |] eqn:E; [eauto |].
  apply nth_error_None in E. lia.
Qed.

Lemma item_raises a i e : Np.item a i = inl e -> e = IndexError.
Proof. unfold Np.item. intros H. pure_leaf H. Qed.

Lemma linspace_length a b num table :
  Np.linspace a b num = inr table ->
  0 <= num /\ Z.of_nat (List.length table) = num.
Proof.
  unfold Np.linspace. destruct (num <? 0) eqn:Hneg; [discriminate |].
  apply Z.ltb_ge in Hneg. intros H. injection H as <-.
  rewrite length_map, length_seq. lia.
Qed.

Lemma linspace_returns a b num :
  0 <= num -> exists table, Np.linspace a b num = inr table.
Proof.
  intros H. unfold Np.linspace.
  replace (num <? 0) with false by (symmetry; apply Z.ltb_ge; lia).
  eauto.
Qed.

End Window.

(** X15. [load_table(start, stop)] with an index outside the wavelength
    axis raises [IndexError] before any SDK call, and after it has
    assigned [_acquisition]: the object is left claiming that the table
    of the window [(start, stop)] is in place. *)
Theorem load_table_index_error_keeps_window :
  forall (HW : Type) (sdk : Sdk.MozzaUSB HW) (depth : nat) (start stop : Z)
         (w : Mozza.World HW) (lambdas : list float),
    Spectro._lambdas (Mozza.spectro w) = Some lambdas ->
    let n := Z.of_nat (List.length lambdas) in
    (start < - n \/ n <= start \/ stop < - n \/ n <= stop) ->
    Mozza.load_table sdk (S depth) (PInt start) (PInt stop) None w
    = (Raise IndexError,
       Mozza.set_table_window
         {| Spectro.start := PInt start; Spectro.stop := PInt stop |} w).
Proof.
  intros HW sdk depth start stop w lambdas Hl n Hout.
  cbn [Mozza.load_table]. unfold Mozza.requested_table.
  unfold bind, modify, gets, lift.
  cbn [Mozza.spectro Mozza.set_table_window]. rewrite Hl.
  unfold Mozza.window_wavenumbers, Np.getitem.
  destruct (Np.item lambdas start) as [e | x] eqn:Hs.
  - apply item_raises in Hs. subst. reflexivity.
  - destruct (Np.item lambdas stop) as [e | y] eqn:Ht.
    + apply item_raises in Ht. subst. reflexivity.
    + exfalso. fold n in Hout.
      destruct Hout as [H | [H | [H | H]]].
      * rewrite item_out_of_range in Hs by (left; exact H). discriminate.
      * rewrite item_out_of_range in Hs by (right; exact H). discriminate.
      * rewrite item_out_of_range in Ht by (left; exact H). discriminate.
      * rewrite item_out_of_range in Ht by (right; exact H). discriminate.
Qed.

(** The theorem at work: the window [(0, 3500)] on an axis of 3500
    points. *)
Lemma load_table_index_error_keeps_window_witness :
  Mozza.load_table Sim.sdk 8 (PInt 0) (PInt 3500) None
    (Sim.connected Sim.healthy Sim.no_files)
  = (Raise IndexError,
     Mozza.set_table_window
       {| Spectro.start := PInt 0; Spectro.stop := PInt 3500 |}
       (Sim.connected Sim.healthy Sim.no_files)).
Proof.
  apply (@load_table_index_error_keeps_window _ Sim.sdk 7 0 3500
           (Sim.connected Sim.healthy Sim.no_files)
           (map Np.inv_1e7
              (match Np.arange 12500 2000 (-3) with
               | inr l => l
               | inl _ => []
               end))).
  - vm_compute. reflexivity.
  - right. right. right. vm_compute. discriminate.
Defined.

(** X16. [load_table(start, stop)] with both indices on the wavelength
    axis, [start <= stop + 1] and the lock free: the first call to the
    SDK writes a table of [stop - start + 1] wavenumbers. *)
Theorem load_table_writes_window_table :
  forall (HW : Type) (sdk : Sdk.MozzaUSB HW) (depth : nat) (start stop : Z)
         (w : Mozza.World HW) (lambdas : list float),
    Spectro._lambdas (Mozza.spectro w) = Some lambdas ->
    let n := Z.of_nat (List.length lambdas) in
    - n <= start < n -> - n <= stop < n -> 0 <= stop - start + 1 ->
    Mozza._lock w <> Lock.HeldByOther ->
    exists table ok rest,
      Mozza.calls
        (snd (Mozza.load_table sdk (S depth) (PInt start) (PInt stop) None w))
      = Mozza.calls w ++ (Sdk.Call_set_wavenumber_array table, ok) :: rest
      /\ Z.of_nat (List.length table) = stop - start + 1.
Proof.
  intros HW sdk depth start stop w lambdas Hl n Hs Ht Hnum Hfree.
  destruct (item_in_range lambdas Hs) as [x Hx].
  destruct (item_in_range lambdas Ht) as [y Hy].
  destruct (linspace_returns (Np.inv_1e7 x) (Np.inv_1e7 y) Hnum)
    as [table Htable].
  assert (Hw : Mozza.window_wavenumbers
                 (Spectro._lambdas (Mozza.spectro w)) (PInt start) (PInt stop)
               = inr table).
  { rewrite Hl. unfold Mozza.window_wavenumbers, Np.getitem.
    rewrite Hx, Hy. exact Htable. }
  edestruct (@load_table_writes_first HW sdk depth (PInt start) (PInt stop)
               None w) as (ok & rest & Hcalls);
    [apply requested_table_window; exact Hw | exact Hfree |].
  exists table, ok, rest. split; [exact Hcalls |].
  apply (linspace_length _ _ _ Htable).
Qed.

(** The theorem at work: the window [(0, 2)] gives a table of three
    wavenumbers. *)
Lemma load_table_writes_window_table_witness :
  exists table ok rest,
    Mozza.calls
      (snd (Mozza.load_table Sim.sdk 8 (PInt 0) (PInt 2) None
              (Sim.connected Sim.healthy Sim.no_files)))
    = Mozza.calls (Sim.connected Sim.healthy Sim.no_files)
      ++ (Sdk.Call_set_wavenumber_array table, ok) :: rest
    /\ Z.of_nat (List.length table) = 3.
Proof.
  apply (@load_table_writes_window_table _ Sim.sdk 7 0 2
           (Sim.connected Sim.healthy Sim.no_files)
           (map Np.inv_1e7
              (match Np.arange 12500 2000 (-3) with
               | inr l => l
               | inl _ => []
               end))).
  - vm_compute. reflexivity.
  - vm_compute. split; [discriminate | reflexivity].
  - vm_compute. split; [discriminate | reflexivity].
  - lia.
  - vm_compute. discriminate.
Defined.

(* ================================================================== *)
(** * load_table: what a retry leaves in _acquisition *)
(* ================================================================== *)

Section RetryWindow.
Context {HW : Type} (sdk : Sdk.MozzaUSB HW).
Variables (table : list float) (first last : float).
Hypothesis Hfirst : Np.item table 0 = inr first.
Hypothesis Hlast : Np.item table (-1) = inr last.

Ltac ends_side :=
  first [ intros ? ?; assumption
        | intros ? ? ? ?H1 ?H2 ?H;
          match goal with
          | Ha : holds_window _ ?a ?b, Hb : holds_window _ ?b ?c,
            Hc : Mozza._acquisition ?a = _ |- _ => exact (Hb (Ha Hc))
          end
        | intros ?; discriminate
        | intros ?; reflexivity
        | intros; intros ?H;
          match goal with Hc : Mozza._acquisition _ = _ |- _ => exact Hc end ].

(** A [load_table] that is given the table leaves the two ends of the
    table in [_acquisition], however it ends. *)
Lemma load_table_given_table_stores_ends depth start stop
    (w : Mozza.World HW) :
  Mozza._acquisition
    (snd (Mozza.load_table sdk (S depth) start stop (Some table) w))
  = table_ends first last.
Proof.
  revert w. induction depth as [| depth IH]; intros w.
  - cbn [Mozza.load_table].
    erewrite bind_ret_step
      by (apply (requested_table_given _ _ _ _ Hfirst Hlast)).
    match goal with
    | |- context [bind ?m ?k ?s] =>
        assert (Hk : frames (holds_window (table_ends first last)) (bind m k))
    end.
    { assert (Hin : forall s t wn,
                frames (holds_window (table_ends first last))
                  (Mozza.load_table sdk 0 s t wn)).
      { intros s t wn x H. exact H. }
      unfold Mozza.reallocate. frames_with ends_side. }
    apply Hk. reflexivity.
  - cbn [Mozza.load_table].
    erewrite bind_ret_step
      by (apply (requested_table_given _ _ _ _ Hfirst Hlast)).
    match goal with
    | |- context [bind ?m ?k ?s] =>
        assert (Hk : frames (holds_window (table_ends first last)) (bind m k))
    end.
    { assert (Hin : frames (holds_window (table_ends first last))
                      (Mozza.load_table sdk (S depth) start stop (Some table))).
      { intros x _. apply IH. }
      unfold Mozza.reallocate. frames_with ends_side. }
    apply Hk. reflexivity.
Qed.

End RetryWindow.

(** X17. [load_table(start, stop)] whose first write is refused and whose
    [end_acquisition] answers: the retry is the call
    [load_table(start, stop, wnums)], which assigns
    [Acquisition(1e7/wnums[0], 1e7/wnums[-1])]. However the retry ends,
    [_acquisition] then holds the two ends of the table as wavelengths,
    not the indices [(start, stop)] that [_acquire_spectrum] compares
    it with. *)
Theorem load_table_retry_stores_wavelengths :
  forall (HW : Type) (sdk : Sdk.MozzaUSB HW) (depth : nat)
         (start stop : pyval) (w : Mozza.World HW)
         (table : list float) (first last : float) (code : Z)
         (d1 d2 : Sdk.Device HW),
    Mozza._lock w <> Lock.HeldByOther ->
    Mozza.window_wavenumbers (Spectro._lambdas (Mozza.spectro w)) start stop
    = inr table ->
    Np.item table 0 = inr first ->
    Np.item table (-1) = inr last ->
    Sdk.set_wavenumber_array sdk table (Mozza.device w)
    = (Sdk.Failed code, d1) ->
    Sdk.end_acquisition sdk d1 = (Sdk.Ok tt, d2) ->
    Mozza._acquisition
      (snd (Mozza.load_table sdk (S (S depth)) start stop None w))
    = {| Spectro.start := PFloat (Np.inv_1e7 first);
         Spectro.stop := PFloat (Np.inv_1e7 last) |}.
Proof.
  intros HW sdk depth start stop w table first last code d1 d2
    Hfree Hw Hfirst Hlast Hwrite Hend.
  pose proof (requested_table_window start stop w Hw) as HA.
  destruct (acquire_then_release Hfree) as [Hacq _].
  remember (S depth) as nested eqn:Hdepth.
  cbn [Mozza.load_table].
  erewrite bind_ret_step by exact HA.
  unfold bind at 1. unfold Mozza.with_lock at 1.
  erewrite bind_ret_step
    with (a := tt)
         (s1 := Mozza.set_lock (snd (Lock.acquire (Mozza._lock w)))
                  (Mozza.set_table_window
                     {| Spectro.start := start; Spectro.stop := stop |} w));
    cycle 1.
  { unfold Mozza.lock_acquire.
    cbn [Mozza._lock Mozza.set_table_window].
    destruct (Lock.acquire (Mozza._lock w)) as [o l']. simpl in *.
    subst. reflexivity. }
  unfold try_finally at 1.
  erewrite try_except_else_caught_step; cycle 1.
  { apply call_failed_step. cbn. exact Hwrite. }
  { reflexivity. }
  unfold try_except_else at 1.
  erewrite bind_ret_step; cycle 1.
  { apply call_ok_step. cbn. exact Hend. }
  subst nested.
  match goal with
  | |- context [Mozza.load_table sdk (S depth) start stop (Some table) ?s] =>
      pose proof (@load_table_given_table_stores_ends HW sdk table first last
                    Hfirst Hlast depth start stop s) as Hnested;
      destruct (Mozza.load_table sdk (S depth) start stop (Some table) s)
        as [[u | e | h] sY]
  end; cbn [snd] in Hnested; unfold Mozza.lock_release, ret, raise;
    cbv beta iota.
  - destruct (Lock.release (Mozza._lock sY)) as [[u' | e' | h'] l'];
      exact Hnested.
  - destruct (is_MozzaError e); cbv beta iota;
      destruct (Lock.release (Mozza._lock sY)) as [[u' | e' | h'] l'];
      exact Hnested.
  - exact Hnested.
Qed.

(** The theorem at work: an instrument that refuses the first write of
    the window [(0, 2)] and accepts the second. Afterwards
    [_acquisition] differs from the window asked for, so the next
    acquisition of the same window writes the table again. *)
Lemma load_table_retry_stores_wavelengths_witness :
  let w := request 0 2 (Sim.connected (Sim.refusing 1) Sim.no_files) in
  let w' := snd (Mozza.load_table Sim.sdk 8 (PInt 0) (PInt 2) None w) in
  Mozza._acquisition w'
  = {| Spectro.start := PFloat (Np.inv_1e7 12500);
       Spectro.stop := PFloat (Np.inv_1e7 12494) |}
  /\ window_changed w' = true.
Proof.
  intros w w'. split; [| vm_compute; reflexivity].
  unfold w'.
  eapply (@load_table_retry_stores_wavelengths _ Sim.sdk 6 (PInt 0) (PInt 2)
            w [12500; 12497; 12494]%float 12500%float 12494%float 1).
  - vm_compute. discriminate.
  - vm_compute. reflexivity.
  - vm_compute. reflexivity.
  - vm_compute. reflexivity.
  - vm_compute. reflexivity.
  - vm_compute. reflexivity.
Defined.

(* ================================================================== *)
(** * grab_data: what the viewer hands to PyMoDAQ *)
(* ================================================================== *)

Section GrabData.
Context {HW : Type} (sdk : Sdk.MozzaUSB HW).
Context {Data : Type} (DataFromPlugins : Viewer.total -> exn + Data).

Lemma silent_on_controller A (m : M (Mozza.World HW) A) :
  frames (@silent HW Data) (Viewer.on_controller m).
Proof.
  intros s. unfold Viewer.on_controller.
  destruct (m (Viewer.controller s)) as [o w]. split; reflexivity.
Qed.

Lemma silent_acquire_rounds depth bound n data_tot :
  frames (@silent HW Data) (Viewer.acquire_rounds sdk depth bound n data_tot).
Proof.
  revert data_tot. induction n as [| n IH]; intros data_tot s.
  - split; reflexivity.
  - cbn [Viewer.acquire_rounds]. unfold bind.
    pose proof (silent_on_controller
                  (Mozza._acquire_spectrum sdk depth bound false) s) as H1.
    destruct (Viewer.on_controller _ s) as [[data | e | h] s1];
      cbn [snd] in *; try exact H1.
    unfold lift, ret, raise.
    destruct (Viewer.iadd data_tot data) as [e | t]; [exact H1 |].
    destruct (IH t s1) as [H2 H3]. destruct H1 as [H4 H5].
    split; congruence.
Qed.

(** A first round in which the controller raises ends the loop. *)
Lemma acquire_rounds_raise depth bound n data_tot
    (s : Viewer.State HW Data) e w :
  Mozza._acquire_spectrum sdk depth bound false (Viewer.controller s)
  = (Raise e, w) ->
  Viewer.acquire_rounds sdk depth bound (S n) data_tot s
  = (Raise e, Viewer.set_controller w s).
Proof.
  intros H. cbn [Viewer.acquire_rounds].
  unfold bind, Viewer.on_controller. rewrite H. reflexivity.
Qed.

(** A first round in which the controller returns [None] ends the loop
    with the [TypeError] of [data_tot += None]. *)
Lemma acquire_rounds_None depth bound n data_tot
    (s : Viewer.State HW Data) w :
  Mozza._acquire_spectrum sdk depth bound false (Viewer.controller s)
  = (Ret None, w) ->
  Viewer.acquire_rounds sdk depth bound (S n) data_tot s
  = (Raise TypeError, Viewer.set_controller w s).
Proof.
  intros H. cbn [Viewer.acquire_rounds].
  unfold bind, Viewer.on_controller. rewrite H. reflexivity.
Qed.

(** What [grab_data] does once its loop has raised. *)
Lemma grab_data_loop_raises depth bound Naverage
    (s s1 : Viewer.State HW Data) e :
  Viewer.acquire_rounds sdk depth bound (Z.to_nat Naverage) Viewer.Zero s
  = (Raise e, s1) ->
  Viewer.grab_data sdk DataFromPlugins depth bound Naverage s
  = (Ret tt,
     Viewer.emit_status (Viewer.Text "Error while acquiring data")
       (Viewer.emit_status (Viewer.Exception_text e) s1)).
Proof.
  intros H. unfold Viewer.grab_data, try_except, try_except_else.
  unfold bind at 1. rewrite H. reflexivity.
Qed.

End GrabData.

(** X18. [grab_data] never raises. Unless the controller hangs, it returns
    having either published one datum and no message, or no datum and
    two messages: the text of the exception caught and
    ["Error while acquiring data"]. *)
Theorem grab_data_publishes_or_reports :
  forall (HW : Type) (sdk : Sdk.MozzaUSB HW) (Data : Type)
         (DataFromPlugins : Viewer.total -> exn + Data)
         (depth bound : nat) (Naverage : Z) (s : Viewer.State HW Data),
    let r := Viewer.grab_data sdk DataFromPlugins depth bound Naverage s in
    (forall e, fst r <> Raise e)
    /\ ((forall h, fst r <> Hang h) ->
        fst r = Ret tt
        /\ ((exists data,
               Viewer.emitted (snd r) = Viewer.emitted s ++ [data]
               /\ Viewer.statuses (snd r) = Viewer.statuses s)
            \/ (exists e,
                  Viewer.emitted (snd r) = Viewer.emitted s
                  /\ Viewer.statuses (snd r)
                     = Viewer.statuses s
                       ++ [Viewer.Exception_text e;
                           Viewer.Text "Error while acquiring data"]))).
Proof.
  intros HW sdk Data DataFromPlugins depth bound Naverage s r.
  unfold r. clear r.
  unfold Viewer.grab_data, try_except, try_except_else, bind.
  destruct (silent_acquire_rounds sdk depth bound (Z.to_nat Naverage)
              Viewer.Zero s) as [He Hs].
  destruct (Viewer.acquire_rounds sdk depth bound (Z.to_nat Naverage)
              Viewer.Zero s) as [[data_tot | e | h] s1]; cbn [snd] in He, Hs.
  - unfold lift, ret, raise, modify.
    destruct (Viewer.idiv data_tot Naverage) as [e | t]; cbn.
    + split; [discriminate |]. intros _. split; [reflexivity |].
      right. exists e. rewrite He, Hs, <- app_assoc. split; reflexivity.
    + destruct (DataFromPlugins t) as [e | data]; cbn.
      * split; [discriminate |]. intros _. split; [reflexivity |].
        right. exists e. rewrite He, Hs, <- app_assoc. split; reflexivity.
      * split; [discriminate |]. intros _. split; [reflexivity |].
        left. exists data. rewrite He, Hs. split; reflexivity.
  - cbn. split; [discriminate |]. intros _. split; [reflexivity |].
    right. exists e. rewrite He, Hs, <- app_assoc. split; reflexivity.
  - cbn. split; [discriminate |]. intros Hn. exfalso.
    apply (Hn h). reflexivity.
Qed.

(** The theorem at work: two rounds on a controller that has acquired
    the window [(0, 2)] publish one datum. *)
Lemma grab_data_publishes_or_reports_witness :
  let s := Faults.viewer
             (snd (Mozza.make_acquisition Sim.sdk 8 8 0 2 false
                     (Sim.connected Sim.healthy Sim.no_files))) in
  let r := Viewer.grab_data Sim.sdk Faults.DataFromPlugins 8 8 2 s in
  fst r = Ret tt
  /\ Viewer.emitted (snd r) = [Viewer.Arr [1; 1; 1]%float].
Proof.
  intros s r.
  destruct (@grab_data_publishes_or_reports _ Sim.sdk Viewer.total
              Faults.DataFromPlugins 8 8 2 s) as [_ H].
  destruct H as [Hret _].
  - intros h. vm_compute. discriminate.
  - split; [exact Hret | vm_compute; reflexivity].
Defined.

(** X19. [grab_data] while another thread holds the lock of the controller,
    the window being the one of the table in place: the [None] that
    [_acquire_spectrum] returns stops the first round with a
    [TypeError]. Nothing is published, nothing is asked of the SDK, and
    the viewer reports the [TypeError]. *)
Theorem grab_data_busy_reports_TypeError :
  forall (HW : Type) (sdk : Sdk.MozzaUSB HW) (Data : Type)
         (DataFromPlugins : Viewer.total -> exn + Data)
         (depth bound : nat) (Naverage : Z) (s : Viewer.State HW Data),
    0 < Naverage ->
    Mozza._lock (Viewer.controller s) = Lock.HeldByOther ->
    window_changed (Viewer.controller s) = false ->
    let r := Viewer.grab_data sdk DataFromPlugins depth bound Naverage s in
    fst r = Ret tt
    /\ Viewer.emitted (snd r) = Viewer.emitted s
    /\ Viewer.statuses (snd r)
       = Viewer.statuses s
         ++ [Viewer.Exception_text TypeError;
             Viewer.Text "Error while acquiring data"]
    /\ Mozza.calls (Viewer.controller (snd r))
       = Mozza.calls (Viewer.controller s).
Proof.
  intros HW sdk Data DataFromPlugins depth bound Naverage s Hn Hl Hwin r.
  unfold r. clear r.
  destruct (Z.to_nat Naverage) as [| n] eqn:Hnat; [lia |].
  erewrite grab_data_loop_raises; cycle 1.
  { rewrite Hnat. apply acquire_rounds_None.
    rewrite acquire_spectrum_same_window by exact Hwin.
    unfold bind, Mozza.lock_try_acquire. rewrite Hl. reflexivity. }
  cbn. rewrite <- app_assoc. repeat split.
Qed.

(** The theorem at work: a viewer whose controller has acquired the
    window [(0, 2)], and whose lock another thread then holds. *)
Lemma grab_data_busy_reports_TypeError_witness :
  let s := Faults.viewer
             (held_by_other
                (snd (Mozza.make_acquisition Sim.sdk 8 8 0 2 false
                        (Sim.connected Sim.healthy Sim.no_files)))) in
  let r := Viewer.grab_data Sim.sdk Faults.DataFromPlugins 8 8 3 s in
  fst r = Ret tt
  /\ Viewer.emitted (snd r) = []
  /\ Viewer.statuses (snd r)
     = [Viewer.Exception_text TypeError;
        Viewer.Text "Error while acquiring data"]
  /\ Mozza.calls (Viewer.controller (snd r))
     = Mozza.calls (Viewer.controller s).
Proof.
  intros s.
  apply (@grab_data_busy_reports_TypeError _ Sim.sdk Viewer.total
           Faults.DataFromPlugins 8 8 3 s).
  - lia.
  - vm_compute. reflexivity.
  - vm_compute. reflexivity.
Defined.

(** X20. [grab_data] on a controller whose [acquisition] is still the
    [Acquisition(None, None)] of the constructor (the viewer never
    calls [make_acquisition]), as it is after [connect_device]:
    [_acquire_spectrum] raises [TypeError] in [load_table(None, None)],
    so nothing is published and nothing is asked of the SDK. The
    controller is left with the two windows equal: the next
    [grab_data] acquires with the table the device happens to have. *)
Theorem grab_data_first_after_connect :
  forall (HW : Type) (sdk : Sdk.MozzaUSB HW) (Data : Type)
         (DataFromPlugins : Viewer.total -> exn + Data)
         (depth bound : nat) (Naverage : Z) (s : Viewer.State HW Data),
    0 < Naverage ->
    Spectro.acquisition (Mozza.spectro (Viewer.controller s))
    = {| Spectro.start := PNone; Spectro.stop := PNone |} ->
    window_changed (Viewer.controller s) = true ->
    let r := Viewer.grab_data sdk DataFromPlugins (S depth) bound Naverage s in
    fst r = Ret tt
    /\ Viewer.emitted (snd r) = Viewer.emitted s
    /\ Viewer.statuses (snd r)
       = Viewer.statuses s
         ++ [Viewer.Exception_text TypeError;
             Viewer.Text "Error while acquiring data"]
    /\ Mozza.calls (Viewer.controller (snd r))
       = Mozza.calls (Viewer.controller s)
    /\ window_changed (Viewer.controller (snd r)) = false.
Proof.
  intros HW sdk Data DataFromPlugins depth bound Naverage s Hn Hacq Hwin r.
  unfold r. clear r.
  destruct (Z.to_nat Naverage) as [| n] eqn:Hnat; [lia |].
  erewrite grab_data_loop_raises; cycle 1.
  { rewrite Hnat. apply acquire_rounds_raise.
    apply acquire_spectrum_no_window; assumption. }
  cbn [fst snd Viewer.emit_status Viewer.set_controller Viewer.emitted
       Viewer.statuses Viewer.controller].
  rewrite <- app_assoc.
  repeat split.
  unfold window_changed.
  cbn [Mozza._acquisition Mozza.set_table_window Mozza.spectro
       Spectro.start Spectro.stop].
  rewrite Hacq. reflexivity.
Qed.

(** The theorem at work: the first [grab_data] of a viewer whose
    controller has just been made and connected. *)
Lemma grab_data_first_after_connect_witness :
  let s := Faults.viewer (Sim.connected Sim.healthy Sim.no_files) in
  let r := Viewer.grab_data Sim.sdk Faults.DataFromPlugins 8 8 1 s in
  fst r = Ret tt
  /\ Viewer.emitted (snd r) = []
  /\ Viewer.statuses (snd r)
     = [Viewer.Exception_text TypeError;
        Viewer.Text "Error while acquiring data"]
  /\ Mozza.calls (Viewer.controller (snd r))
     = Mozza.calls (Viewer.controller s)
  /\ window_changed (Viewer.controller (snd r)) = false.
Proof.
  intros s.
  apply (@grab_data_first_after_connect _ Sim.sdk Viewer.total
           Faults.DataFromPlugins 7 8 1 s).
  - lia.
  - vm_compute. reflexivity.
  - vm_compute. reflexivity.
Defined.

(** X21. [grab_data(Naverage)] with [Naverage <= 0] runs no round: the
    controller is not called. With [Naverage = 0] the division raises
    [ZeroDivisionError] and nothing is published; with [Naverage < 0]
    the datum handed to [DataFromPlugins] is the float [-0.0] that
    [0 / Naverage] gives. *)
Theorem grab_data_without_rounds :
  forall (HW : Type) (sdk : Sdk.MozzaUSB HW) (Data : Type)
         (DataFromPlugins : Viewer.total -> exn + Data)
         (depth bound : nat) (Naverage : Z) (s : Viewer.State HW Data),
    Naverage <= 0 ->
    let r := Viewer.grab_data sdk DataFromPlugins depth bound Naverage s in
    Viewer.controller (snd r) = Viewer.controller s
    /\ (Naverage = 0 ->
        Viewer.emitted (snd r) = Viewer.emitted s
        /\ Viewer.statuses (snd r)
           = Viewer.statuses s
             ++ [Viewer.Exception_text ZeroDivisionError;
                 Viewer.Text "Error while acquiring data"])
    /\ (Naverage < 0 ->
        forall data,
          DataFromPlugins (Viewer.Float (-0)%float) = inr data ->
          Viewer.emitted (snd r) = Viewer.emitted s ++ [data]
          /\ Viewer.statuses (snd r) = Viewer.statuses s).
Proof.
  intros HW sdk Data DataFromPlugins depth bound Naverage s Hn r.
  unfold r. clear r.
  unfold Viewer.grab_data, try_except, try_except_else.
  replace (Z.to_nat Naverage) with O by lia.
  cbn [Viewer.acquire_rounds]. unfold bind, lift, ret, raise, modify.
  cbv beta iota. unfold Viewer.idiv.
  destruct (Naverage =? 0) eqn:Hz;
    [apply Z.eqb_eq in Hz | apply Z.eqb_neq in Hz].
  - cbn. split; [reflexivity |]. split.
    + intros _. rewrite <- app_assoc. split; reflexivity.
    + intros Hneg. lia.
  - replace (Naverage <? 0) with true by (symmetry; apply Z.ltb_lt; lia).
    cbv beta iota.
    destruct (DataFromPlugins (Viewer.Float (-0)%float)) as [e | data] eqn:Hd;
      cbn.
    + split; [reflexivity |]. split; [intros H0; lia |].
      intros _ data H. discriminate H.
    + split; [reflexivity |]. split; [intros H0; lia |].
      intros _ data' H. injection H as <-. split; reflexivity.
Qed.

(** The theorem at work: [grab_data(0)]. *)
Lemma grab_data_without_rounds_witness :
  let s := Faults.viewer (Sim.connected Sim.healthy Sim.no_files) in
  let r := Viewer.grab_data Sim.sdk Faults.DataFromPlugins 8 8 0 s in
  Viewer.emitted (snd r) = []
  /\ Viewer.statuses (snd r)
     = [Viewer.Exception_text ZeroDivisionError;
        Viewer.Text "Error while acquiring data"].
Proof.
  intros s.
  apply (@grab_data_without_rounds _ Sim.sdk Viewer.total
           Faults.DataFromPlugins 8 8 0 s); [lia | reflexivity].
Defined.

(* ================================================================== *)
(** * read_raw: the buffer that was never allocated *)
(* ================================================================== *)

Section EmptyBuffer.
Context {HW : Type} (sdk : Sdk.MozzaUSB HW).

(** [0 / f / 64 > 1] is false for every float [f]. *)
Lemma zero_time_not_above_one (f : float) :
  (1 <? 0 / f / 64)%float = false.
Proof.
  rewrite ltb_spec, !div_spec.
  change (Prim2SF 0) with (S754_zero false).
  destruct (Prim2SF f) as [s | s | | s m e]; try destruct s; reflexivity.
Qed.

(** The acquisition time of an empty buffer. *)
Lemma acquisition_time_empty (f : float) :
  (f =? 0)%float = false ->
  Mozza.acquisition_time 0 f = inr (0 / f / 64)%float.
Proof.
  intros Hf. unfold Mozza.acquisition_time.
  change (py_float (PInt 0)) with (@inr exn float 0%float).
  unfold py_truediv. rewrite Hf. reflexivity.
Qed.

End EmptyBuffer.

(** X22. [read_raw] on the external trigger with the empty buffer that the
    constructor makes (no table has been written with success yet) and
    a trigger frequency that is not zero: the acquisition time is
    [0 / freq / 64], never above 1, so the data is read with one
    [device.read_raw()] and the chunked read is not entered, whatever
    the frequency. *)
Theorem read_raw_empty_buffer_reads_once :
  forall (HW : Type) (sdk : Sdk.MozzaUSB HW) (bound : nat)
         (w : Mozza.World HW) (freq : pyval) (f : float)
         (d : Sdk.Device HW),
    Sdk.trigger_source (Sdk.acquisition_params (Mozza.device w))
    = Sdk.EXTERNAL ->
    Mozza.buffer w = [] ->
    Sdk.get_trigger_frequency sdk (Mozza.device w) = (Sdk.Ok freq, d) ->
    py_float freq = inr f ->
    (f =? 0)%float = false ->
    Mozza.read_raw sdk bound w
    = Mozza.call (Sdk.Call_read_raw None) (Sdk.read_raw sdk None)
        (Mozza.set_calls
           (Mozza.calls w ++ [(Sdk.Call_get_trigger_frequency, true)])
           (Mozza.set_device d w)).
Proof.
  intros HW sdk bound w freq f d Hsrc Hbuf Hfreq Hf Hnz.
  unfold Mozza.read_raw.
  unfold bind at 1. unfold gets at 1. cbv beta iota. rewrite Hsrc.
  erewrite bind_ret_step; cycle 1.
  { apply call_ok_step. exact Hfreq. }
  rewrite Hf. unfold lift at 1. unfold bind at 1. unfold ret at 1.
  cbv beta iota. rewrite Hnz.
  unfold bind at 1. unfold gets at 1. cbv beta iota.
  cbn [Mozza.buffer Mozza.set_calls Mozza.set_device].
  rewrite Hbuf. cbn [List.length Z.of_nat].
  rewrite acquisition_time_empty by exact Hnz.
  unfold lift at 1. unfold bind at 1. unfold ret at 1. cbv beta iota.
  rewrite zero_time_not_above_one. reflexivity.
Qed.

(** The theorem at work: a new object switched to the external trigger,
    on an instrument that reports 10 kHz. *)
Lemma read_raw_empty_buffer_reads_once_witness :
  let w := snd (Mozza.set_ext_trigger Sim.sdk true false false
                  (Sim.new Sim.healthy Sim.no_files)) in
  Mozza.calls (snd (Mozza.read_raw Sim.sdk 8 w))
  = [(Sdk.Call_get_trigger_frequency, true); (Sdk.Call_read_raw None, true)].
Proof.
  intros w.
  erewrite (@read_raw_empty_buffer_reads_once _ Sim.sdk 8 w
              (PFloat 10000) 10000%float).
  - vm_compute. reflexivity.
  - vm_compute. reflexivity.
  - vm_compute. reflexivity.
  - vm_compute. reflexivity.
  - vm_compute. reflexivity.
  - vm_compute. reflexivity.
Defined.

(* ================================================================== *)
(** * commit_settings: a change of the serial or of the exposure *)
(* ================================================================== *)

Section CommitSettings.
Context {HW : Type} (sdk : Sdk.MozzaUSB HW).

Lemma connect_device_extends serial :
  frames (@trace_extends HW) (Mozza.connect_device sdk serial).
Proof. apply frames_connect_device; extends_side. Qed.

(** After a [disconnect] that succeeds, the commit of a serial is the
    [connect_device] of the controller. *)
Lemma commit_serial_after_disconnect Data value
    (s : Viewer.State HW Data) d :
  Sdk.disconnect sdk (Mozza.device (Viewer.controller s)) = (Sdk.Ok tt, d) ->
  let w1 := Mozza.set_calls
              (Mozza.calls (Viewer.controller s)
               ++ [(Sdk.Call_disconnect, true)])
              (Mozza.set_device d (Viewer.controller s)) in
  Viewer.commit_settings sdk (Viewer.Serial value) s
  = (fst (Mozza.connect_device sdk value w1),
     Viewer.set_controller (snd (Mozza.connect_device sdk value w1))
       (Viewer.set_controller w1 s)).
Proof.
  intros Hd w1.
  unfold Viewer.commit_settings, bind. unfold Viewer.on_controller at 1.
  unfold Mozza.disconnect_device, Mozza.call. rewrite Hd. cbv beta iota.
  unfold Viewer.on_controller.
  cbn [Viewer.controller Viewer.set_controller]. fold w1.
  destruct (Mozza.connect_device sdk value w1) as [o w2]. reflexivity.
Qed.

End CommitSettings.

(** X23. [commit_settings] for the parameter [serial] disconnects, then
    connects to the new serial. When [disconnect] fails, its
    [MozzaError] reaches PyMoDAQ and no connection is attempted. When
    it succeeds and [connect_device] then raises [SpectroError], the
    controller keeps the attributes of the connection it has just
    closed: [connected], [serial] and the wavelength axis are as they
    were. For the parameter [exposure] the controller is not touched
    and the setting is put back to [0.], whatever was entered.
    ([np.loadtxt] is taken to raise no [SpectroError] of its own.) *)
Theorem commit_settings_serial_and_exposure :
  forall (HW : Type) (sdk : Sdk.MozzaUSB HW) (Data : Type)
         (s : Viewer.State HW Data),
    (forall p m, Mozza.files (Viewer.controller s) p
                 <> Np.LoadRaises (SpectroError m)) ->
    (forall value code d,
        Sdk.disconnect sdk (Mozza.device (Viewer.controller s))
        = (Sdk.Failed code, d) ->
        let r := Viewer.commit_settings sdk (Viewer.Serial value) s in
        fst r = Raise (MozzaError code)
        /\ Mozza.calls (Viewer.controller (snd r))
           = Mozza.calls (Viewer.controller s) ++ [(Sdk.Call_disconnect, false)])
    /\ (forall value d m,
          Sdk.disconnect sdk (Mozza.device (Viewer.controller s))
          = (Sdk.Ok tt, d) ->
          let r := Viewer.commit_settings sdk (Viewer.Serial value) s in
          fst r = Raise (SpectroError m) ->
          Mozza.spectro (Viewer.controller (snd r))
          = Mozza.spectro (Viewer.controller s)
          /\ exists rest,
               Mozza.calls (Viewer.controller (snd r))
               = Mozza.calls (Viewer.controller s)
                 ++ (Sdk.Call_disconnect, true) :: rest)
    /\ (forall value,
          let r := Viewer.commit_settings sdk (Viewer.Exposure value) s in
          fst r = Ret tt
          /\ Viewer.exposure (snd r) = 0%float
          /\ Viewer.controller (snd r) = Viewer.controller s).
Proof.
  intros HW sdk Data s Hfiles. split; [| split].
  - intros value code d Hd r. unfold r.
    unfold Viewer.commit_settings, bind, Viewer.on_controller,
      Mozza.disconnect_device, Mozza.call.
    rewrite Hd. cbn. split; reflexivity.
  - intros value d m Hd r. unfold r. clear r.
    rewrite (commit_serial_after_disconnect sdk value s Hd).
    cbv zeta. set (w1 := Mozza.set_calls _ _).
    pose proof (connect_device_ends sdk value w1) as Hends.
    destruct (connect_device_extends sdk value w1) as [rest Hrest].
    cbv zeta in Hends.
    destruct (Mozza.connect_device sdk value w1) as [o w2].
    cbn [fst snd Viewer.controller Viewer.set_controller] in *.
    intros Ho. split.
    + destruct Hends as [[Hsame _] | [_ Hout]]; [exact Hsame |].
      exfalso. subst o.
      destruct Hout as [H | [[code H] | (e & H & Hwhat)]];
        try discriminate H.
      injection H as <-.
      destruct Hwhat as [[p Hp] | [H | [m' H]]]; try discriminate H.
      apply (Hfiles p m). exact Hp.
    + exists rest. rewrite Hrest. unfold w1.
      cbn [Mozza.calls Mozza.set_calls]. rewrite <- app_assoc. reflexivity.
  - intros value r. unfold r.
    unfold Viewer.commit_settings, Viewer.set_exposure, bind, gets, modify,
      Viewer.on_controller, Mozza.set_exposure, Mozza.get_exposure, ret.
    cbn. repeat split.
Qed.

(** The theorem at work: the serial of an instrument that refuses the
    connection is chosen in a viewer connected to instrument 12. The
    controller still reports the connection to ["Mozza#12"]. *)
Lemma commit_settings_serial_and_exposure_witness :
  let s := Faults.viewer (Sim.connected Sim.healthy Sim.no_files) in
  let r := Viewer.commit_settings (Faults.sdk ["connect"%string])
             (Viewer.Serial "Mozza#13") s in
  fst r = Raise (SpectroError (FromSdk 9))
  /\ Spectro._connected (Mozza.spectro (Viewer.controller (snd r))) = true
  /\ Spectro._serial (Mozza.spectro (Viewer.controller (snd r)))
     = "Mozza#12"%string.
Proof.
  intros s r. split; [vm_compute; reflexivity |].
  destruct (@commit_settings_serial_and_exposure _
              (Faults.sdk ["connect"%string]) Viewer.total s)
    as (_ & Hserial & _).
  - intros p m. vm_compute. discriminate.
  - destruct (Hserial "Mozza#13"%string
                (snd (Sdk.disconnect (Faults.sdk ["connect"%string])
                        (Mozza.device (Viewer.controller s))))
                (FromSdk 9)) as [Hsame _].
    + vm_compute. reflexivity.
    + vm_compute. reflexivity.
    + unfold r. rewrite Hsame. split; vm_compute; reflexivity.
Defined.

(* ================================================================== *)
(** * ini_detector: what the viewer reports of the connection *)
(* ================================================================== *)

Section IniDetector.
Context {HW : Type} (sdk : Sdk.MozzaUSB HW).

Lemma connect_device_does_not_hang serial (w : Mozza.World HW) h :
  fst (Mozza.connect_device sdk serial w) <> Hang h.
Proof.
  pose proof (connect_device_ends sdk serial w) as H. cbv zeta in H.
  intros Hh. rewrite Hh in H.
  destruct H as [[_ (e & H & _)] | [_ [H | [[code H] | (e & H & _)]]]];
    discriminate H.
Qed.

(** [ini_detector] as a function of the outcome of [connect_device] on
    the new controller. *)
Lemma ini_detector_by_connection Data d fs (s : Viewer.State HW Data) :
  let s0 :=
    Viewer.set_status
      {| Viewer.initialized := false; Viewer.info := Viewer.Text "";
         Viewer.has_controller := false |} s in
  let c := Mozza.connect_device sdk (Viewer.serial s) (Mozza.init d fs) in
  let s1 := Viewer.set_controller (snd c) s0 in
  Viewer.ini_detector sdk d fs s
  = match fst c with
    | Ret _ =>
        let status :=
          {| Viewer.initialized := true;
             Viewer.info := Viewer.Text "Connected to Mozza Spectrometer";
             Viewer.has_controller := true |} in
        (Ret status,
         Viewer.set_status status (Viewer.set_exposure_setting 0%float s1))
    | Raise e =>
        let status :=
          {| Viewer.initialized := false;
             Viewer.info := Viewer.Exception_text e;
             Viewer.has_controller := false |} in
        (Ret status,
         Viewer.set_status status
           (Viewer.emit_status (Viewer.Exception_text e) s1))
    | Hang h => (Hang h, s1)
    end.
Proof.
  intros s0 c s1. unfold s1, s0, c.
  unfold Viewer.ini_detector, try_except, try_except_else, bind, modify,
    gets, Viewer.on_controller, Mozza.get_exposure, ret.
  cbn [Viewer.controller Viewer.serial Viewer.set_status
       Viewer.set_controller].
  destruct (Mozza.connect_device sdk (Viewer.serial s) (Mozza.init d fs))
    as [[[] | e | h] w]; reflexivity.
Qed.

End IniDetector.

(** X24. [ini_detector] makes a new controller, connects it to the serial
    of the settings, and always returns [self.status]. The status says
    [initialized] exactly when [connect_device] has returned; otherwise
    its [info] is the text of the exception, which is also given to
    [emit_status]. In both cases the viewer keeps the new controller,
    as [connect_device] has left it: when it is [set_default_params]
    that has failed, the viewer is reported as not initialized while
    its controller is marked as connected. *)
Theorem ini_detector_reports_connection :
  forall (HW : Type) (sdk : Sdk.MozzaUSB HW) (Data : Type)
         (d : Sdk.Device HW) (fs : string -> Np.loaded)
         (s : Viewer.State HW Data),
    let c := Mozza.connect_device sdk (Viewer.serial s) (Mozza.init d fs) in
    let r := Viewer.ini_detector sdk d fs s in
    fst r = Ret (Viewer.status (snd r))
    /\ Viewer.controller (snd r) = snd c
    /\ Viewer.emitted (snd r) = Viewer.emitted s
    /\ (Viewer.initialized (Viewer.status (snd r)) = true <-> fst c = Ret tt)
    /\ (fst c = Ret tt ->
        Viewer.status (snd r)
        = {| Viewer.initialized := true;
             Viewer.info := Viewer.Text "Connected to Mozza Spectrometer";
             Viewer.has_controller := true |}
        /\ Viewer.exposure (snd r) = 0%float)
    /\ (forall e,
          fst c = Raise e ->
          Viewer.status (snd r)
          = {| Viewer.initialized := false;
               Viewer.info := Viewer.Exception_text e;
               Viewer.has_controller := false |}
          /\ Viewer.statuses (snd r)
             = Viewer.statuses s ++ [Viewer.Exception_text e])
    /\ (forall code,
          fst c = Raise (MozzaError code) ->
          connected_as (Viewer.serial s) 3%float (Viewer.controller (snd r))).
Proof.
  intros HW sdk Data d fs s c r.
  assert (Hr : r = _) by apply ini_detector_by_connection.
  cbv zeta in Hr. fold c in Hr.
  pose proof (@connect_device_does_not_hang HW sdk (Viewer.serial s)
                (Mozza.init d fs)) as Hhang.
  pose proof (connect_device_ends sdk (Viewer.serial s) (Mozza.init d fs))
    as Hends.
  cbv zeta in Hends. fold c in Hhang, Hends.
  destruct (fst c) as [[] | e | h] eqn:Hc.
  - rewrite Hr. cbn.
    split; [reflexivity |]. split; [reflexivity |].
    split; [reflexivity |]. split; [split; reflexivity |].
    split; [intros _; split; reflexivity |].
    split; intros ? Hx; discriminate Hx.
  - rewrite Hr. cbn.
    split; [reflexivity |]. split; [reflexivity |].
    split; [reflexivity |]. split; [split; discriminate |].
    split; [discriminate |].
    split.
    + intros e' Hx. injection Hx as <-. split; reflexivity.
    + intros code Hx. injection Hx as ->.
      destruct Hends as [[_ (e & Hx & Hwhat)] | [Hconn _]].
      * injection Hx as <-.
        destruct Hwhat as [[m Hx] | [[m Hx] | Hx]]; discriminate Hx.
      * exact Hconn.
  - exfalso. apply (Hhang h). reflexivity.
Qed.

(** The theorem at work: the instrument refuses [set_default_params]. *)
Lemma ini_detector_reports_connection_witness :
  let sdk := Faults.sdk ["set_default_params"%string] in
  let r := Viewer.ini_detector sdk (Sim.fresh Sim.healthy) Sim.no_files
             (Faults.viewer (Sim.new Sim.healthy Sim.no_files)) in
  Viewer.initialized (Viewer.status (snd r)) = false
  /\ Spectro._connected (Mozza.spectro (Viewer.controller (snd r))) = true.
Proof.
  intros sdk r. split; [vm_compute; reflexivity |].
  destruct (@ini_detector_reports_connection _ sdk Viewer.total
              (Sim.fresh Sim.healthy) Sim.no_files
              (Faults.viewer (Sim.new Sim.healthy Sim.no_files)))
    as (_ & _ & _ & _ & _ & _ & H).
  destruct (H 9) as [Hconn _].
  - vm_compute. reflexivity.
  - exact Hconn.
Defined.
